(** * gig-map: the figure builder, its elements and the result aggregation

    A shallow embedding of
      - [src/app/figure_builder.py]   (FigureArgument, FigureElement, FigureBuilder),
      - [src/app/gig_map_elements.py] (the heatmap, colorbar, tree and
        annotation elements, [order_by_linkage]),
      - [src/bin/aggregate_results.py] (the index columns and the chunked write
        of the distance table),
      - [src/bin/gather_alignments.py] (the files gathered from the two folders),
    followed by the properties checked against the specification and by
    further properties of the code.

    Conventions.  Python values that the code only moves around are kept as
    data ([Py.value], [pd.cell]); a method that mutates the builder or an
    element is a computation in the state-and-exception monad [Py.M], in
    which [self] is the position of the element in [fb.elements];
    [fb.log(...)] calls write to the console only and are left out.  What
    the repository uses but does not contain under src/ (the axis objects,
    the [enabled] flag) follows the specification and is marked as such;
    pandas, argparse, scipy and the tree builder are described by what the
    code relies on. *)

From Stdlib Require Import ZArith QArith Lia String Ascii List.
From stdpp Require Import base tactics option list gmap strings pretty sorting.

Local Open Scope string_scope.
Local Open Scope list_scope.
Local Open Scope Z_scope.

(** ** Python: slices, values, exceptions, effects *)

Module Py.

(** [l[:k]] for a list (and [df.iloc[:k]] for the rows of a table). *)
Definition slice_to {A} (k : Z) (l : list A) : list A :=
  if k <? 0 then take (Z.to_nat (Z.of_nat (length l) + k)) l
  else take (Z.to_nat k) l.

(** [l[k:]] for a list (and [df.iloc[k:]]). *)
Definition slice_from {A} (k : Z) (l : list A) : list A :=
  if k <? 0 then drop (Z.to_nat (Z.of_nat (length l) + k)) l
  else drop (Z.to_nat k) l.

(** [s[:k]] for a string; [None] is Python's [s[:None]]. *)
Definition str_slice_to (k : option Z) (s : string) : string :=
  match k with
  | None => s
  | Some k =>
      if k <? 0 then substring 0 (Z.to_nat (Z.of_nat (String.length s) + k)) s
      else substring 0 (Z.to_nat k) s
  end.

(** [s.replace("-", "_")]. *)
Fixpoint replace_dash (s : string) : string :=
  match s with
  | EmptyString => EmptyString
  | String c s' =>
      String (if Ascii.eqb c "-"%char then "_"%char else c) (replace_dash s')
  end.

(** Values that reach the program through [argparse]. *)
Inductive value :=
| None_
| Str (s : string)
| Int (z : Z).

(** Exceptions.  [Unmodelled] marks an input this embedding does not
    cover (an identifier that is not a string). *)
Inductive exn :=
| AssertionError (msg : string)
| AttributeError (attr : string)
| KeyError (key : string)
| IndexError
| TypeError (msg : string)
| ValueError (msg : string)
| FileNotFoundError (path : string)
| ArgumentError (msg : string)
| SystemExit (code : Z)
| Exception (msg : string)
| Unmodelled (what : string).

Inductive outcome (A : Type) :=
| Return (a : A)
| Raise (e : exn).
Arguments Return {A} a.
Arguments Raise {A} e.

Definition returned {A} (o : outcome A) : Prop := ∃ a, o = Return a.

(** A computation that reads and writes a state of type [S] and either
    returns or raises; what was written before a raise stays written. *)
Definition M (S A : Type) : Type := S → S * outcome A.

Definition ret {S A} (a : A) : M S A := λ s, (s, Return a).
Definition bind {S A B} (m : M S A) (k : A → M S B) : M S B :=
  λ s, match m s with
       | (s', Return a) => k a s'
       | (s', Raise e) => (s', Raise e)
       end.
Definition raise {S A} (e : exn) : M S A := λ s, (s, Raise e).
Definition get {S} : M S S := λ s, (s, Return s).
Definition modify {S} (f : S → S) : M S unit := λ s, (f s, Return tt).
Definition lift {S A} (o : outcome A) : M S A := λ s, (s, o).
Definition assert {S} (b : bool) (msg : string) : M S unit :=
  if b then ret tt else raise (AssertionError msg).

(** [for x in l: body(x)] *)
Fixpoint for_ {S A} (l : list A) (body : A → M S unit) : M S unit :=
  match l with
  | [] => ret tt
  | x :: l' => bind (body x) (λ _, for_ l' body)
  end.

(** Every run of [m] takes a state to one that is [R]-related to it,
    whether it returns or raises. *)
Definition keeps {S A} (R : S → S → Prop) (m : M S A) : Prop :=
  ∀ s, R s (m s).1.

End Py.

Global Instance Py_ret {S} : MRet (Py.M S) := @Py.ret S.
Global Instance Py_bind {S} : MBind (Py.M S) := λ A B k m, Py.bind m k.

(** Code that changes no state: the first exception ends the rest. *)
Global Instance outcome_ret : MRet Py.outcome := @Py.Return.
Global Instance outcome_bind : MBind Py.outcome := λ A B k o,
  match o with
  | Py.Return a => k a
  | Py.Raise e => Py.Raise e
  end.

(** ** Python dicts that are iterated over: string keys in insertion order *)

Module dict.

Definition t (A : Type) : Type := list (string * A).

(** [d[k] = v]: a key that is already there keeps its place. *)
Fixpoint set {A} (k : string) (v : A) (d : t A) : t A :=
  match d with
  | [] => [(k, v)]
  | (k', v') :: d' => if decide (k' = k) then (k, v) :: d' else (k', v') :: set k v d'
  end.

(** [d.get(k)] *)
Definition get {A} (k : string) (d : t A) : option A :=
  (λ ikv, ikv.2.2) <$> list_find (λ kv, kv.1 = k) d.

End dict.

(** ** The parts of pandas the elements use *)

Module pd.

Inductive cell :=
| NaN
| Str (s : string)
| Num (q : Q).

(** What [pd.read_csv(path)] returns: a header and rows of cells, under
    the default integer index. *)
Record Table := { header : list string; rows : list (list cell) }.

(** A table whose rows and columns are labelled by identifiers. *)
Record DataFrame := {
  index : list string;
  columns : list string;
  values : list (list cell)
}.

Definition position (s : string) (l : list string) : option nat :=
  fst <$> list_find (λ x, x = s) l.

(** [df[c]] on a [Table]: the cells of the column named [c]; a row that
    is too short reads as [NaN]. *)
Definition column (c : string) (t : Table) : option (list cell) :=
  (λ i, map (λ r, nth i r NaN) (rows t)) <$> position c (header t).

(** Identifiers are strings. *)
Definition ident (c : cell) : Py.outcome string :=
  match c with
  | Str s => Py.Return s
  | _ => Py.Raise (Py.Unmodelled "identifier is not a string")
  end.

Fixpoint idents (cs : list cell) : Py.outcome (list string) :=
  match cs with
  | [] => Py.Return []
  | c :: cs' =>
      match ident c, idents cs' with
      | Py.Return s, Py.Return ss => Py.Return (s :: ss)
      | Py.Raise e, _ => Py.Raise e
      | _, Py.Raise e => Py.Raise e
      end
  end.

(** [series.min()] and [series.max()] of a numeric column; [NaN] cells
    are skipped, a text cell is a [TypeError]. *)
Definition pick (better : Q → Q → bool) (acc : Py.outcome cell) (c : cell)
  : Py.outcome cell :=
  match acc, c with
  | Py.Raise e, _ => Py.Raise e
  | _, Str _ => Py.Raise (Py.TypeError "text in a numeric column")
  | Py.Return a, NaN => Py.Return a
  | Py.Return (Num a), Num q => Py.Return (Num (if better q a then q else a))
  | Py.Return _, Num q => Py.Return (Num q)
  end.
Definition min (cs : list cell) : Py.outcome cell :=
  fold_left (pick (λ q a, Qle_bool q a)) cs (Py.Return NaN).
Definition max (cs : list cell) : Py.outcome cell :=
  fold_left (pick (λ q a, Qle_bool a q)) cs (Py.Return NaN).

(** The order of Python strings. *)
Definition str_le (s1 s2 : string) : Prop := String.leb s1 s2 = true.
Global Instance str_le_dec s1 s2 : Decision (str_le s1 s2).
Proof. unfold str_le. apply _. Defined.

(** The sorted distinct values of an identifier column. *)
Definition labels (ids : list string) : list string :=
  merge_sort str_le (remove_dups ids).

(** The value recorded for the pair [(y, x)], [NaN] when there is none. *)
Definition entry (y x : string) (entries : list (string * string * cell)) : cell :=
  match list_find (λ e, e.1 = (y, x)) entries with
  | Some (_, (_, v)) => v
  | None => NaN
  end.

(** [df_long.pivot(index=y_col, columns=x_col, values=val_col)], given
    the three columns. *)
Definition pivot (ys xs : list string) (vs : list cell) : Py.outcome DataFrame :=
  if decide (NoDup (zip ys xs)) then
    Py.Return {|
      index := labels ys;
      columns := labels xs;
      values :=
        map (λ y, map (λ x, entry y x (zip (zip ys xs) vs)) (labels xs)) (labels ys)
    |}
  else Py.Raise (Py.ValueError "Index contains duplicate entries, cannot reshape").

(** [df.fillna(v)] *)
Definition fill (v : Q) (c : cell) : cell :=
  match c with
  | NaN => Num v
  | _ => c
  end.
Definition fillna (v : Q) (df : DataFrame) : DataFrame :=
  {| index := index df; columns := columns df;
     values := map (map (fill v)) (values df) |}.

(** [df.T] *)
Definition T (df : DataFrame) : DataFrame :=
  {| index := columns df; columns := index df;
     values :=
       map (λ j, map (λ r, nth j r NaN) (values df)) (seq 0 (length (columns df))) |}.


(** [df.set_index(c)] on a table just read: the cells of column [c]
    become the index, the other columns stay. *)
Definition set_index (c : string) (t : Table) : Py.outcome DataFrame :=
  match position c (header t) with
  | None => Py.Raise (Py.KeyError c)
  | Some i =>
      match idents (map (λ r, nth i r NaN) (rows t)) with
      | Py.Raise e => Py.Raise e
      | Py.Return ids =>
          Py.Return {|
            index := ids;
            columns := take i (header t) ++ drop (S i) (header t);
            values := map (λ r, take i r ++ drop (S i) r) (rows t)
          |}
      end
  end.

(** [df[c]] on a [DataFrame]. *)
Definition series (c : string) (df : DataFrame) : option (list cell) :=
  (λ j, map (λ r, nth j r NaN) (values df)) <$> position c (columns df).

(** [df.assign(c=cells)]: the column [c] is replaced, or added last. *)
Definition assign (c : string) (cells : list cell) (df : DataFrame) : DataFrame :=
  match position c (columns df) with
  | Some j =>
      {| index := index df; columns := columns df;
         values := zip_with (λ r v, <[j := v]> r) (values df) cells |}
  | None =>
      {| index := index df; columns := columns df ++ [c];
         values := zip_with (λ r v, r ++ [v]) (values df) cells |}
  end.

(** The row labelled [y], a row of [NaN] when there is none. *)
Definition row (df : DataFrame) (y : string) : list cell :=
  match position y (index df) with
  | Some i => nth i (values df) []
  | None => replicate (length (columns df)) NaN
  end.

(** [df.reindex(index=ys)] *)
Definition reindex_index (ys : list string) (df : DataFrame) : Py.outcome DataFrame :=
  if decide (NoDup (index df)) then
    Py.Return {| index := ys; columns := columns df; values := map (row df) ys |}
  else Py.Raise (Py.ValueError "cannot reindex on an axis with duplicate labels").



End pd.

(** ** [src/app/figure_builder.py] *)

Module FigureArgument.

Inductive arg_type := str | int.

Record t := {
  key : string;
  description : string;
  type : arg_type;
  default : Py.value
}.

Definition has_space (s : string) : bool :=
  existsb (Ascii.eqb " ") (list_ascii_of_string s).

(** The constructor: [assert not " " in key]. *)
Definition __init__ (key description : string) (type : arg_type)
    (default : Py.value) : Py.outcome t :=
  if has_space key then Py.Raise (Py.AssertionError "key cannot contain spaces")
  else Py.Return {| key := key; description := description;
                    type := type; default := default |}.

End FigureArgument.

Module FigureElement.

(** The element classes of [gig_map_elements.py], each with the settings
    its constructor stores on the object. *)
Inductive kind :=
| AxisAnnot (axis_label orient : string) (index_pos : Z) (id_col : string)
| GenomeTree (x_index y_index : Z)
| HeatmapElement (x_axis x_col y_axis y_col val_col : string) (fill_value : Q)
    (x_index y_index : Z)
| HeatmapColorbarElement (heatmap_id : string) (x_index y_index : Z) (label : string).

(** What [make_nj_tree] returns, as far as the axis order is concerned;
    the coordinates and hover text only reach the canvas. *)
Record NodePositions := { genome_order : list string }.

(** An element object.  The last six fields are the attributes that a
    read step attaches ([None] while unset); [heatmap_elem] refers to an
    element by its position in the builder's list. *)
Record t := {
  id : string;
  args : list FigureArgument.t;
  cls : kind;
  enabled : bool;
  colorscale : option Py.value;
  min_val : option pd.cell;
  max_val : option pd.cell;
  df_wide : option pd.DataFrame;
  node_positions : option NodePositions;
  heatmap_elem : option nat
}.

(** A fresh element: nothing attached yet, and enabled (the spec:
    "enabled defaults to true"). *)
Definition new (id : string) (args : list FigureArgument.t) (cls : kind) : t :=
  {| id := id; args := args; cls := cls; enabled := true;
     colorscale := None; min_val := None; max_val := None; df_wide := None;
     node_positions := None; heatmap_elem := None |}.

(** [FigureElement(id=..., args=..., read_f=..., plot_f=...)], called for
    an object of the class [cls].  [None] stands for an [id] that is not a
    string and for [args] that is not a list; [read_f] and [plot_f] say
    whether a function was given (both default to [None]). *)
Definition __init__ (id : option string) (args : option (list FigureArgument.t))
    (read_f plot_f : bool) (cls : kind) : Py.outcome t :=
  match id, args with
  | None, _ => Py.Raise (Py.AssertionError "id must be provided as a str")
  | Some _, None => Py.Raise (Py.AssertionError "args must be provided as a list")
  | Some id, Some args =>
      if negb read_f then Py.Raise (Py.AssertionError "read_f must be a function")
      else if negb plot_f then Py.Raise (Py.AssertionError "plot_f must be a function")
      else Py.Return (new id args cls)
  end.

(** Modelled from the spec: [disable()] and the [enabled] flag are used by
    every element of gig_map_elements.py but are not defined by the
    FigureElement class of figure_builder.py; "enabled defaults to true; an
    Element may set it to false during its read step". *)
Definition disable (e : t) : t :=
  {| id := id e; args := args e; cls := cls e; enabled := false;
     colorscale := colorscale e; min_val := min_val e; max_val := max_val e;
     df_wide := df_wide e; node_positions := node_positions e;
     heatmap_elem := heatmap_elem e |}.

Definition set_colorscale (v : Py.value) (e : t) : t :=
  {| id := id e; args := args e; cls := cls e; enabled := enabled e;
     colorscale := Some v; min_val := min_val e; max_val := max_val e;
     df_wide := df_wide e; node_positions := node_positions e;
     heatmap_elem := heatmap_elem e |}.

Definition set_min_val (c : pd.cell) (e : t) : t :=
  {| id := id e; args := args e; cls := cls e; enabled := enabled e;
     colorscale := colorscale e; min_val := Some c; max_val := max_val e;
     df_wide := df_wide e; node_positions := node_positions e;
     heatmap_elem := heatmap_elem e |}.

Definition set_max_val (c : pd.cell) (e : t) : t :=
  {| id := id e; args := args e; cls := cls e; enabled := enabled e;
     colorscale := colorscale e; min_val := min_val e; max_val := Some c;
     df_wide := df_wide e; node_positions := node_positions e;
     heatmap_elem := heatmap_elem e |}.

Definition set_df_wide (df : pd.DataFrame) (e : t) : t :=
  {| id := id e; args := args e; cls := cls e; enabled := enabled e;
     colorscale := colorscale e; min_val := min_val e; max_val := max_val e;
     df_wide := Some df; node_positions := node_positions e;
     heatmap_elem := heatmap_elem e |}.


Definition set_heatmap_elem (i : nat) (e : t) : t :=
  {| id := id e; args := args e; cls := cls e; enabled := enabled e;
     colorscale := colorscale e; min_val := min_val e; max_val := max_val e;
     df_wide := df_wide e; node_positions := node_positions e;
     heatmap_elem := Some i |}.

End FigureElement.

Module FigureAxis.

(** Modelled from the spec: the axis objects behind [fb.axis(name)] are
    used by the elements of gig_map_elements.py but their class is not in
    src/; this is the Axis of the spec's data model and its contract
    (section 4.1). *)
Record t := {
  name : string;
  exists_ : bool;
  order : list string;
  is_fixed : bool;
  label_of : gmap string string
}.

(** The placeholder made on first access. *)
Definition empty (name : string) : t :=
  {| name := name; exists_ := false; order := []; is_fixed := false;
     label_of := ∅ |}.

Definition member_set (a : t) : gset string := list_to_set (order a).
Definition length (a : t) : nat := List.length (order a).
Definition label_dict (a : t) : gmap string string := label_of a.
(** An identifier without a label is its own label. *)
Definition labels (a : t) : list string :=
  map (λ i, default i (label_of a !! i)) (order a).

(** Members not yet in the order are appended, the others keep their place. *)
Definition extend (order keys : list string) : list string :=
  fold_left (λ o k, if decide (k ∈ o) then o else o ++ [k]) keys order.

(** A later label for the same identifier replaces the earlier one. *)
Definition relabel (labels : gmap string string) (series : list (string * string))
  : gmap string string :=
  fold_left (λ m kv, <[kv.1 := kv.2]> m) series labels.

(** Modelled from the spec: [Axis.set(series)] "if the Axis does not yet
    exist, initializes order from the series' key sequence and label_of
    from its values; if it already exists, extends label_of/order with any
    new members but must not silently reorder (label overwrite for
    already-known IDs is allowed and is last-writer-wins)". *)
Definition set (series : list (string * string)) (a : t) : t :=
  if exists_ a then
    {| name := name a; exists_ := true; order := extend (order a) series.*1;
       is_fixed := is_fixed a; label_of := relabel (label_of a) series |}
  else
    {| name := name a; exists_ := true; order := series.*1;
       is_fixed := is_fixed a; label_of := relabel ∅ series |}.

(** Modelled from the spec: [Axis.set_order(sequence)] "no-op with a
    loggable warning if is_fixed is true; otherwise replaces order with
    sequence (... unknown members are an error)".  The members known to
    an axis are those of [member_set]; an axis that does not exist yet has
    no membership to check against. *)
Definition set_order (sequence : list string) (a : t) : Py.outcome t :=
  if is_fixed a then Py.Return a
  else if exists_ a && negb (forallb (λ k, bool_decide (k ∈ member_set a)) sequence)
  then Py.Raise (Py.ValueError "unknown members")
  else Py.Return {| name := name a; exists_ := exists_ a; order := sequence;
                    is_fixed := is_fixed a; label_of := label_of a |}.

(** Modelled from the spec: [Axis.fix()], "exposed as setting
    is_fixed = True". *)
Definition fix_ (a : t) : t :=
  {| name := name a; exists_ := exists_ a; order := order a;
     is_fixed := true; label_of := label_of a |}.

End FigureAxis.

Module FigureBuilder.

(** What a step can be handed. *)
Inductive arg :=
| Builder                                             (* the FigureBuilder instance *)
| Subplots                                            (* [self.subplots] *)
| Namespace (ns : gmap string Py.value)               (* [self.params[id]] *)
| Loaded (v : Py.value)                               (* [self.data[id]] *)
| Params (p : gmap string (gmap string Py.value))     (* [self.params] *)
| Data (d : gmap string Py.value).                    (* [self.data] *)

(** Calls that the properties below speak about.  [fixed] is the
    [is_fixed] flag of the axis at the moment of the call. *)
Inductive event :=
| read_f_called (id : string) (positional : list arg) (keywords : gmap string Py.value)
| plot_f_called (id : string) (positional : list arg)
| order_by_linkage_called (axis : string) (fixed : bool) (df : pd.DataFrame)
| set_order_called (axis : string) (fixed : bool) (order : list string)
| set_called (axis : string) (series : list (string * string)).

(** The builder: its attributes, the axis registry behind [fb.axis(...)],
    and the calls made so far (oldest first). *)
Record t := {
  args : list FigureArgument.t;
  elements : list FigureElement.t;
  params : gmap string (gmap string Py.value);
  data : gmap string Py.value;
  axes : gmap string FigureAxis.t;
  events : list event
}.

Definition with_elements (f : list FigureElement.t → list FigureElement.t) (fb : t) : t :=
  {| args := args fb; elements := f (elements fb); params := params fb;
     data := data fb; axes := axes fb; events := events fb |}.
Definition with_params
    (f : gmap string (gmap string Py.value) → gmap string (gmap string Py.value))
    (fb : t) : t :=
  {| args := args fb; elements := elements fb; params := f (params fb);
     data := data fb; axes := axes fb; events := events fb |}.
Definition with_data (f : gmap string Py.value → gmap string Py.value) (fb : t) : t :=
  {| args := args fb; elements := elements fb; params := params fb;
     data := f (data fb); axes := axes fb; events := events fb |}.
Definition with_axes (f : gmap string FigureAxis.t → gmap string FigureAxis.t)
    (fb : t) : t :=
  {| args := args fb; elements := elements fb; params := params fb;
     data := data fb; axes := f (axes fb); events := events fb |}.
Definition record (ev : event) (fb : t) : t :=
  {| args := args fb; elements := elements fb; params := params fb;
     data := data fb; axes := axes fb; events := events fb ++ [ev] |}.

Definition add_events (evs : list event) (fb : t) : t :=
  {| args := args fb; elements := elements fb; params := params fb;
     data := data fb; axes := axes fb; events := events fb ++ evs |}.

(** The axis a recorded call is about. *)
Definition event_axis (ev : event) : option string :=
  match ev with
  | order_by_linkage_called axis _ _ => Some axis
  | set_order_called axis _ _ => Some axis
  | set_called axis _ => Some axis
  | _ => None
  end.

(** A call for an order, or to [set_order], on an axis that was not fixed
    when the call was made. *)
Definition unfixed_call (ev : event) : Prop :=
  match ev with
  | order_by_linkage_called _ fixed _ => fixed = false
  | set_order_called _ fixed _ => fixed = false
  | _ => True
  end.

(** *** Construction *)

(** The loop of [validate_elements]: [all_ids] collects the ids seen. *)
Fixpoint unique_ids (all_ids : gset string) (l : list FigureElement.t)
  : Py.outcome unit :=
  match l with
  | [] => Py.Return tt
  | element :: l' =>
      if decide (FigureElement.id element ∈ all_ids)
      then Py.Raise (Py.AssertionError "Element id is not unique")
      else unique_ids ({[FigureElement.id element]} ∪ all_ids) l'
  end.

(** [validate_elements(self, elements)].  The loop runs over
    [self.elements], the attribute of the instance ([None] while it has
    not been assigned), and the argument [elements] is returned. *)
Definition validate_elements (self_elements : option (list FigureElement.t))
    (elements : list FigureElement.t) : Py.outcome (list FigureElement.t) :=
  match self_elements with
  | None => Py.Raise (Py.AttributeError "elements")
  | Some l =>
      match unique_ids ∅ l with
      | Py.Raise e => Py.Raise e
      | Py.Return _ => Py.Return elements
      end
  end.

(** [FigureBuilder(args=..., read_f=..., elements=...)].  [read_f] says
    whether a function was given.  [self.elements = self.validate_elements(elements)]
    is the first assignment to [self.elements], which is therefore still
    missing while [validate_elements] runs. *)
Definition __init__ (args : list FigureArgument.t) (read_f : bool)
    (elements : list FigureElement.t) : Py.outcome t :=
  if negb read_f then Py.Raise (Py.AssertionError "")
  else
    match validate_elements None elements with
    | Py.Raise e => Py.Raise e
    | Py.Return elements' =>
        Py.Return {| args := args; elements := elements'; params := ∅;
                     data := ∅; axes := ∅; events := [] |}
    end.

(** *** Arguments *)

(** [self.params[ns]] on the [defaultdict(dict)]: a missing namespace
    reads as the empty dict. *)
Definition namespace (ns : string) (fb : t) : gmap string Py.value :=
  default ∅ (params fb !! ns).

(** [params[ns][k] = val] on the dict of dicts, and [params[ns][k]] read back. *)
Definition put (ns k : string) (val : Py.value)
    (p : gmap string (gmap string Py.value)) : gmap string (gmap string Py.value) :=
  <[ns := <[k := val]> (default ∅ (p !! ns))]> p.

Definition stored (ns k : string) (p : gmap string (gmap string Py.value))
  : option Py.value :=
  p !! ns ≫= (.!! k).

(** [self.params[ns][k] = val] *)
Definition store (ns k : string) (val : Py.value) : Py.M t unit :=
  Py.modify (with_params (put ns k val)).

(** The pairs [(element, arg)] in the order in which the two nested loops
    of [parse_args] and of [add_param] visit them, and
    [f"{element.id}_{arg.key.replace('-', '_')}"] for such a pair. *)
Definition element_args (fb : t) : list (FigureElement.t * FigureArgument.t) :=
  flat_map (λ element, map (λ arg, (element, arg)) (FigureElement.args element))
           (elements fb).

Definition element_kw (ea : FigureElement.t * FigureArgument.t) : string :=
  FigureElement.id ea.1 +:+ "_" +:+ Py.replace_dash (FigureArgument.key ea.2).

(** [add_param(self, kw, val)] *)
Definition add_param (kw : string) (val : Py.value) : Py.M t unit :=
  fb ← Py.get;
  match list_find (λ arg, Py.replace_dash (FigureArgument.key arg) = kw) (args fb) with
  | Some _ => store "global" kw val
  | None =>
      match list_find (λ ea, element_kw ea = kw) (element_args fb) with
      | Some (_, (element, arg)) =>
          store (FigureElement.id element) (FigureArgument.key arg) val
      | None => Py.raise (Py.Exception "Could not find a match for argument")
      end
  end.

(** The options given to [add_argument], without the leading "--", each
    with its default, in the order they are added. *)
Definition options (fb : t) : list (string * Py.value) :=
  map (λ arg, (FigureArgument.key arg, FigureArgument.default arg)) (args fb)
  ++ map (λ ea, (FigureElement.id ea.1 +:+ "-" +:+ FigureArgument.key ea.2,
                 FigureArgument.default ea.2))
         (element_args fb).

(** argparse: the attribute of the namespace that an option fills is the
    option string without its leading dashes and with every "-" turned
    into "_". *)
Definition dest (option : string) : string := Py.replace_dash option.

(** [setattr(namespace, k, v)]: an attribute keeps its place when it is
    overwritten. *)
Fixpoint setattr (k : string) (v : Py.value) (ns : list (string * Py.value))
  : list (string * Py.value) :=
  match ns with
  | [] => [(k, v)]
  | (k', v') :: ns' => if decide (k' = k) then (k, v) :: ns' else (k', v') :: setattr k v ns'
  end.

(** argparse: every destination starts with the default of the first
    option that names it. *)
Definition defaults (opts : list (string * Py.value)) : list (string * Py.value) :=
  fold_left (λ ns o, if decide (dest o.1 ∈ ns.*1) then ns else ns ++ [(dest o.1, o.2)])
            opts [].

(** argparse: what the [add_argument] calls do for the options [opts].
    The parser already has "--help", and an option string that is added
    twice is a conflict. *)
Definition add_arguments (opts : list (string * Py.value)) : Py.outcome unit :=
  if decide (NoDup ("help" :: opts.*1)) then Py.Return tt
  else Py.Raise (Py.ArgumentError "conflicting option string").

(** argparse: [parser.parse_args().__dict__.items()] for the options
    [opts] on a command line that supplies [argv]: pairs of an option,
    spelled out in full and without its leading dashes, and its converted
    value, in the order of the command line.  "--help" prints the help and
    exits, and an option that was not added is an error. *)
Definition parse (opts argv : list (string * Py.value))
  : Py.outcome (list (string * Py.value)) :=
  fold_left
    (λ acc ov,
       match acc with
       | Py.Raise e => Py.Raise e
       | Py.Return ns =>
           if decide (ov.1 = "help") then Py.Raise (Py.SystemExit 0)
           else if decide (ov.1 ∈ opts.*1) then Py.Return (setattr (dest ov.1) ov.2 ns)
           else Py.Raise (Py.SystemExit 2)
       end)
    argv (Py.Return (defaults opts)).

(** [parse_args(self)], on the command line [argv]. *)
Definition parse_args (argv : list (string * Py.value)) : Py.M t unit :=
  fb ← Py.get;
  Py.lift (add_arguments (options fb));;
  Py.modify (with_params (λ _, ∅));;
  ns ← Py.lift (parse (options fb) argv);
  Py.for_ ns (λ kv, add_param kv.1 kv.2).

(** The value that the command line [argv] gives the option [option]
    whose default is [default]: the last one supplied, or the default. *)
Definition given (option : string) (default : Py.value)
    (argv : list (string * Py.value)) : Py.value :=
  fold_left (λ acc ov, if decide (ov.1 = option) then ov.2 else acc) argv default.

(** Where the value of every declared argument is to be kept, with the
    value that [argv] gives it: the global arguments first, then the
    arguments of the elements. *)
Definition plan (fb : t) (argv : list (string * Py.value))
  : list (string * string * Py.value) :=
  map (λ arg, ("global", Py.replace_dash (FigureArgument.key arg),
               given (FigureArgument.key arg) (FigureArgument.default arg) argv))
      (args fb)
  ++ map (λ ea, (FigureElement.id ea.1, FigureArgument.key ea.2,
                 given (FigureElement.id ea.1 +:+ "-" +:+ FigureArgument.key ea.2)
                       (FigureArgument.default ea.2) argv))
         (element_args fb).

(** *** The two phases *)

Section Steps.

(** What a called step answers.  A step of this file's FigureElement is
    a plain function of its arguments, so its answer is a function of
    the call. *)
Context (invoke : event → Py.outcome Py.value).

Definition call (ev : event) : Py.M t Py.value :=
  Py.modify (record ev);; Py.lift (invoke ev).

(** [read_data(self)] *)
Definition read_data : Py.M t unit :=
  Py.modify (with_data (λ _, ∅));;
  fb ← Py.get;
  v ← call (read_f_called "global" [] (namespace "global" fb));
  Py.modify (with_data <["global" := v]>);;
  Py.for_ (elements fb) (λ element,
    fb ← Py.get;
    v ← call (read_f_called (FigureElement.id element) []
                (namespace (FigureElement.id element) fb));
    Py.modify (with_data <[FigureElement.id element := v]>)).

(** [make_plots(self)] *)
Definition make_plots : Py.M t unit :=
  fb ← Py.get;
  Py.for_ (elements fb) (λ element,
    fb ← Py.get;
    match data fb !! FigureElement.id element with
    | None => Py.raise (Py.KeyError (FigureElement.id element))
    | Some d =>
        _ ← call (plot_f_called (FigureElement.id element)
                    [Subplots;
                     Namespace (namespace (FigureElement.id element) fb);
                     Loaded d;
                     Params (params fb);
                     Data (data fb)]);
        mret tt
    end).

End Steps.

(** The call that [read_data] makes for the element [e], and the call
    that [make_plots] makes for it. *)
Definition read_call (fb : t) (e : FigureElement.t) : event :=
  read_f_called (FigureElement.id e) [] (namespace (FigureElement.id e) fb).

Definition plot_call (fb : t) (e : FigureElement.t) : event :=
  plot_f_called (FigureElement.id e)
    [Subplots;
     Namespace (namespace (FigureElement.id e) fb);
     Loaded (default Py.None_ (data fb !! FigureElement.id e));
     Params (params fb);
     Data (data fb)].

(** *** The axis registry *)

(** Modelled from the spec: [fb.axis(name)] is not defined by the
    FigureBuilder of figure_builder.py; "returns the Axis for name,
    creating an empty (not-yet-existing) placeholder on first access". *)
Definition axis (name : string) (fb : t) : FigureAxis.t :=
  default (FigureAxis.empty name) (axes fb !! name).

(** [fb.axis(name).is_fixed = True] *)
Definition fix_axis (name : string) : Py.M t unit :=
  Py.modify (λ fb, with_axes <[name := FigureAxis.fix_ (axis name fb)]> fb).

(** [fb.axis(name).set(series)] *)
Definition set_axis (name : string) (series : list (string * string)) : Py.M t unit :=
  Py.modify (record (set_called name series));;
  Py.modify (λ fb, with_axes <[name := FigureAxis.set series (axis name fb)]> fb).

(** [fb.axis(name).set_order(sequence)] *)
Definition set_axis_order (name : string) (sequence : list string) : Py.M t unit :=
  fb ← Py.get;
  Py.modify (record (set_order_called name (FigureAxis.is_fixed (axis name fb)) sequence));;
  a ← Py.lift (FigureAxis.set_order sequence (axis name fb));
  Py.modify (with_axes <[name := a]>).

(** From [fb] to [fb']: the new calls were made on axes that were not
    fixed, none of them is about an axis that was fixed in [fb], and every
    axis that was fixed in [fb] is the same in [fb']. *)
Definition respects_fixed (fb fb' : t) : Prop :=
  ∃ evs,
    events fb' = events fb ++ evs
    ∧ Forall (λ ev, unfixed_call ev
                    ∧ ∀ a, event_axis ev = Some a →
                           FigureAxis.is_fixed (axis a fb) = false) evs
    ∧ ∀ name, FigureAxis.is_fixed (axis name fb) = true → axis name fb' = axis name fb.

End FigureBuilder.

(** ** [src/app/gig_map_elements.py] *)

Module gig_map_elements.

(** The collaborators outside the repository: the files behind
    [pd.read_csv] and [open] ([None]: no such file), [make_nj_tree] of
    cartesian_tree, and scipy's
    [hierarchy.leaves_list(hierarchy.linkage(df, method, metric, optimal_ordering=True))]. *)
Record World := {
  read_csv : string → option pd.Table;
  read_text : string → option (list string);
  make_nj_tree : list string → pd.DataFrame → Py.outcome FigureElement.NodePositions;
  linkage_leaves : pd.DataFrame → string → string → Py.outcome (list nat)
}.

Section Elements.
Context (w : World).
Local Abbreviation M := (Py.M FigureBuilder.t).

(** [order_by_linkage(df, method, metric)] *)
Definition order_by_linkage (df : pd.DataFrame) (method metric : string)
  : Py.outcome (list string) :=
  match linkage_leaves w df method metric with
  | Py.Raise e => Py.Raise e
  | Py.Return L =>
      fold_right
        (λ i acc,
           match pd.index df !! i, acc with
           | Some label, Py.Return labels => Py.Return (label :: labels)
           | None, _ => Py.Raise Py.IndexError
           | _, Py.Raise e => Py.Raise e
           end)
        (Py.Return []) L
  end.

(** [read_lines(fb, fp)] *)
Definition read_lines (fp : string) : M (list string) :=
  match read_text w fp with
  | None => Py.raise (Py.AssertionError "File not found")
  | Some lines =>
      Py.assert (bool_decide (0 < List.length lines)%nat) "No lines found";;
      mret lines
  end.

(** The element object [self], found by its position in [fb.elements]. *)
Definition this (self : nat) : M FigureElement.t :=
  fb ← Py.get;
  match FigureBuilder.elements fb !! self with
  | Some e => mret e
  | None => Py.raise Py.IndexError
  end.

(** An assignment to an attribute of [self]. *)
Definition update (self : nat) (f : FigureElement.t → FigureElement.t) : M unit :=
  Py.modify (FigureBuilder.with_elements (alter f self)).

Definition open_csv (path : string) : M pd.Table :=
  match read_csv w path with
  | Some t => mret t
  | None => Py.raise (Py.FileNotFoundError path)
  end.

(** [kwargs[k]] *)
Definition kwarg (kwargs : gmap string Py.value) (k : string) : M Py.value :=
  match kwargs !! k with
  | Some v => mret v
  | None => Py.raise (Py.KeyError k)
  end.

(** [assert col in df_long.columns.values], then [df_long[col]]. *)
Definition checked_column (col : Py.value) (t : pd.Table) : M (list pd.cell) :=
  match col with
  | Py.Str c =>
      match pd.column c t with
      | Some cells => mret cells
      | None => Py.raise (Py.AssertionError "csv does not contain column")
      end
  | _ => Py.raise (Py.AssertionError "csv does not contain column")
  end.

(** [order_by_linkage(df)], called to order the axis [axis]. *)
Definition linkage_order (axis : string) (df : pd.DataFrame) : M (list string) :=
  fb ← Py.get;
  Py.modify (FigureBuilder.record
    (FigureBuilder.order_by_linkage_called axis
       (FigureAxis.is_fixed (FigureBuilder.axis axis fb)) df));;
  Py.lift (order_by_linkage df "ward" "euclidean").

(** The two [if not fb.axis(...).is_fixed:] blocks that end
    [HeatmapElement.read_f]. *)
Definition suggest_order (axis : string) (df : pd.DataFrame) : M unit :=
  fb ← Py.get;
  if negb (FigureAxis.is_fixed (FigureBuilder.axis axis fb)) then
    o ← linkage_order axis df;
    FigureBuilder.set_axis_order axis o
  else mret tt.

(** [HeatmapElement.read_f(self, fb, csv=None, **kwargs)] *)
Definition HeatmapElement_read_f (self : nat) (csv : option string)
    (kwargs : gmap string Py.value) : M unit :=
  e ← this self;
  match FigureElement.cls e with
  | FigureElement.HeatmapElement x_axis _ y_axis _ _ fill_value _ _ =>
      match csv with
      | None => update self FigureElement.disable
      | Some csv =>
          df_long ← open_csv csv;
          x_col ← kwarg kwargs (x_axis +:+ "_col");
          y_col ← kwarg kwargs (y_axis +:+ "_col");
          val_col ← kwarg kwargs "val_col";
          colorscale ← kwarg kwargs "colorscale";
          update self (FigureElement.set_colorscale colorscale);;
          xs ← checked_column x_col df_long;
          ys ← checked_column y_col df_long;
          vs ← checked_column val_col df_long;
          min_val ← Py.lift (pd.min vs);
          update self (FigureElement.set_min_val min_val);;
          max_val ← Py.lift (pd.max vs);
          update self (FigureElement.set_max_val max_val);;
          y_ids ← Py.lift (pd.idents ys);
          x_ids ← Py.lift (pd.idents xs);
          wide ← Py.lift (pd.pivot y_ids x_ids vs);
          update self (FigureElement.set_df_wide (pd.fillna fill_value wide));;
          suggest_order x_axis (pd.T (pd.fillna fill_value wide));;
          suggest_order y_axis (pd.fillna fill_value wide)
      end
  | _ => Py.raise (Py.TypeError "not a HeatmapElement")
  end.

(** [{element.id: element for element in fb.elements}]: for every id
    the position of the last element that has it. *)
Definition element_dict (fb : FigureBuilder.t) : gmap string nat :=
  fold_left (λ d ie, <[FigureElement.id ie.2 := ie.1]> d)
            (zip (seq 0 (List.length (FigureBuilder.elements fb)))
                 (FigureBuilder.elements fb))
            ∅.

(** [HeatmapColorbarElement.read_f(self, fb)] *)
Definition HeatmapColorbarElement_read_f (self : nat) : M unit :=
  e ← this self;
  match FigureElement.cls e with
  | FigureElement.HeatmapColorbarElement heatmap_id _ _ _ =>
      fb ← Py.get;
      let d := element_dict fb in
      (if d !! heatmap_id is None then update self FigureElement.disable else mret tt);;
      match d !! heatmap_id with
      | None => Py.raise (Py.KeyError heatmap_id)
      | Some h =>
          heatmap ← this h;
          (if FigureElement.enabled heatmap then mret tt
           else update self FigureElement.disable);;
          update self (FigureElement.set_heatmap_elem h)
      end
  | _ => Py.raise (Py.TypeError "not a HeatmapColorbarElement")
  end.



(** [lambda s: s[:max_label_len]], applied to a cell of the label column. *)
Definition trim (max_label_len : option Z) (c : pd.cell) : Py.outcome string :=
  match c with
  | pd.Str s => Py.Return (Py.str_slice_to max_label_len s)
  | _ => Py.Raise (Py.TypeError "object is not subscriptable")
  end.

Fixpoint apply_trim (max_label_len : option Z) (cs : list pd.cell)
  : Py.outcome (list string) :=
  match cs with
  | [] => Py.Return []
  | c :: cs' =>
      match trim max_label_len c, apply_trim max_label_len cs' with
      | Py.Return s, Py.Return ss => Py.Return (s :: ss)
      | Py.Raise e, _ => Py.Raise e
      | _, Py.Raise e => Py.Raise e
      end
  end.

(** [AxisAnnot.read_f(self, fb, csv, index_col, label_col, max_label_len, order)] *)
Definition AxisAnnot_read_f (self : nat) (csv index_col label_col : option string)
    (max_label_len : option Z) (order : option string) : M unit :=
  e ← this self;
  match FigureElement.cls e with
  | FigureElement.AxisAnnot axis_label _ _ _ =>
      match csv with
      | None => update self FigureElement.disable
      | Some csv =>
          Py.assert (bool_decide (is_Some (read_csv w csv))) "Cannot find file";;
          t ← open_csv csv;
          index_col ←
            match index_col with
            | Some c =>
                Py.assert (bool_decide (c ∈ pd.header t)) "Column not found in header";;
                mret c
            | None => Py.raise (Py.AssertionError "Column not found in header")
            end;
          df ← Py.lift (pd.set_index index_col t);
          labelled ←
            match label_col with
            | Some c =>
                Py.assert (bool_decide (c ∈ pd.columns df)) "Column not found in header";;
                mret (df, c)
            | None =>
                mret (pd.assign "_labels" (map pd.Str (pd.index df)) df, "_labels")
            end;
          df ←
            match order with
            | Some order =>
                index_order ← read_lines order;
                Py.for_ index_order (λ index_val,
                  Py.assert (bool_decide (index_val ∈ pd.index labelled.1))
                    "Value not found");;
                Py.lift (pd.reindex_index index_order labelled.1)
            | None => mret labelled.1
            end;
          match pd.series labelled.2 df with
          | None => Py.raise (Py.KeyError labelled.2)
          | Some cells =>
              trimmed ← Py.lift (apply_trim max_label_len cells);
              FigureBuilder.set_axis axis_label (zip (pd.index df) trimmed);;
              match order with
              | Some _ => FigureBuilder.fix_axis axis_label
              | None => mret tt
              end
          end
      end
  | _ => Py.raise (Py.TypeError "not an AxisAnnot")
  end.

End Elements.

(** *** The figure that the module declares *)

Definition argument (key description : string) (default : Py.value) : FigureArgument.t :=
  {| FigureArgument.key := key; FigureArgument.description := description;
     FigureArgument.type := FigureArgument.str; FigureArgument.default := default |}.

Definition AxisAnnot (id axis_label orient : string) (index_pos : Z) (id_col : string)
  : FigureElement.t :=
  FigureElement.new id
    [ argument "csv" ("File containing " +:+ axis_label +:+ " annotations (CSV)") Py.None_;
      argument "index-col" ("Column from the CSV identifying each " +:+ axis_label)
        (Py.Str (axis_label +:+ "_id"));
      argument "label-col" "Column from the CSV used for labeling" Py.None_;
      {| FigureArgument.key := "max-label-len";
         FigureArgument.description :=
           "Maximum number of characters allowed for " +:+ axis_label
             +:+ " labels (default: 60)";
         FigureArgument.type := FigureArgument.int;
         FigureArgument.default := Py.Int 60 |};
      argument "order"
        ("Text file containing ordered list of " +:+ axis_label +:+ " names (no header)")
        Py.None_ ]
    (FigureElement.AxisAnnot axis_label orient index_pos id_col).

Definition GeneAnnotations : FigureElement.t :=
  AxisAnnot "geneAnnot" "gene" "h" (-1) "combined_name".

Definition GenomeAnnotations : FigureElement.t :=
  AxisAnnot "genomeAnnot" "genome" "v" 2 "Formatted Name".

Definition GenomeTree : FigureElement.t :=
  FigureElement.new "genomeTree"
    [ argument "distmat"
        "Distance matrix used to generate genome dendrogram (optional)" Py.None_ ]
    (FigureElement.GenomeTree 0 0).

Definition HeatmapElement (id x_axis x_col y_axis y_col val_col : string)
    (fill_value : Q) (x_index y_index : Z) : FigureElement.t :=
  FigureElement.new id
    [ argument "csv" ("File containing " +:+ x_axis +:+ "-" +:+ y_axis +:+ " data")
        Py.None_;
      argument (x_axis +:+ "_col")
        ("Column in CSV containing " +:+ x_axis +:+ " data (default: " +:+ x_col)
        (Py.Str x_col);
      argument (y_axis +:+ "_col")
        ("Column in CSV containing " +:+ y_axis +:+ " data (default: " +:+ y_col)
        (Py.Str y_col);
      argument "val_col" "Column in CSV used to populate values" (Py.Str val_col);
      argument "colorscale" "Color scale used for values in heatmap" (Py.Str "blues") ]
    (FigureElement.HeatmapElement x_axis x_col y_axis y_col val_col fill_value
       x_index y_index).

Definition GeneGenomeHeatmap : FigureElement.t :=
  HeatmapElement "genomeHeatmap" "gene" "sseqid" "genome" "genome" "pident" 0 1 0.

Definition GeneGenomeColorbar : FigureElement.t :=
  FigureElement.new "genomeColorbar" []
    (FigureElement.HeatmapColorbarElement "genomeHeatmap" 2 (-1) "Percent Identity").

(** The builder that [GigMapFigure.__init__] asks for: the two global
    arguments and the five elements in their declaration order. *)
Definition GigMapFigure : FigureBuilder.t :=
  {| FigureBuilder.args :=
       [ argument "output-prefix" "Prefix for output file (default: gigmap-render)"
           (Py.Str "gigmap-render");
         argument "output-folder" "Folder for output file (default: ./)" (Py.Str "./") ];
     FigureBuilder.elements :=
       [ GenomeAnnotations; GeneAnnotations; GenomeTree; GeneGenomeHeatmap;
         GeneGenomeColorbar ];
     FigureBuilder.params := ∅;
     FigureBuilder.data := ∅;
     FigureBuilder.axes := ∅;
     FigureBuilder.events := [] |}.

(** *** The constructors *)

(** [assert x is not None, msg] *)
Definition required {A} (x : option A) (msg : string) : Py.outcome A :=
  match x with
  | Some a => Py.Return a
  | None => Py.Raise (Py.AssertionError msg)
  end.

(** [super().__init__(id=id, args=args)], as every element class calls
    it: neither [read_f] nor [plot_f] is passed on. *)
Definition super___init__ (id : option string) (args : list FigureArgument.t)
    (cls : FigureElement.kind) : Py.outcome FigureElement.t :=
  FigureElement.__init__ id (Some args) false false cls.

(** [HeatmapElement.__init__] *)
Definition HeatmapElement___init__ (id x_axis x_col y_axis y_col val_col : option string)
    (fill_value : option Q) (x_index y_index : option Z) : Py.outcome FigureElement.t :=
  x_axis ← required x_axis "Must provide x_axis=";
  x_col ← required x_col "Must provide x_col=";
  y_axis ← required y_axis "Must provide y_axis=";
  y_col ← required y_col "Must provide y_col=";
  val_col ← required val_col "Must provide val_col=";
  fill_value ← required fill_value "Must provide fill_value=";
  x_index ← required x_index "Must provide x_index=";
  y_index ← required y_index "Must provide y_index=";
  a1 ← FigureArgument.__init__ "csv"
         ("File containing " +:+ x_axis +:+ "-" +:+ y_axis +:+ " data")
         FigureArgument.str Py.None_;
  a2 ← FigureArgument.__init__ (x_axis +:+ "_col")
         ("Column in CSV containing " +:+ x_axis +:+ " data (default: " +:+ x_col)
         FigureArgument.str (Py.Str x_col);
  a3 ← FigureArgument.__init__ (y_axis +:+ "_col")
         ("Column in CSV containing " +:+ y_axis +:+ " data (default: " +:+ y_col)
         FigureArgument.str (Py.Str y_col);
  a4 ← FigureArgument.__init__ "val_col" "Column in CSV used to populate values"
         FigureArgument.str (Py.Str val_col);
  a5 ← FigureArgument.__init__ "colorscale" "Color scale used for values in heatmap"
         FigureArgument.str (Py.Str "blues");
  super___init__ id [a1; a2; a3; a4; a5]
    (FigureElement.HeatmapElement x_axis x_col y_axis y_col val_col fill_value
       x_index y_index).

(** [HeatmapColorbarElement.__init__] *)
Definition HeatmapColorbarElement___init__ (id heatmap_id : option string)
    (x_index y_index : option Z) (label : option string) : Py.outcome FigureElement.t :=
  heatmap_id ← required heatmap_id "Must provide heatmap_id=";
  x_index ← required x_index "Must provide x_index=";
  y_index ← required y_index "Must provide y_index=";
  label ← required label "Must provide label=";
  super___init__ id []
    (FigureElement.HeatmapColorbarElement heatmap_id x_index y_index label).

(** [GenomeTree.__init__] *)
Definition GenomeTree___init__ (x_index y_index : Z) : Py.outcome FigureElement.t :=
  a1 ← FigureArgument.__init__ "distmat"
         "Distance matrix used to generate genome dendrogram (optional)"
         FigureArgument.str Py.None_;
  super___init__ (Some "genomeTree") [a1] (FigureElement.GenomeTree x_index y_index).

(** [AxisAnnot.__init__] *)
Definition AxisAnnot___init__ (id axis_label orient : option string)
    (index_pos : option Z) (id_col : option string) : Py.outcome FigureElement.t :=
  axis_label ← required axis_label "Must provide axis_label=";
  orient ← required orient "Must provide orient=";
  index_pos ← required index_pos "Must provide index_pos=";
  id_col ← required id_col "Must provide id_col=";
  a1 ← FigureArgument.__init__ "csv"
         ("File containing " +:+ axis_label +:+ " annotations (CSV)")
         FigureArgument.str Py.None_;
  a2 ← FigureArgument.__init__ "index-col"
         ("Column from the CSV identifying each " +:+ axis_label)
         FigureArgument.str (Py.Str (axis_label +:+ "_id"));
  a3 ← FigureArgument.__init__ "label-col" "Column from the CSV used for labeling"
         FigureArgument.str Py.None_;
  a4 ← FigureArgument.__init__ "max-label-len"
         ("Maximum number of characters allowed for " +:+ axis_label
            +:+ " labels (default: 60)")
         FigureArgument.int (Py.Int 60);
  a5 ← FigureArgument.__init__ "order"
         ("Text file containing ordered list of " +:+ axis_label +:+ " names (no header)")
         FigureArgument.str Py.None_;
  super___init__ id [a1; a2; a3; a4; a5]
    (FigureElement.AxisAnnot axis_label orient index_pos id_col).

(** The classes that fix the settings. *)
Definition GeneGenomeHeatmap___init__ : Py.outcome FigureElement.t :=
  HeatmapElement___init__ (Some "genomeHeatmap") (Some "gene") (Some "sseqid")
    (Some "genome") (Some "genome") (Some "pident") (Some 0%Q) (Some 1) (Some 0).

Definition GeneGenomeColorbar___init__ : Py.outcome FigureElement.t :=
  HeatmapColorbarElement___init__ (Some "genomeColorbar") (Some "genomeHeatmap")
    (Some 2) (Some (-1)) (Some "Percent Identity").

Definition GeneAnnotations___init__ : Py.outcome FigureElement.t :=
  AxisAnnot___init__ (Some "geneAnnot") (Some "gene") (Some "h") (Some (-1))
    (Some "combined_name").

Definition GenomeAnnotations___init__ : Py.outcome FigureElement.t :=
  AxisAnnot___init__ (Some "genomeAnnot") (Some "genome") (Some "v") (Some 2)
    (Some "Formatted Name").

(** [GigMapFigure.__init__]: the arguments of [super().__init__(...)] are
    evaluated in the order they are written, the two global arguments
    before the five elements; no [read_f] is passed on. *)
Definition GigMapFigure___init__ : Py.outcome FigureBuilder.t :=
  g1 ← FigureArgument.__init__ "output-prefix"
         "Prefix for output file (default: gigmap-render)"
         FigureArgument.str (Py.Str "gigmap-render");
  g2 ← FigureArgument.__init__ "output-folder" "Folder for output file (default: ./)"
         FigureArgument.str (Py.Str "./");
  e1 ← GenomeAnnotations___init__;
  e2 ← GeneAnnotations___init__;
  e3 ← GenomeTree___init__ 0 0;
  e4 ← GeneGenomeHeatmap___init__;
  e5 ← GeneGenomeColorbar___init__;
  FigureBuilder.__init__ [g1; g2] false [e1; e2; e3; e4; e5].

(** *** Genome labels: [get_genome_label_map] and [apply_genome_labels] *)

(** What the two functions find in [fig.data['global']]. *)
Inductive datum :=
| Nothing
| Names (l : list string)
| Frame (df : pd.DataFrame).

(** The figure as the two functions use it: [fig.params], the
    [defaultdict(dict)] of [parse_args], in which a missing namespace reads
    as the empty dict, and [fig.data], a dict of dicts. *)
Record Figure := {
  fig_params : gmap string (gmap string Py.value);
  fig_data : gmap string (gmap string datum)
}.

(** [fig.params[ns][k]] *)
Definition param (fig : Figure) (ns k : string) : Py.outcome Py.value :=
  match default ∅ (fig_params fig !! ns) !! k with
  | Some v => Py.Return v
  | None => Py.Raise (Py.KeyError k)
  end.

(** [fig.data[ns][k]] *)
Definition datum_of (fig : Figure) (ns k : string) : Py.outcome datum :=
  match fig_data fig !! ns with
  | None => Py.Raise (Py.KeyError ns)
  | Some d =>
      match d !! k with
      | Some x => Py.Return x
      | None => Py.Raise (Py.KeyError k)
      end
  end.

(** [series.to_dict()]: the cells by index label; of two rows with the same
    label the later one counts. *)
Definition to_dict (index : list string) (cells : list pd.cell) : dict.t pd.cell :=
  fold_left (λ d kv, dict.set kv.1 kv.2 d) (zip index cells) [].

(** [v[:fig.params["global"]["max_genome_label_len"]]]: the bound is looked
    up first, then [v] is sliced. *)
Definition truncated (fig : Figure) (v : pd.cell) : Py.outcome string :=
  n ← param fig "global" "max_genome_label_len";
  match v, n with
  | pd.Str s, Py.None_ => Py.Return (Py.str_slice_to None s)
  | pd.Str s, Py.Int n => Py.Return (Py.str_slice_to (Some n) s)
  | pd.Str _, Py.Str _ => Py.Raise (Py.TypeError "slice indices must be integers or None")
  | _, _ => Py.Raise (Py.TypeError "object is not subscriptable")
  end.

(** [get_genome_label_map(fig)].  The message of the second assertion reads
    [fig.params['genome-annotations']], which the defaultdict answers for
    every key. *)
Definition get_genome_label_map (fig : Figure) : Py.outcome (dict.t string) :=
  label_genomes_by ← param fig "global" "label_genomes_by";
  match label_genomes_by with
  | Py.None_ => Py.Return []
  | Py.Int _ => Py.Raise (Py.Unmodelled "label_genomes_by is not a string")
  | Py.Str label_col =>
      genome_annotations ← datum_of fig "global" "genome_annotations";
      match genome_annotations with
      | Nothing =>
          Py.Raise (Py.AssertionError
                      "Must provide --genome-annotations with --label-genomes-by")
      | Names _ => Py.Raise (Py.AttributeError "columns")
      | Frame df =>
          match pd.series label_col df with
          | None => Py.Raise (Py.AssertionError "Cannot find a columns named")
          | Some cells =>
              mapM (λ kv, v ← truncated fig kv.2; mret (kv.1, v))
                   (to_dict (pd.index df) cells)
          end
      end
  end.

(** [fig.data['global']['genome_labels'] = labels] *)
Definition set_genome_labels (labels : list string) (fig : Figure) : Figure :=
  {| fig_params := fig_params fig;
     fig_data :=
       <["global" := <["genome_labels" := Names labels]>
                       (default ∅ (fig_data fig !! "global"))]> (fig_data fig) |}.

(** [apply_genome_labels(fig)] *)
Definition apply_genome_labels : Py.M Figure unit :=
  fig ← Py.get;
  label_genomes_dict ← Py.lift (get_genome_label_map fig);
  genome_order ← Py.lift (datum_of fig "global" "genome_order");
  match genome_order with
  | Names genome_order =>
      Py.modify (set_genome_labels
        (map (λ l, default l (dict.get l label_genomes_dict)) genome_order))
  | Nothing => Py.raise (Py.TypeError "object is not iterable")
  | Frame _ => Py.raise (Py.Unmodelled "genome_order is a table")
  end.

End gig_map_elements.

(** ** [src/bin/aggregate_results.py]: the distance table written in chunks *)

Module aggregate_results.
Section Distances.

(** A row of the distance table; the loop never looks inside one. *)
Context {Row : Type}.

(** What [r.set(key, value)] stores: a table, or a list of keys. *)
Inductive redis_value :=
| Table (rows : list Row)
| KeyList (keys : list string).

(** [f"distances_{len(dists_keys)}"] *)
Definition distances_key (n : nat) : string := "distances_" +:+ pretty n.

(** The [while dists.shape[0] > 0] loop.  Every iteration takes one unit of
    [fuel]; [None] is a run that has not finished within [fuel]
    iterations.  [r] is the key-value store, [n] is [args.dists_n_rows]. *)
Fixpoint write_distances (fuel : nat) (n : Z) (dists : list Row)
    (dists_keys : list string) (r : gmap string redis_value)
  : option (gmap string redis_value * list string) :=
  match fuel with
  | O => None
  | S fuel' =>
      if 0 <? Z.of_nat (length dists) then
        let r' :=
          <[distances_key (length dists_keys) :=
              Table (Py.slice_to (Z.min (Z.of_nat (length dists)) n) dists)]> r in
        let dists_keys' := dists_keys ++ [distances_key (length dists_keys)] in
        if Z.of_nat (length dists) <=? n then Some (r', dists_keys')
        else write_distances fuel' n (Py.slice_from n dists) dists_keys' r'
      else Some (r, dists_keys)
  end.

(** The loop from an empty key list, then [r.set("distances_keys", dists_keys)]. *)
Definition save_distances (fuel : nat) (n : Z) (dists : list Row)
    (r : gmap string redis_value) : option (gmap string redis_value) :=
  match write_distances fuel n dists [] r with
  | Some (r', dists_keys) => Some (<["distances_keys" := KeyList dists_keys]> r')
  | None => None
  end.

(** Reading back: the rows stored under one key, and the rows stored under
    a sequence of keys, concatenated in that sequence. *)
Definition chunk (r : gmap string redis_value) (k : string) : list Row :=
  match r !! k with
  | Some (Table rows) => rows
  | _ => []
  end.

Definition reassemble (r : gmap string redis_value) (keys : list string) : list Row :=
  concat (map (chunk r) keys).

(** The store after the chunks [cs] went in under the keys numbered from [i]. *)
Fixpoint with_chunks (i : nat) (cs : list (list Row)) (r : gmap string redis_value)
  : gmap string redis_value :=
  match cs with
  | [] => r
  | c :: cs' => with_chunks (S i) cs' (<[distances_key i := Table c]> r)
  end.

End Distances.
Arguments redis_value : clear implicits.

Section Indices.

(** A row of the condensed alignment table: the gene, the genome, and the
    columns that the index step leaves alone (pident, coverage,
    description). *)
Context {Rest : Type}.

Record alignment := { sseqid : string; genome : string; rest : Rest }.

(** The row once [sseqid] and [genome] are dropped for their positions. *)
Record indexed := { gene_ix : nat; genome_ix : nat; kept : Rest }.

(** [series.unique()]: the values in the order of their first appearance. *)
Definition unique (l : list string) : list string :=
  fold_left (λ seen x, if decide (x ∈ seen) then seen else seen ++ [x]) l [].

(** [l.index(x)] *)
Definition index_of (l : list string) (x : string) : Py.outcome nat :=
  match list_find (λ y, y = x) l with
  | Some (i, _) => Py.Return i
  | None => Py.Raise (Py.ValueError "is not in list")
  end.

(** [genome_list = list(alignments['genome'].unique())] *)
Definition genome_list (alignments : list alignment) : list string :=
  unique (map genome alignments).

(** [alignments.assign(gene_ix=alignments.sseqid.apply(gene_list.index),
                       genome_ix=alignments.genome.apply(genome_list.index))
               .drop(columns=["sseqid", "genome"])]:
    the gene column is worked through first, then the genome column. *)
Definition add_ix (gene_list : list string) (alignments : list alignment)
  : Py.outcome (list indexed) :=
  gene_ixs ← mapM (index_of gene_list) (map sseqid alignments);
  genome_ixs ← mapM (index_of (genome_list alignments)) (map genome alignments);
  mret (zip_with (λ a ij, {| gene_ix := ij.1; genome_ix := ij.2; kept := rest a |})
                 alignments (zip gene_ixs genome_ixs)).

End Indices.
Arguments alignment : clear implicits.
Arguments indexed : clear implicits.

End aggregate_results.

(** ** [src/bin/gather_alignments.py] *)

Module gather_alignments.

(** [s.endswith(suffix)] *)
Fixpoint endswith (suffix s : string) : bool :=
  String.eqb s suffix
  || match s with
     | EmptyString => false
     | String _ s' => endswith suffix s'
     end.

(** [s.rstrip("\n")] *)
Fixpoint rstrip_newline (s : string) : string :=
  match s with
  | EmptyString => EmptyString
  | String c s' =>
      match rstrip_newline s' with
      | EmptyString => if Ascii.eqb c "010"%char then EmptyString else String c EmptyString
      | r => String c r
      end
  end.

(** [os.path.join(a, b)] *)
Definition path_join (a b : string) : string :=
  if String.prefix "/" b then b
  else if String.eqb a "" || endswith "/" a then a +:+ b
  else a +:+ "/" +:+ b.

Section Gather.

(** A row of a FAMLI table. *)
Context {Row : Type}.

(** The file system and the parsers outside the repository:
    [os.listdir] ([None]: no such folder),
    [pd.DataFrame(json.load(gzip.open(fp, 'rt')))],
    [open(f, 'r').readline()] ([None]: no such file), and [int]. *)
Record World := {
  listdir : string → option (list string);
  famli_json : string → Py.outcome (list Row);
  readline : string → option string;
  int_ : string → Py.outcome Z
}.

Context (w : World).

(** [gather_from_folder(input_folder, suffix, read_f)] *)
Definition gather_from_folder {Data} (input_folder suffix : string)
    (read_f : string → Py.outcome Data) : Py.outcome (dict.t Data) :=
  match listdir w input_folder with
  | None => Py.Raise (Py.FileNotFoundError input_folder)
  | Some fps =>
      fold_left
        (λ acc fp,
           output ← acc;
           if negb (endswith suffix fp) then Py.Return output
           else
             let specimen :=
               Py.str_slice_to (Some (- Z.of_nat (String.length suffix))) fp in
             v ← read_f (path_join input_folder fp);
             Py.Return (dict.set specimen v output))
        fps (Py.Return [])
  end.

(** [read_famli(fp)] *)
Definition read_famli (fp : string) : Py.outcome (list Row) := famli_json w fp.

(** [gather_famli(input_folder, suffix)] *)
Definition gather_famli (input_folder suffix : string)
  : Py.outcome (dict.t (list Row)) :=
  gather_from_folder input_folder suffix read_famli.

(** [lambda f: int(open(f, 'r').readline().rstrip("\n"))] *)
Definition read_count (f : string) : Py.outcome Z :=
  match readline w f with
  | None => Py.Raise (Py.FileNotFoundError f)
  | Some line => int_ w (rstrip_newline line)
  end.

(** [gather_counts(input_folder, suffix)] *)
Definition gather_counts (input_folder suffix : string) : Py.outcome (dict.t Z) :=
  gather_from_folder input_folder suffix read_count.

(** [specimen_famli.assign(specimen=specimen, tot_reads=tot_reads)] *)
Definition assign (specimen : string) (tot_reads : Z) (specimen_famli : list Row)
  : list (Row * string * Z) :=
  map (λ row, (row, specimen, tot_reads)) specimen_famli.

(** [pd.concat(frames)] *)
Definition concat_frames {A} (frames : list (list A)) : Py.outcome (list A) :=
  match frames with
  | [] => Py.Raise (Py.ValueError "No objects to concatenate")
  | _ => Py.Return (concat frames)
  end.

(** [gather_alignments()]; what it returns here is the table that it
    writes to "alignments.csv.gz". *)
Definition gather_alignments : Py.outcome (list (Row * string * Z)) :=
  famli_data ← gather_famli "famli" ".json.gz";
  count_data ← gather_counts "read_counts" ".num_reads.txt";
  _ ← mapM (λ kv : string * list Row,
              if decide (kv.1 ∈ count_data.*1) then Py.Return tt
              else Py.Raise (Py.AssertionError "Did not find read counts for specimen"))
           famli_data;
  frames ← mapM (λ kv : string * list Row,
                   match dict.get kv.1 count_data with
                   | Some tot_reads => Py.Return (assign kv.1 tot_reads kv.2)
                   | None => Py.Raise (Py.KeyError kv.1)
                   end)
                famli_data;
  concat_frames frames.

End Gather.
Arguments World : clear implicits.

End gather_alignments.

(** ** A small run, used to exercise the statements below *)

Module scenario.
Import gig_map_elements.

(** Two genomes, A and B, and two genes, g1 and g2; no alignment of g2 in
    genome A.  The order file lists B before A. *)
Definition alignments : pd.Table :=
  {| pd.header := ["sseqid"; "genome"; "pident"];
     pd.rows := [ [pd.Str "g2"; pd.Str "B"; pd.Num 90];
                  [pd.Str "g1"; pd.Str "A"; pd.Num 80];
                  [pd.Str "g1"; pd.Str "B"; pd.Num 70] ] |}.

Definition annotations : pd.Table :=
  {| pd.header := ["genome_id"; "name"];
     pd.rows := [ [pd.Str "A"; pd.Str "Escherichia"];
                  [pd.Str "B"; pd.Str "Bacillus"] ] |}.

Definition distances : pd.Table :=
  {| pd.header := [""; "A"; "B"];
     pd.rows := [ [pd.Str "A"; pd.Num 0; pd.Num 1];
                  [pd.Str "B"; pd.Num 1; pd.Num 0] ] |}.

(** The tree service lists its leaves in sorted order here, and the
    clustering service keeps the rows in the order of the table and
    refuses a table with a single row. *)
Definition files : World :=
  {| read_csv := λ path,
       if String.eqb path "alignments.csv" then Some alignments
       else if String.eqb path "annotations.csv" then Some annotations
       else if String.eqb path "distances.csv" then Some distances
       else None;
     read_text := λ path,
       if String.eqb path "order.txt" then Some ["B"; "A"] else None;
     make_nj_tree := λ ids _,
       Py.Return {| FigureElement.genome_order := pd.labels ids |};
     linkage_leaves := λ df _ _,
       if decide (2 ≤ length (pd.index df))%nat
       then Py.Return (seq 0 (length (pd.index df)))
       else Py.Raise (Py.ValueError "The number of observations cannot be determined") |}.

(** The keyword arguments of the heatmap, at their defaults. *)
Definition heatmap_kwargs : gmap string Py.value :=
  list_to_map [ ("gene_col", Py.Str "sseqid"); ("genome_col", Py.Str "genome");
                ("val_col", Py.Str "pident"); ("colorscale", Py.Str "blues") ].

(** Steps that return [None]. *)
Definition quiet (ev : FigureBuilder.event) : Py.outcome Py.value :=
  Py.Return Py.None_.

(** The figure after a read phase that stored [None] for everything. *)
Definition loaded : FigureBuilder.t :=
  FigureBuilder.with_data
    (λ _, list_to_map
            (("global", Py.None_)
             :: map (λ e, (FigureElement.id e, Py.None_))
                    (FigureBuilder.elements GigMapFigure)))
    GigMapFigure.



(** Steps that fail for the tree and return [None] for the others. *)
Definition failing (ev : FigureBuilder.event) : Py.outcome Py.value :=
  match ev with
  | FigureBuilder.read_f_called id _ _ | FigureBuilder.plot_f_called id _ =>
      if String.eqb id "genomeTree" then Py.Raise (Py.Exception "no tree")
      else Py.Return Py.None_
  | _ => Py.Return Py.None_
  end.

(** A builder whose only element has a "-" in its id. *)
Definition dashed : FigureBuilder.t :=
  {| FigureBuilder.args := [];
     FigureBuilder.elements :=
       [FigureElement.new "my-tree" [argument "distmat" "Distance matrix" Py.None_]
          (FigureElement.GenomeTree 0 0)];
     FigureBuilder.params := ∅;
     FigureBuilder.data := ∅;
     FigureBuilder.axes := ∅;
     FigureBuilder.events := [] |}.

(** A builder whose only element is the colorbar. *)
Definition lonely_colorbar : FigureBuilder.t :=
  {| FigureBuilder.args := [];
     FigureBuilder.elements := [GeneGenomeColorbar];
     FigureBuilder.params := ∅;
     FigureBuilder.data := ∅;
     FigureBuilder.axes := ∅;
     FigureBuilder.events := [] |}.

(** Keyword arguments that name a gene column the alignments do not have. *)
Definition wrong_kwargs : gmap string Py.value :=
  list_to_map [ ("gene_col", Py.Str "gene"); ("genome_col", Py.Str "genome");
                ("val_col", Py.Str "pident"); ("colorscale", Py.Str "blues") ].

(** Alignments with two rows for gene g1 in genome A, and the files with
    this table among them. *)
Definition repeated : pd.Table :=
  {| pd.header := ["sseqid"; "genome"; "pident"];
     pd.rows := [ [pd.Str "g1"; pd.Str "A"; pd.Num 80];
                  [pd.Str "g1"; pd.Str "A"; pd.Num 95] ] |}.

Definition archive : World :=
  {| read_csv := λ path,
       if String.eqb path "repeated.csv" then Some repeated else read_csv files path;
     read_text := read_text files;
     make_nj_tree := make_nj_tree files;
     linkage_leaves := linkage_leaves files |}.

(** The wide table of the alignments. *)
Definition wide : pd.DataFrame :=
  {| pd.index := ["A"; "B"];
     pd.columns := ["g1"; "g2"];
     pd.values := [ [pd.Num 80; pd.Num 0]; [pd.Num 70; pd.Num 90] ] |}.

(** A figure whose genomes are to be labelled by the column "name", cut to
    three characters; genome C has no annotation.  And a figure for which
    no label column was chosen. *)
Definition labelled : Figure :=
  {| fig_params :=
       {[ "global" := {[ "label_genomes_by" := Py.Str "name";
                         "max_genome_label_len" := Py.Int 3 ]} ]};
     fig_data :=
       {[ "global" :=
            {[ "genome_annotations" :=
                 Frame {| pd.index := ["A"; "B"];
                          pd.columns := ["name"];
                          pd.values := [ [pd.Str "Escherichia"]; [pd.Str "Bacillus"] ] |};
               "genome_order" := Names ["B"; "A"; "C"] ]} ]} |}.

Definition unlabelled : Figure :=
  {| fig_params := {[ "global" := {[ "label_genomes_by" := Py.None_ ]} ]};
     fig_data := {[ "global" := {[ "genome_order" := Names ["B"; "A"] ]} ]} |}.

(** The condensed alignments, and the gene order file. *)
Definition hits : list (aggregate_results.alignment nat) :=
  [ {| aggregate_results.sseqid := "g2"; aggregate_results.genome := "B";
       aggregate_results.rest := 90%nat |};
    {| aggregate_results.sseqid := "g1"; aggregate_results.genome := "A";
       aggregate_results.rest := 80%nat |};
    {| aggregate_results.sseqid := "g1"; aggregate_results.genome := "B";
       aggregate_results.rest := 70%nat |} ].

Definition gene_order : list string := ["g1"; "g2"].

(** Two folders: "famli" lists [famli] and "read_counts" lists [counts].
    The FAMLI file of specimen s1 has two rows, and its read count file
    says 42. *)
Definition folders (famli counts : list string) : gather_alignments.World nat :=
  {| gather_alignments.listdir := λ folder,
       if String.eqb folder "famli" then Some famli
       else if String.eqb folder "read_counts" then Some counts
       else None;
     gather_alignments.famli_json := λ fp,
       if String.eqb fp "famli/s1.json.gz" then Py.Return [7; 8]%nat
       else Py.Return [];
     gather_alignments.readline := λ f,
       if String.eqb f "read_counts/s1.num_reads.txt"
       then Some ("42" +:+ String "010"%char "")
       else None;
     gather_alignments.int_ := λ s,
       if String.eqb s "42" then Py.Return 42
       else Py.Raise (Py.ValueError "invalid literal for int()") |}.

End scenario.

(** * Properties *)

Section Distances.
Import aggregate_results.
Context {Row : Type}.
Implicit Types (dists : list Row) (r : gmap string (redis_value Row)).

Lemma distances_key_inj a b : distances_key a = distances_key b → a = b.
Proof.
  unfold distances_key. intros H.
  apply (inj (String.app "distances_")) in H.
  by apply (inj pretty) in H.
Qed.

Lemma pretty_N_go_ne_k x s s' : s ≠ "k" +:+ s' → pretty_N_go x s ≠ "k" +:+ s'.
Proof.
  revert s. induction (N.lt_wf_0 x) as [x _ IH]; intros s ?.
  assert (x = 0 ∨ 0 < x)%N as [->|?] by lia.
  - by rewrite pretty_N_go_0.
  - rewrite pretty_N_go_step by done. apply IH.
    { by apply N.div_lt. }
    unfold pretty_N_char. by repeat case_match.
Qed.

Lemma distances_key_not_keys a : distances_key a ≠ "distances_keys".
Proof.
  unfold distances_key. intros H.
  change "distances_keys" with ("distances_" +:+ "keys") in H.
  apply (inj (String.app "distances_")) in H.
  revert H. unfold pretty, pretty_nat, pretty, pretty_N.
  case_decide; [done|]. by apply pretty_N_go_ne_k.
Qed.

Lemma with_chunks_other i cs r k :
  (∀ j, (i ≤ j < i + length cs)%nat → k ≠ distances_key j) →
  with_chunks i cs r !! k = r !! k.
Proof.
  revert i r. induction cs as [|c cs IH]; intros i r Hk; simpl in *; [done|].
  rewrite IH by (intros j ?; apply Hk; lia).
  apply lookup_insert_ne. intros E. apply (Hk i); [lia|done].
Qed.

Lemma with_chunks_lookup i cs r j c :
  cs !! j = Some c → with_chunks i cs r !! distances_key (i + j) = Some (Table c).
Proof.
  revert i r j. induction cs as [|c0 cs IH]; intros i r j Hj; [done|].
  destruct j as [|j]; simpl in *.
  - simplify_eq. rewrite Nat.add_0_r, with_chunks_other.
    + apply lookup_insert_eq.
    + intros j Hle E. apply distances_key_inj in E. lia.
  - replace (i + S j)%nat with (S i + j)%nat by lia. by apply IH.
Qed.

Lemma write_distances_chunks fuel n dists keys r :
  1 ≤ n → (length dists < fuel)%nat →
  ∃ cs,
    write_distances fuel n dists keys r
      = Some (with_chunks (length keys) cs r,
              keys ++ map distances_key (seq (length keys) (length cs)))
    ∧ concat cs = dists
    ∧ Forall (λ c, Z.of_nat (length c) ≤ n) cs.
Proof.
  intros Hn. revert dists keys r.
  induction fuel as [|fuel IH]; intros dists keys r Hfuel; [lia|].
  simpl. destruct (Z.ltb_spec 0 (Z.of_nat (length dists))) as [Hpos|Hzero].
  - destruct (Z.leb_spec (Z.of_nat (length dists)) n) as [Hle|Hgt].
    + exists [dists]. simpl. rewrite app_nil_r. split_and!; [|done|by repeat constructor].
      unfold Py.slice_to. rewrite Z.min_l by done.
      destruct (Z.ltb_spec (Z.of_nat (length dists)) 0); [lia|].
      rewrite Nat2Z.id, firstn_all. done.
    + destruct (IH (Py.slice_from n dists) (keys ++ [distances_key (length keys)])
                (<[distances_key (length keys) :=
                     Table (Py.slice_to (Z.of_nat (length dists) `min` n) dists)]> r))
        as (cs & Hrun & Hcat & Hlen).
      { unfold Py.slice_from. destruct (Z.ltb_spec n 0); [lia|].
        rewrite length_drop. lia. }
      exists (Py.slice_to (Z.of_nat (length dists) `min` n) dists :: cs).
      rewrite Hrun. rewrite length_app in *. simpl.
      replace (length keys + 1)%nat with (S (length keys)) by lia.
      split_and!.
      * by rewrite <- app_assoc.
      * rewrite Hcat. unfold Py.slice_to, Py.slice_from. rewrite Z.min_r by lia.
        destruct (Z.ltb_spec n 0); [lia|]. apply take_drop.
      * constructor; [|done]. unfold Py.slice_to. rewrite Z.min_r by lia.
        destruct (Z.ltb_spec n 0); [lia|]. rewrite length_take. lia.
  - exists []. simpl. rewrite app_nil_r. split_and!; [done| |done].
    destruct dists; [done|simpl in *; lia].
Qed.

Lemma chunks_read_back cs r r' :
  (∀ j c, cs !! j = Some c → r' !! distances_key j = Some (Table c)) →
  map (chunk r') (map distances_key (seq 0 (length cs))) = cs.
Proof.
  intros Hr'. apply list_eq. intros j.
  rewrite !list_lookup_fmap.
  destruct (cs !! j) as [c|] eqn:Hj.
  - rewrite lookup_seq_lt by (by eapply lookup_lt_Some). simpl.
    unfold chunk. by rewrite (Hr' _ _ Hj).
  - rewrite lookup_seq_ge; [done|]. by apply lookup_ge_None.
Qed.

(** C7. For every distance table and every chunk size [n >= 1] the loop
    ends (as soon as the fuel exceeds the number of rows), every chunk it
    stores has at most [n] rows, the keys recorded under "distances_keys"
    are distances_0, distances_1, ... in that sequence, nothing else in the
    store is touched, and the chunks concatenated in the recorded key
    sequence are the rows of the table in their original order (so every
    row is written exactly once). *)
Theorem distances_chunks_reassemble (fuel : nat) (n : Z) dists r :
  1 ≤ n → (length dists < fuel)%nat →
  ∃ r' keys,
    save_distances fuel n dists r = Some r'
    ∧ r' !! "distances_keys" = Some (KeyList keys)
    ∧ keys = map distances_key (seq 0 (length keys))
    ∧ (∀ k, k ∈ keys →
         ∃ rows, r' !! k = Some (Table rows) ∧ Z.of_nat (length rows) ≤ n)
    ∧ reassemble r' keys = dists
    ∧ (∀ k, k ∉ keys → k ≠ "distances_keys" → r' !! k = r !! k).
Proof.
  intros Hn Hfuel.
  destruct (write_distances_chunks fuel n dists [] r Hn Hfuel)
    as (cs & Hrun & Hcat & Hlen).
  simpl in Hrun. unfold save_distances. rewrite Hrun.
  set (keys := map distances_key (seq 0 (length cs))).
  set (r1 := with_chunks 0 cs r).
  assert (Hget : ∀ j c, cs !! j = Some c →
            <["distances_keys" := KeyList keys]> r1 !! distances_key j = Some (Table c)).
  { intros j c Hj. rewrite lookup_insert_ne by (intros E; by eapply distances_key_not_keys).
    by apply (with_chunks_lookup 0). }
  exists (<["distances_keys" := KeyList keys]> r1), keys. split_and!.
  - done.
  - apply lookup_insert_eq.
  - subst keys. by rewrite length_map, length_seq.
  - intros k Hk. subst keys. apply list_elem_of_fmap in Hk as (j & -> & Hj).
    apply elem_of_seq in Hj. destruct (lookup_lt_is_Some_2 cs j) as [c Hc]; [lia|].
    exists c. split; [by apply Hget|].
    eapply Forall_lookup_1 in Hlen; [|done]. done.
  - unfold reassemble. subst keys. by erewrite chunks_read_back.
  - intros k Hk Hne. rewrite lookup_insert_ne by done. subst r1.
    apply with_chunks_other. intros j Hj ->. apply Hk. subst keys.
    apply list_elem_of_fmap. exists j. split; [done|]. apply elem_of_seq. lia.
Qed.

End Distances.


(** ** Running computations *)

Section Running.
Context {S : Type}.

Lemma run_bind {A B} (m : Py.M S A) (k : A → Py.M S B) s :
  (m ≫= k) s =
    match m s with
    | (s', Py.Return a) => k a s'
    | (s', Py.Raise e) => (s', Py.Raise e)
    end.
Proof. reflexivity. Qed.

Lemma run_bind_Return {A B} (m : Py.M S A) (k : A → Py.M S B) s s' a :
  m s = (s', Py.Return a) → (m ≫= k) s = k a s'.
Proof. intros H. by rewrite run_bind, H. Qed.

Lemma run_bind_Raise {A B} (m : Py.M S A) (k : A → Py.M S B) s s' e :
  m s = (s', Py.Raise e) → (m ≫= k) s = (s', Py.Raise e).
Proof. intros H. by rewrite run_bind, H. Qed.

(** A computation that returned went through both halves of a bind. *)
Lemma bind_returned {A B} (m : Py.M S A) (k : A → Py.M S B) s s' b :
  (m ≫= k) s = (s', Py.Return b) →
  ∃ s1 a, m s = (s1, Py.Return a) ∧ k a s1 = (s', Py.Return b).
Proof.
  rewrite run_bind. destruct (m s) as [s1 [a|e]]; [eauto|discriminate].
Qed.

Lemma run_mret {A} (a : A) (s : S) : (mret a : Py.M S A) s = (s, Py.Return a).
Proof. reflexivity. Qed.

Lemma assert_returned b msg (s s' : S) u :
  Py.assert b msg s = (s', Py.Return u) → b = true ∧ s' = s.
Proof.
  unfold Py.assert, Py.ret, Py.raise. destruct b; intros H; simplify_eq; auto.
Qed.

Lemma lift_returned {A} (o : Py.outcome A) (s s' : S) a :
  Py.lift o s = (s', Py.Return a) → o = Py.Return a ∧ s' = s.
Proof. unfold Py.lift. intros H. simplify_eq. auto. Qed.

End Running.

(** ** The builder *)

Section Builder.
Import FigureBuilder.
Implicit Types (fb : FigureBuilder.t) (invoke : event → Py.outcome Py.value).

Lemma record_add_events ev fb : record ev fb = add_events [ev] fb.
Proof. reflexivity. Qed.

Lemma add_events_app evs1 evs2 fb :
  add_events evs2 (add_events evs1 fb) = add_events (evs1 ++ evs2) fb.
Proof. unfold add_events. simpl. by rewrite app_assoc. Qed.

Lemma add_events_nil fb : add_events [] fb = fb.
Proof. destruct fb. unfold add_events. simpl. by rewrite app_nil_r. Qed.

Lemma run_call invoke ev fb v :
  invoke ev = Py.Return v → call invoke ev fb = (add_events [ev] fb, Py.Return v).
Proof. intros H. unfold call. rewrite run_bind. simpl. unfold Py.lift. by rewrite H. Qed.

Lemma make_plots_loop invoke (l : list FigureElement.t) fb evs :
  (∀ ev, Py.returned (invoke ev)) →
  (∀ e, e ∈ l → is_Some (data fb !! FigureElement.id e)) →
  Py.for_ l (λ element,
      fb ← Py.get;
      match data fb !! FigureElement.id element with
      | None => Py.raise (Py.KeyError (FigureElement.id element))
      | Some d =>
          _ ← call invoke (plot_f_called (FigureElement.id element)
                      [Subplots;
                       Namespace (namespace (FigureElement.id element) fb);
                       Loaded d;
                       Params (params fb);
                       Data (data fb)]);
          mret tt
      end) (add_events evs fb)
  = (add_events (evs ++ map (plot_call fb) l) fb, Py.Return tt).
Proof.
  intros Hinv. revert evs. induction l as [|e l IH]; intros evs Hdata.
  - simpl. by rewrite app_nil_r.
  - assert (is_Some (data fb !! FigureElement.id e)) as [d Hd]
      by (apply Hdata; constructor).
    simpl. unfold Py.bind at 1. rewrite run_bind. simpl.
    rewrite Hd. rewrite run_bind.
    destruct (Hinv (plot_f_called (FigureElement.id e)
                      [Subplots; Namespace (namespace (FigureElement.id e) (add_events evs fb));
                       Loaded d; Params (params fb); Data (data fb)])) as [v Hv].
    erewrite run_call by exact Hv. rewrite run_mret.
    rewrite add_events_app, IH by (intros; apply Hdata; by constructor).
    rewrite <- app_assoc. simpl. unfold plot_call at 2. rewrite Hd. done.
Qed.

Lemma run_make_plots invoke fb :
  (∀ ev, Py.returned (invoke ev)) →
  (∀ e, e ∈ elements fb → is_Some (data fb !! FigureElement.id e)) →
  make_plots invoke fb
    = (add_events (map (plot_call fb) (elements fb)) fb, Py.Return tt).
Proof.
  intros Hinv Hdata. unfold make_plots. rewrite run_bind. simpl.
  pose proof (make_plots_loop invoke (elements fb) fb [] Hinv Hdata) as Hloop.
  rewrite add_events_nil in Hloop. exact Hloop.
Qed.


Lemma read_data_loop invoke (l : list FigureElement.t) fb :
  (∀ ev, Py.returned (invoke ev)) →
  ∃ fb',
    Py.for_ l (λ element,
      fb ← Py.get;
      v ← call invoke (read_f_called (FigureElement.id element) []
                  (namespace (FigureElement.id element) fb));
      Py.modify (with_data <[FigureElement.id element := v]>)) fb
    = (fb', Py.Return tt)
    ∧ events fb' = events fb ++ map (read_call fb) l
    ∧ params fb' = params fb
    ∧ elements fb' = elements fb
    ∧ (∀ k, is_Some (data fb !! k) → is_Some (data fb' !! k))
    ∧ (∀ e, e ∈ l → is_Some (data fb' !! FigureElement.id e)).
Proof.
  intros Hinv. revert fb. induction l as [|e l IH]; intros fb.
  - exists fb. simpl. rewrite app_nil_r. split_and!; try done.
    intros e He. by apply elem_of_nil in He.
  - destruct (Hinv (read_call fb e)) as [v Hv].
    set (fb1 := with_data <[FigureElement.id e := v]> (add_events [read_call fb e] fb)).
    destruct (IH fb1) as (fb' & Hrun & Hev & Hpar & Hel & Hkeep & Hall).
    exists fb'. split_and!.
    + simpl. unfold Py.bind at 1. rewrite run_bind. simpl.
      rewrite run_bind. erewrite run_call by exact Hv. exact Hrun.
    + rewrite Hev. simpl. rewrite <- app_assoc. simpl. done.
    + by rewrite Hpar.
    + by rewrite Hel.
    + intros k Hk. apply Hkeep. simpl.
      destruct (decide (FigureElement.id e = k)) as [->|Hne].
      * rewrite lookup_insert_eq. eauto.
      * by rewrite lookup_insert_ne.
    + intros e' He'. apply elem_of_cons in He' as [->|He']; [|by apply Hall].
      apply Hkeep. simpl. rewrite lookup_insert_eq. eauto.
Qed.

(** C3 (what [read_data] hands over).  When no read step raises,
    [read_data] calls the global read step first and then the read step
    of every element in declaration order; each call gets the values of
    its own namespace as keyword arguments and no positional argument at
    all, so the Builder instance is handed to none of them. *)
Theorem read_data_passes_only_the_namespace invoke fb :
  (∀ ev, Py.returned (invoke ev)) →
  ∃ fb',
    read_data invoke fb = (fb', Py.Return tt)
    ∧ events fb' =
        events fb
        ++ read_f_called "global" [] (namespace "global" fb)
           :: map (λ e, read_f_called (FigureElement.id e) []
                          (namespace (FigureElement.id e) fb)) (elements fb)
    ∧ (∀ id positional keywords,
         read_f_called id positional keywords ∈ drop (length (events fb)) (events fb') →
         Builder ∉ positional)
    ∧ (∀ e, e ∈ elements fb → is_Some (data fb' !! FigureElement.id e)).
Proof.
  intros Hinv.
  destruct (Hinv (read_f_called "global" [] (namespace "global" fb))) as [v Hv].
  set (fb0 := with_data (λ _, ∅) fb).
  set (fb1 := with_data <["global" := v]>
                (add_events [read_f_called "global" [] (namespace "global" fb)] fb0)).
  destruct (read_data_loop invoke (elements fb) fb1 Hinv)
    as (fb' & Hrun & Hev & Hpar & Hel & Hkeep & Hall).
  assert (events fb' =
        events fb
        ++ read_f_called "global" [] (namespace "global" fb)
           :: map (λ e, read_f_called (FigureElement.id e) []
                          (namespace (FigureElement.id e) fb)) (elements fb)) as Hevents.
  { rewrite Hev. simpl. rewrite <- app_assoc. done. }
  exists fb'. split_and!.
  - unfold read_data. rewrite run_bind. simpl. rewrite run_bind. simpl.
    rewrite run_bind. erewrite run_call by exact Hv.
    rewrite run_bind. simpl. exact Hrun.
  - exact Hevents.
  - intros id positional keywords Hin. rewrite Hevents, drop_app_length in Hin.
    apply elem_of_cons in Hin as [Heq|Hin].
    + simplify_eq. apply not_elem_of_nil.
    + apply list_elem_of_fmap in Hin as (e & Heq & _). simplify_eq. apply not_elem_of_nil.
  - exact Hall.
Qed.

(** C8 (what the constructor does).  [FigureBuilder(...)] never returns
    a builder: without a read function it stops at the assertion, and
    with one it stops in [validate_elements] with an AttributeError,
    because the loop reads [self.elements] before anything was assigned
    to it; this is so whether the ids of [elements] repeat or are all
    different. *)
Theorem construction_always_fails (args : list FigureArgument.t) (read_f : bool)
    (elements : list FigureElement.t) :
  __init__ args read_f elements
    = Py.Raise (if read_f then Py.AttributeError "elements" else Py.AssertionError "").
Proof. unfold __init__, validate_elements. by destruct read_f. Qed.

(** Had the loop run over its argument, it would accept a list exactly
    when its ids are all different, and return it unchanged. *)
Lemma unique_ids_NoDup (seen : gset string) (l : list FigureElement.t) :
  unique_ids seen l = Py.Return tt
  ↔ NoDup (map FigureElement.id l) ∧ ∀ e, e ∈ l → FigureElement.id e ∉ seen.
Proof.
  revert seen. induction l as [|e l IH]; intros seen; simpl.
  - split; [|done]. intros _. split; [constructor|]. intros e He. by apply elem_of_nil in He.
  - case_decide as Hin.
    + split; [done|]. intros [_ Hout]. destruct (Hout e); [by constructor|done].
    + rewrite IH. rewrite NoDup_cons. split.
      * intros [Hnd Hout]. split_and!; [|done|].
        -- intros Hid. apply list_elem_of_fmap in Hid as (e' & Heq & He').
           apply (Hout e' He'). rewrite <- Heq.
           apply elem_of_union. left. by apply elem_of_singleton.
        -- intros e' He'. apply elem_of_cons in He' as [->|He']; [done|].
           specialize (Hout e' He'). intros Hseen. apply Hout.
           apply elem_of_union. by right.
      * intros [[Hfresh Hnd] Hout]. split; [done|].
        intros e' He'. apply not_elem_of_union. split.
        -- apply not_elem_of_singleton. intros Heq. apply Hfresh.
           rewrite <- Heq. by apply list_elem_of_fmap_2.
        -- apply Hout. by constructor.
Qed.

Lemma validate_elements_on_argument (l : list FigureElement.t) :
  validate_elements (Some l) l = Py.Return l ↔ NoDup (map FigureElement.id l).
Proof.
  unfold validate_elements.
  destruct (unique_ids ∅ l) as [[]|e] eqn:Hu.
  - apply unique_ids_NoDup in Hu as [Hnd _]. done.
  - split; [done|]. intros Hnd.
    assert (unique_ids ∅ l = Py.Return tt) as Hok; [|congruence].
    apply unique_ids_NoDup. split; [done|]. intros; apply not_elem_of_empty.
Qed.

End Builder.

(** ** The elements *)

Section Elements.
Import gig_map_elements.
Context (w : World).
Implicit Types (fb : FigureBuilder.t) (e : FigureElement.t).
Local Abbreviation elements := FigureBuilder.elements.
Local Abbreviation events := FigureBuilder.events.
Local Abbreviation axis := FigureBuilder.axis.


Lemma run_this self fb e :
  elements fb !! self = Some e → this self fb = (fb, Py.Return e).
Proof. intros H. unfold this. rewrite run_bind. simpl. by rewrite H. Qed.

Lemma run_update self f fb :
  update self f fb = (FigureBuilder.with_elements (alter f self) fb, Py.Return tt).
Proof. reflexivity. Qed.







End Elements.

(** ** What a read step leaves alone *)

Section Keeps.
Context {S : Type} (R : S → S → Prop) `{!Reflexive R, !Transitive R}.

Lemma keeps_bind {A B} (m : Py.M S A) (k : A → Py.M S B) :
  Py.keeps R m → (∀ a, Py.keeps R (k a)) → Py.keeps R (m ≫= k).
Proof.
  intros Hm Hk s. rewrite run_bind. specialize (Hm s).
  destruct (m s) as [s1 [a|e]]; simpl in *; [|done].
  etrans; [exact Hm|]. apply Hk.
Qed.

Lemma keeps_mret {A} (a : A) : Py.keeps R (mret a : Py.M S A).
Proof. intros s. simpl. reflexivity. Qed.




Lemma keeps_assert b msg : Py.keeps R (Py.assert b msg : Py.M S unit).
Proof. intros s. destruct b; simpl; reflexivity. Qed.

Lemma keeps_for {A} (l : list A) (body : A → Py.M S unit) :
  (∀ x, Py.keeps R (body x)) → Py.keeps R (Py.for_ l body).
Proof.
  intros Hbody. induction l as [|x l IH]; simpl.
  - apply keeps_mret.
  - apply (keeps_bind (body x) (λ _, Py.for_ l body)); auto.
Qed.

End Keeps.

Section Fixed.
Import gig_map_elements.
Context (w : World).
Implicit Types (fb : FigureBuilder.t).
Local Abbreviation events := FigureBuilder.events.
Local Abbreviation axis := FigureBuilder.axis.
Local Abbreviation respects_fixed := FigureBuilder.respects_fixed.

Global Instance respects_fixed_refl : Reflexive respects_fixed.
Proof. intros fb. exists []. by rewrite app_nil_r. Qed.

Global Instance respects_fixed_trans : Transitive respects_fixed.
Proof.
  intros fb1 fb2 fb3 (evs1 & Hev1 & Hun1 & Hax1) (evs2 & Hev2 & Hun2 & Hax2).
  exists (evs1 ++ evs2). split_and!.
  - by rewrite Hev2, Hev1, app_assoc.
  - apply Forall_app. split; [done|].
    eapply Forall_impl; [exact Hun2|]. intros ev [Hu Ha]. split; [done|].
    intros a Hev. specialize (Ha a Hev).
    destruct (FigureAxis.is_fixed (axis a fb1)) eqn:Hfix; [|done].
    rewrite (Hax1 a Hfix) in Ha. congruence.
  - intros name Hfix. rewrite Hax2; [by apply Hax1|]. by rewrite Hax1.
Qed.



Lemma axis_insert_eq name a fb :
  axis name (FigureBuilder.with_axes <[name := a]> fb) = a.
Proof. unfold axis. simpl. by rewrite lookup_insert_eq. Qed.



End Fixed.

Section Tree.
Import gig_map_elements.
Context (w : World).
Implicit Types (fb : FigureBuilder.t).
Local Abbreviation elements := FigureBuilder.elements.
Local Abbreviation events := FigureBuilder.events.
Local Abbreviation axis := FigureBuilder.axis.

Lemma open_csv_returned path fb fb' t :
  open_csv w path fb = (fb', Py.Return t) → fb' = fb ∧ read_csv w path = Some t.
Proof.
  unfold open_csv. destruct (read_csv w path); [rewrite run_mret|unfold Py.raise];
    intros H; simplify_eq; auto.
Qed.


(** What [fb.axis(name).set_order(sequence)] leaves behind when it returns. *)
Lemma set_axis_order_returned name sequence fb fb' :
  FigureBuilder.set_axis_order name sequence fb = (fb', Py.Return tt) →
  events fb' = events fb
               ++ [FigureBuilder.set_order_called name
                     (FigureAxis.is_fixed (axis name fb)) sequence]
  ∧ elements fb' = elements fb
  ∧ FigureAxis.is_fixed (axis name fb') = FigureAxis.is_fixed (axis name fb)
  ∧ FigureAxis.order (axis name fb')
    = (if FigureAxis.is_fixed (axis name fb) then FigureAxis.order (axis name fb)
       else sequence).
Proof.
  unfold FigureBuilder.set_axis_order. intros H.
  cbv [mbind Py_bind Py.bind Py.get Py.modify Py.lift] in H. simpl in H.
  change (axis name (FigureBuilder.record _ fb)) with (axis name fb) in H.
  unfold FigureAxis.set_order in H.
  destruct (FigureAxis.is_fixed (axis name fb)) eqn:Hfix; simpl in H.
  - simplify_eq. rewrite axis_insert_eq. simpl. by rewrite Hfix.
  - match type of H with context [if ?b then _ else _] => destruct b end; simpl in H;
      simplify_eq. by rewrite axis_insert_eq.
Qed.



End Tree.

(** ** The wide table *)

Section Pivot.

Lemma position_elem (s : string) (l : list string) :
  s ∈ l → ∃ i, pd.position s l = Some i ∧ l !! i = Some s.
Proof.
  intros Hin. unfold pd.position.
  destruct (list_find_elem_of (λ x, x = s) l s Hin eq_refl) as [[i x] Hfind].
  rewrite Hfind. apply list_find_Some in Hfind as (Hi & -> & _). eauto.
Qed.






End Pivot.

Section Heatmap.
Import gig_map_elements.
Context (w : World).
Implicit Types (fb : FigureBuilder.t).
Local Abbreviation elements := FigureBuilder.elements.
Local Abbreviation events := FigureBuilder.events.
Local Abbreviation axis := FigureBuilder.axis.

Lemma kwarg_returned kwargs k fb fb' v :
  kwarg kwargs k fb = (fb', Py.Return v) → fb' = fb ∧ kwargs !! k = Some v.
Proof.
  unfold kwarg. destruct (kwargs !! k); [rewrite run_mret|unfold Py.raise];
    intros H; simplify_eq; auto.
Qed.

Lemma checked_column_returned col t fb fb' cells :
  checked_column col t fb = (fb', Py.Return cells) →
  fb' = fb ∧ ∃ c, col = Py.Str c ∧ pd.column c t = Some cells.
Proof.
  unfold checked_column. destruct col as [|c|].
  - unfold Py.raise. intros H. simplify_eq.
  - destruct (pd.column c t) eqn:Hc; [rewrite run_mret|unfold Py.raise];
      intros H; simplify_eq; eauto.
  - unfold Py.raise. intros H. simplify_eq.
Qed.



End Heatmap.

(** ** The annotation table *)

Section Annotations.
Implicit Types (t : pd.Table) (df : pd.DataFrame).


Lemma idents_returned (cs : list pd.cell) (ids : list string) :
  pd.idents cs = Py.Return ids → cs = map pd.Str ids.
Proof.
  revert ids. induction cs as [|c cs IH]; intros ids; simpl.
  - intros H. by simplify_eq.
  - destruct c as [|s|q]; simpl; try done.
    destruct (pd.idents cs) as [ss|e]; [|done].
    intros H. simplify_eq. simpl. f_equal. by apply IH.
Qed.







Lemma substring_prefix (k : nat) (s : string) :
  String.prefix (substring 0 k s) s = true.
Proof.
  revert k. induction s as [|a s IH]; intros [|k]; simpl; try done.
  rewrite IH. by destruct (ascii_dec a a).
Qed.

End Annotations.

Section AxisAnnot.
Import gig_map_elements.
Context (w : World).
Implicit Types (fb : FigureBuilder.t).
Local Abbreviation elements := FigureBuilder.elements.
Local Abbreviation events := FigureBuilder.events.
Local Abbreviation axis := FigureBuilder.axis.

Lemma apply_trim_returned max_label_len (cells : list pd.cell) (labels : list string) :
  apply_trim max_label_len cells = Py.Return labels →
  Forall2 (λ c l, ∃ raw, c = pd.Str raw ∧ l = Py.str_slice_to max_label_len raw)
          cells labels.
Proof.
  revert labels. induction cells as [|c cells IH]; intros labels; simpl.
  - intros H. simplify_eq. constructor.
  - destruct c as [|s|q]; simpl; try done.
    destruct (apply_trim max_label_len cells) as [ss|e]; [|done].
    intros H. simplify_eq. constructor; eauto.
Qed.





End AxisAnnot.

(** ** Arguments and their namespaces *)

Section Arguments.
Import FigureBuilder.
Implicit Types (fb : FigureBuilder.t) (argv opts : list (string * Py.value))
  (p : gmap string (gmap string Py.value)).

Lemma replace_dash_app (s1 s2 : string) :
  Py.replace_dash (s1 +:+ s2) = Py.replace_dash s1 +:+ Py.replace_dash s2.
Proof. induction s1 as [|c s1 IH]; simpl; [done|]. by rewrite IH. Qed.

Lemma stored_put_eq ns k v p : stored ns k (put ns k v p) = Some v.
Proof. unfold stored, put. rewrite lookup_insert_eq. simpl. apply lookup_insert_eq. Qed.

Lemma stored_put_ne ns k ns' k' v p :
  (ns', k') ≠ (ns, k) → stored ns k (put ns' k' v p) = stored ns k p.
Proof.
  intros Hne. unfold stored, put.
  destruct (decide (ns' = ns)) as [->|Hns].
  - rewrite lookup_insert_eq. simpl. rewrite lookup_insert_ne by congruence.
    by destruct (p !! ns).
  - by rewrite lookup_insert_ne.
Qed.

(** After a sequence of stores to different places, each place holds its value. *)
Lemma stored_puts (T : list (string * string * Py.value)) p ns k v :
  NoDup T.*1 → (ns, k, v) ∈ T →
  stored ns k (fold_left (λ p t, put t.1.1 t.1.2 t.2 p) T p) = Some v.
Proof.
  induction T as [|[[ns' k'] v'] T IH] using rev_ind; [by intros _ ?%elem_of_nil|].
  rewrite fmap_app, fold_left_app. simpl. intros Hnd Hin.
  apply NoDup_app in Hnd as (Hnd & Hfresh & _).
  apply elem_of_app in Hin as [Hin|Hin].
  - rewrite stored_put_ne; [by apply IH|].
    intros Heq. simplify_eq. apply (Hfresh (ns, k)); [|by constructor].
    by apply (list_elem_of_fmap_2 fst) in Hin.
  - apply list_elem_of_singleton in Hin. simplify_eq. apply stored_put_eq.
Qed.

Lemma run_store ns k v fb :
  store ns k v fb = (with_params (put ns k v) fb, Py.Return tt).
Proof. reflexivity. Qed.

End Arguments.

Section Argparse.
Import FigureBuilder.
Implicit Types (argv opts cur : list (string * Py.value)).

Lemma defaults_fold acc opts :
  NoDup (acc.*1 ++ map (λ o, dest o.1) opts) →
  fold_left (λ ns o, if decide (dest o.1 ∈ ns.*1) then ns else ns ++ [(dest o.1, o.2)])
            opts acc
  = acc ++ map (λ o, (dest o.1, o.2)) opts.
Proof.
  revert acc. induction opts as [|o opts IH]; intros acc Hnd; simpl.
  - by rewrite app_nil_r.
  - simpl in Hnd. case_decide as Hin.
    + apply NoDup_app in Hnd as (_ & Hfresh & _).
      destruct (Hfresh _ Hin). by constructor.
    + rewrite IH.
      * by rewrite <- app_assoc.
      * rewrite fmap_app. simpl. by rewrite <- app_assoc.
Qed.

Lemma setattr_update o' v' cur :
  NoDup (map (λ o, dest o.1) cur) → o' ∈ cur.*1 →
  setattr (dest o') v' (map (λ o, (dest o.1, o.2)) cur)
  = map (λ o, (dest o.1, o.2))
        (map (λ o, if decide (o' = o.1) then (o.1, v') else o) cur).
Proof.
  induction cur as [|[k d] cur IH]; intros Hnd Hin; [by apply elem_of_nil in Hin|].
  simpl in *. apply NoDup_cons in Hnd as [Hfresh Hnd].
  assert (∀ o, o ∈ cur → dest o.1 ≠ dest k) as Hother.
  { intros o Ho Heq. apply Hfresh. rewrite <- Heq.
    by apply (list_elem_of_fmap_2 (λ o, dest o.1)) in Ho. }
  case_decide as Hd.
  - assert (o' = k) as ->.
    { apply elem_of_cons in Hin as [->|Hin]; [done|].
      apply list_elem_of_fmap in Hin as (o & -> & Ho). by destruct (Hother o Ho). }
    rewrite decide_True by done. simpl. f_equal. f_equal.
    symmetry. erewrite map_ext_in; [apply map_id|].
    intros o Ho. apply list_elem_of_In in Ho. case_decide; [|done].
    subst. by destruct (Hother o Ho).
  - assert (o' ≠ k) as Hne by congruence.
    rewrite decide_False by done. simpl. f_equal. apply IH; [done|].
    apply elem_of_cons in Hin as [?|?]; done.
Qed.

Lemma given_cons o d o' v' argv :
  given o d ((o', v') :: argv) = given o (if decide (o' = o) then v' else d) argv.
Proof. reflexivity. Qed.

Lemma parse_fold opts argv cur :
  cur.*1 = opts.*1 →
  NoDup (map (λ o, dest o.1) cur) →
  "help" ∉ opts.*1 →
  (∀ ov, ov ∈ argv → ov.1 ∈ opts.*1) →
  fold_left
    (λ acc ov,
       match acc with
       | Py.Raise e => Py.Raise e
       | Py.Return ns =>
           if decide (ov.1 = "help") then Py.Raise (Py.SystemExit 0)
           else if decide (ov.1 ∈ opts.*1) then Py.Return (setattr (dest ov.1) ov.2 ns)
           else Py.Raise (Py.SystemExit 2)
       end)
    argv (Py.Return (map (λ o, (dest o.1, o.2)) cur))
  = Py.Return (map (λ o, (dest o.1, given o.1 o.2 argv)) cur).
Proof.
  intros Hnames Hnd Hhelp. revert cur Hnames Hnd.
  induction argv as [|[o' v'] argv IH]; intros cur Hnames Hnd Hdecl; [done|].
  assert (o' ∈ opts.*1) as Ho' by (apply (Hdecl (o', v')); by constructor).
  simpl. rewrite decide_False by (intros ->; done). rewrite decide_True by done.
  rewrite setattr_update; [|done|by rewrite Hnames].
  rewrite IH.
  - rewrite !map_map. f_equal. apply map_ext. intros [k d].
    simpl. by case_decide.
  - rewrite <- Hnames. rewrite <- !list_fmap_compose. apply list_fmap_ext.
    intros i [k d] _. simpl. by case_decide.
  - rewrite map_map. erewrite map_ext; [exact Hnd|].
    intros [k d]. simpl. by case_decide.
  - intros ov Hov. apply Hdecl. by constructor.
Qed.

(** argparse on declarations whose destinations are all different: every
    destination holds the value given to its option. *)
Lemma run_parse opts argv :
  NoDup (map (λ o, dest o.1) opts) →
  "help" ∉ opts.*1 →
  (∀ ov, ov ∈ argv → ov.1 ∈ opts.*1) →
  add_arguments opts = Py.Return tt
  ∧ parse opts argv = Py.Return (map (λ o, (dest o.1, given o.1 o.2 argv)) opts).
Proof.
  intros Hnd Hhelp Hdecl. split.
  - unfold add_arguments. rewrite decide_True; [done|].
    apply NoDup_cons. split; [done|].
    apply (NoDup_fmap_1 dest). by rewrite <- list_fmap_compose.
  - unfold parse, defaults. rewrite defaults_fold by done. simpl. by apply parse_fold.
Qed.

End Argparse.

Section Namespaces.
Import FigureBuilder.
Context (fb : FigureBuilder.t).
Context (Hids : ∀ e, e ∈ elements fb →
                  Py.replace_dash (FigureElement.id e) = FigureElement.id e
                  ∧ FigureElement.id e ≠ "global").
Context (Hnd : NoDup (map (λ o, dest o.1) (options fb))).
Context (Hhelp : "help" ∉ (options fb).*1).

Local Abbreviation global_kw := (λ arg, Py.replace_dash (FigureArgument.key arg)).

Lemma element_args_elem ea :
  ea ∈ element_args fb →
  ea.1 ∈ elements fb ∧ ea.2 ∈ FigureElement.args ea.1.
Proof.
  unfold element_args. rewrite list_elem_of_In, in_flat_map.
  intros (e & He & Hea). apply list_elem_of_In in He.
  apply in_map_iff in Hea as (arg & <- & Harg). apply list_elem_of_In in Harg. done.
Qed.

Lemma element_args_intro e arg :
  e ∈ elements fb → arg ∈ FigureElement.args e → (e, arg) ∈ element_args fb.
Proof.
  intros He Harg. unfold element_args. rewrite list_elem_of_In, in_flat_map.
  exists e. split; [by apply list_elem_of_In|].
  apply in_map_iff. exists arg. split; [done|]. by apply list_elem_of_In.
Qed.

Lemma element_dest ea :
  ea ∈ element_args fb →
  dest (FigureElement.id ea.1 +:+ "-" +:+ FigureArgument.key ea.2) = element_kw ea.
Proof.
  intros Hea. apply element_args_elem in Hea as [He _].
  unfold dest, element_kw. rewrite !replace_dash_app. simpl.
  by destruct (Hids _ He) as [-> _].
Qed.

Lemma dests_split :
  map (λ o, dest o.1) (options fb)
  = map global_kw (args fb) ++ map element_kw (element_args fb).
Proof.
  unfold options. rewrite map_app, !map_map. f_equal.
  apply map_ext_in. intros ea Hea. simpl. apply element_dest. by apply list_elem_of_In.
Qed.

Lemma NoDup_fmap_same {A B} (f : A → B) (l : list A) x y :
  NoDup (map f l) → x ∈ l → y ∈ l → f x = f y → x = y.
Proof.
  intros Hl Hx Hy Hf.
  apply list_elem_of_lookup in Hx as [i Hi]. apply list_elem_of_lookup in Hy as [j Hj].
  assert (i = j) as ->; [|congruence].
  eapply NoDup_lookup; [exact Hl| |].
  - change (map f l) with (f <$> l). rewrite list_lookup_fmap, Hi. done.
  - change (map f l) with (f <$> l). rewrite list_lookup_fmap, Hj. simpl. by rewrite Hf.
Qed.

(** [add_param] with the destination of a global argument. *)
Lemma add_param_global fb1 arg v :
  args fb1 = args fb → arg ∈ args fb →
  add_param (global_kw arg) v fb1 = store "global" (global_kw arg) v fb1.
Proof.
  intros Hargs Harg. unfold add_param. rewrite run_bind. simpl. rewrite Hargs.
  destruct (list_find_elem_of
              (λ arg0, Py.replace_dash (FigureArgument.key arg0) = global_kw arg)
              (args fb) arg Harg eq_refl) as [[i a] Hfind].
  by rewrite Hfind.
Qed.

(** [add_param] with the destination of an argument of an element. *)
Lemma add_param_element fb1 ea v :
  args fb1 = args fb → elements fb1 = elements fb → ea ∈ element_args fb →
  add_param (element_kw ea) v fb1
  = store (FigureElement.id ea.1) (FigureArgument.key ea.2) v fb1.
Proof.
  intros Hargs Hels Hea. unfold add_param. rewrite run_bind. simpl. rewrite Hargs.
  pose proof Hnd as Hnd'. rewrite dests_split in Hnd'.
  apply NoDup_app in Hnd' as (_ & Hdisj & Hnde).
  destruct (list_find _ (args fb)) as [[i a]|] eqn:Hg.
  - apply list_find_Some in Hg as (Hi & Ha & _).
    destruct (Hdisj (element_kw ea)).
    + rewrite <- Ha. apply (list_elem_of_fmap_2 global_kw).
      by eapply list_elem_of_lookup_2.
    + by apply (list_elem_of_fmap_2 element_kw).
  - assert (element_args fb1 = element_args fb) as ->.
    { unfold element_args. by rewrite Hels. }
    destruct (list_find_elem_of (λ ea0, element_kw ea0 = element_kw ea)
                (element_args fb) ea Hea eq_refl) as [[j ea'] Hfind].
    rewrite Hfind. apply list_find_Some in Hfind as (Hj & Hkw & _).
    assert (ea' = ea) as ->; [|by destruct ea].
    eapply (NoDup_fmap_same element_kw); [exact Hnde| |done|done].
    by eapply list_elem_of_lookup_2.
Qed.

Lemma for_add_param (L : list (string * Py.value))
    (T : list (string * string * Py.value)) fb1 :
  Forall2 (λ kv t, ∀ fb2, args fb2 = args fb → elements fb2 = elements fb →
                     add_param kv.1 kv.2 fb2 = store t.1.1 t.1.2 t.2 fb2) L T →
  args fb1 = args fb → elements fb1 = elements fb →
  Py.for_ L (λ kv, add_param kv.1 kv.2) fb1
  = (with_params (λ p, fold_left (λ p t, put t.1.1 t.1.2 t.2 p) T p) fb1, Py.Return tt).
Proof.
  intros HLT. revert fb1. induction HLT as [|kv t L T Hkv HLT IH]; intros fb1 Hargs Hels.
  - by destruct fb1.
  - simpl. unfold Py.bind at 1. rewrite (Hkv fb1 Hargs Hels), run_store.
    rewrite IH by done. done.
Qed.

Lemma plan_places : NoDup (plan fb []).*1.
Proof.
  pose proof Hnd as Hnd'. rewrite dests_split in Hnd'.
  apply NoDup_app in Hnd' as (Hg & _ & He).
  unfold plan. rewrite fmap_app. apply NoDup_app. split_and!.
  - rewrite <- list_fmap_compose.
    change (NoDup ((λ s, ("global", s)) ∘ global_kw <$> args fb)).
    rewrite list_fmap_compose. apply NoDup_fmap_2; [|done].
    intros ?? [= ?]. done.
  - intros [ns k] Hin Hin'.
    apply list_elem_of_fmap in Hin as ([[ns1 k1] v1] & [= -> ->] & Hin).
    apply list_elem_of_fmap in Hin as (arg & [= -> -> ->] & _).
    apply list_elem_of_fmap in Hin' as ([[ns2 k2] v2] & [= Hns Hk] & Hin').
    apply list_elem_of_fmap in Hin' as (ea & [= -> -> ->] & Hea).
    apply element_args_elem in Hea as [Hel _].
    by destruct (Hids _ Hel) as [_ ?].
  - rewrite <- list_fmap_compose.
    apply (NoDup_fmap_1 (λ nk : string * string, nk.1 +:+ "_" +:+ Py.replace_dash nk.2)).
    by rewrite <- list_fmap_compose.
Qed.

Lemma plan_fst argv : (plan fb argv).*1 = (plan fb []).*1.
Proof. unfold plan. by rewrite !fmap_app, <- !list_fmap_compose. Qed.

(** [parse_args] keeps the value of every declared argument at its place. *)
Lemma run_parse_args argv :
  (∀ ov, ov ∈ argv → ov.1 ∈ (options fb).*1) →
  parse_args argv fb
  = (with_params (λ _, fold_left (λ p t, put t.1.1 t.1.2 t.2 p) (plan fb argv) ∅) fb,
     Py.Return tt).
Proof.
  intros Hdecl. destruct (run_parse _ argv Hnd Hhelp Hdecl) as [Hadd Hparse].
  unfold parse_args. rewrite run_bind. simpl.
  rewrite Hadd. rewrite run_bind. simpl. rewrite run_bind. simpl.
  rewrite Hparse. rewrite run_bind. simpl.
  erewrite (for_add_param _ (plan fb argv)); [done| |done|done].
  unfold options, plan. rewrite map_app. apply Forall2_app.
  - rewrite map_map. apply Forall2_fmap, Forall_Forall2_diag, Forall_forall.
    intros arg Harg fb2 Hargs _. simpl. by apply add_param_global.
  - rewrite map_map. apply Forall2_fmap, Forall_Forall2_diag, Forall_forall.
    intros ea Hea fb2 Hargs Hels. simpl.
    rewrite (element_dest _ Hea). by apply add_param_element.
Qed.

End Namespaces.

Section RoundTrip.
Import FigureBuilder.

Lemma given_absent o d (argv : list (string * Py.value)) :
  o ∉ argv.*1 → given o d argv = d.
Proof.
  revert d. induction argv as [|[o' v'] argv IH]; intros d Hout; [done|].
  rewrite given_cons. rewrite decide_False.
  - apply IH. intros Hin. apply Hout. simpl. by constructor.
  - intros ->. apply Hout. simpl. by constructor.
Qed.

(** An option that the command line supplies once is given that value. *)
Lemma given_supplied o v d (argv : list (string * Py.value)) :
  NoDup argv.*1 → (o, v) ∈ argv → given o d argv = v.
Proof.
  revert d. induction argv as [|[o' v'] argv IH]; intros d Hnd Hin;
    [by apply elem_of_nil in Hin|].
  simpl in Hnd. apply NoDup_cons in Hnd as [Hfresh Hnd].
  rewrite given_cons. apply elem_of_cons in Hin as [Heq|Hin].
  - simplify_eq. rewrite decide_True by done. by apply given_absent.
  - by apply IH.
Qed.

(** C5, amended.  Let no element id contain "-" or be "global", let the
    parser destinations of the declared arguments be all different and
    none of the options be "--help", and let the command line use declared
    options only, each at most once.  Then [parse_args]
    returns; the value given to the option "--{e}-{k}" of an element [e]
    (the value supplied, or else the default) is kept at
    [params[e][k]], under the declared key [k]; and the value given to a
    global option "--{k}" is kept at [params["global"][k']], where [k'] is
    [k] with every "-" replaced by "_". *)
Theorem namespacing_round_trip (fb : FigureBuilder.t) (argv : list (string * Py.value)) :
  (∀ e, e ∈ elements fb →
        Py.replace_dash (FigureElement.id e) = FigureElement.id e
        ∧ FigureElement.id e ≠ "global") →
  NoDup (map (λ o, dest o.1) (options fb)) →
  "help" ∉ (options fb).*1 →
  NoDup argv.*1 →
  (∀ ov, ov ∈ argv → ov.1 ∈ (options fb).*1) →
  ∃ fb',
    parse_args argv fb = (fb', Py.Return tt)
    ∧ (∀ e arg, e ∈ elements fb → arg ∈ FigureElement.args e →
         stored (FigureElement.id e) (FigureArgument.key arg) (params fb')
         = Some (given (FigureElement.id e +:+ "-" +:+ FigureArgument.key arg)
                       (FigureArgument.default arg) argv))
    ∧ (∀ e arg v, e ∈ elements fb → arg ∈ FigureElement.args e →
         (FigureElement.id e +:+ "-" +:+ FigureArgument.key arg, v) ∈ argv →
         stored (FigureElement.id e) (FigureArgument.key arg) (params fb') = Some v)
    ∧ (∀ arg, arg ∈ args fb →
         stored "global" (Py.replace_dash (FigureArgument.key arg)) (params fb')
         = Some (given (FigureArgument.key arg) (FigureArgument.default arg) argv))
    ∧ (∀ arg v, arg ∈ args fb → (FigureArgument.key arg, v) ∈ argv →
         stored "global" (Py.replace_dash (FigureArgument.key arg)) (params fb')
         = Some v).
Proof.
  intros Hids Hnd Hhelp Hargv Hdecl. eexists. split; [by apply run_parse_args|]. simpl.
  assert (NoDup (plan fb argv).*1) as Hplaces.
  { rewrite plan_fst. by apply plan_places. }
  assert (∀ e arg, e ∈ elements fb → arg ∈ FigureElement.args e →
            stored (FigureElement.id e) (FigureArgument.key arg)
              (fold_left (λ p t, put t.1.1 t.1.2 t.2 p) (plan fb argv) ∅)
            = Some (given (FigureElement.id e +:+ "-" +:+ FigureArgument.key arg)
                      (FigureArgument.default arg) argv)) as Helem.
  { intros e arg He Harg. apply stored_puts; [done|].
    unfold plan. apply elem_of_app. right.
    apply list_elem_of_fmap. exists (e, arg). split; [done|].
    by apply element_args_intro. }
  assert (∀ arg, arg ∈ args fb →
            stored "global" (Py.replace_dash (FigureArgument.key arg))
              (fold_left (λ p t, put t.1.1 t.1.2 t.2 p) (plan fb argv) ∅)
            = Some (given (FigureArgument.key arg) (FigureArgument.default arg) argv))
    as Hglobal.
  { intros arg Harg. apply stored_puts; [done|].
    unfold plan. apply elem_of_app. left.
    apply list_elem_of_fmap. by exists arg. }
  split_and!.
  - exact Helem.
  - intros e arg v He Harg Hv. rewrite Helem by done. f_equal. by apply given_supplied.
  - exact Hglobal.
  - intros arg v Harg Hv. rewrite Hglobal by done. f_equal. by apply given_supplied.
Qed.

End RoundTrip.

(** ** The statements on the small run *)

Section Runs.
Import gig_map_elements scenario.

Lemma distances_chunks_reassemble_witness :
  ∃ r' keys,
    aggregate_results.save_distances 4 2 [10; 20; 30]%nat ∅ = Some r'
    ∧ aggregate_results.reassemble r' keys = [10; 20; 30]%nat.
Proof.
  destruct (distances_chunks_reassemble 4 2 [10; 20; 30]%nat ∅)
    as (r' & keys & Hrun & _ & _ & _ & Hback & _); [lia|simpl; lia|].
  by exists r', keys.
Defined.


Lemma read_data_passes_only_the_namespace_witness :
  ∃ fb',
    FigureBuilder.read_data quiet GigMapFigure = (fb', Py.Return tt)
    ∧ ∀ id positional keywords,
        FigureBuilder.read_f_called id positional keywords ∈ FigureBuilder.events fb' →
        FigureBuilder.Builder ∉ positional.
Proof.
  destruct (read_data_passes_only_the_namespace quiet GigMapFigure)
    as (fb' & Hrun & _ & Hpos & _).
  - intros ev. by exists Py.None_.
  - exists fb'. split; [done|]. exact Hpos.
Defined.




(** C5, as stated, fails for a global argument whose key has a "-": the
    value supplied as "--output-prefix" is kept under "output_prefix",
    and nothing is kept under "output-prefix". *)
Lemma global_key_is_kept_with_underscores :
  let r := FigureBuilder.parse_args [("output-prefix", Py.Str "out")] GigMapFigure in
  r.2 = Py.Return tt
  ∧ FigureBuilder.stored "global" "output-prefix" (FigureBuilder.params r.1) = None
  ∧ FigureBuilder.stored "global" "output-prefix" (FigureBuilder.params r.1)
    ≠ Some (Py.Str "out")
  ∧ FigureBuilder.stored "global" "output_prefix" (FigureBuilder.params r.1)
    = Some (Py.Str "out").
Proof. vm_compute. split_and!; try reflexivity. discriminate. Qed.

Lemma namespacing_round_trip_witness :
  ∃ fb',
    FigureBuilder.parse_args
      [("genomeAnnot-max-label-len", Py.Int 3); ("output-prefix", Py.Str "out")]
      GigMapFigure = (fb', Py.Return tt)
    ∧ FigureBuilder.stored "genomeAnnot" "max-label-len" (FigureBuilder.params fb')
      = Some (Py.Int 3)
    ∧ FigureBuilder.stored "global" "output_prefix" (FigureBuilder.params fb')
      = Some (Py.Str "out").
Proof.
  destruct (namespacing_round_trip GigMapFigure
              [("genomeAnnot-max-label-len", Py.Int 3); ("output-prefix", Py.Str "out")])
    as (fb' & Hrun & _ & Helem & _ & Hglobal).
  - apply Forall_forall. vm_compute. repeat constructor; discriminate.
  - apply (bool_decide_unpack _). vm_compute. exact I.
  - apply (bool_decide_unpack _). vm_compute. exact I.
  - apply (bool_decide_unpack _). vm_compute. exact I.
  - apply Forall_forall. repeat constructor; apply (bool_decide_unpack _); vm_compute; exact I.
  - exists fb'. split_and!; [done| |].
    + apply (Helem GenomeAnnotations
               {| FigureArgument.key := "max-label-len";
                  FigureArgument.description :=
                    "Maximum number of characters allowed for genome labels (default: 60)";
                  FigureArgument.type := FigureArgument.int;
                  FigureArgument.default := Py.Int 60 |} (Py.Int 3));
        vm_compute; repeat constructor.
    + apply (Hglobal (argument "output-prefix"
                        "Prefix for output file (default: gigmap-render)"
                        (Py.Str "gigmap-render")) (Py.Str "out"));
        vm_compute; repeat constructor.
Defined.



(** At the element level the cascade of C4 is what the code does. *)
Example cascade_on_the_figure :
  map FigureElement.enabled
    (FigureBuilder.elements
       ((HeatmapElement_read_f files 3 None heatmap_kwargs
         ≫= λ _, HeatmapColorbarElement_read_f 4) GigMapFigure).1)
  = [true; true; true; false; false].
Proof. vm_compute. reflexivity. Qed.

(** The figure of gig_map_elements.py cannot be constructed either. *)
Example construction_of_the_figure :
  FigureBuilder.__init__ (FigureBuilder.args GigMapFigure) true
    (FigureBuilder.elements GigMapFigure)
  = Py.Raise (Py.AttributeError "elements").
Proof. reflexivity. Qed.

End Runs.

(** * Further properties *)

(** ** The chunked write, continued *)

Section Chunks.
Import aggregate_results.
Context {Row : Type}.
Implicit Types (dists : list Row) (r : gmap string (redis_value Row)).

Lemma slice_from_nonempty (n : Z) dists :
  n ≤ 0 → dists ≠ [] → Py.slice_from n dists ≠ [].
Proof.
  intros Hn Hne. unfold Py.slice_from.
  assert (0 < length dists)%nat by (destruct dists; [done|simpl; lia]).
  intros Hnil. apply (f_equal length) in Hnil. simpl in Hnil.
  destruct (Z.ltb_spec n 0); rewrite length_drop in Hnil; lia.
Qed.

Lemma write_distances_no_progress fuel (n : Z) dists keys r :
  n ≤ 0 → dists ≠ [] → write_distances fuel n dists keys r = None.
Proof.
  intros Hn. revert dists keys r.
  induction fuel as [|fuel IH]; intros dists keys r Hne; [done|].
  simpl.
  assert (0 < length dists)%nat by (destruct dists; [done|simpl; lia]).
  destruct (Z.ltb_spec 0 (Z.of_nat (length dists))); [|lia].
  destruct (Z.leb_spec (Z.of_nat (length dists)) n); [lia|].
  apply IH. by apply slice_from_nonempty.
Qed.

(** X1.  With a chunk size of zero or less and a table that has rows, the
    loop writes a chunk in every iteration and never gets to the end: no
    number of iterations is enough, and "distances_keys" is never
    written. *)
Theorem distances_loop_needs_a_positive_chunk_size (fuel : nat) (n : Z) dists r :
  n ≤ 0 → dists ≠ [] → save_distances fuel n dists r = None.
Proof.
  intros Hn Hne. unfold save_distances.
  by rewrite write_distances_no_progress.
Qed.

Lemma ceil_step (len n : Z) : 1 ≤ n → n < len → (len - n + n - 1) / n + 1 = (len + n - 1) / n.
Proof.
  intros Hn Hlen.
  replace (len + n - 1) with ((len - n + n - 1) + 1 * n) by lia.
  rewrite Z.div_add by lia. done.
Qed.

Lemma write_distances_layout fuel n dists keys r :
  1 ≤ n → (length dists < fuel)%nat →
  ∃ cs,
    write_distances fuel n dists keys r
      = Some (with_chunks (length keys) cs r,
              keys ++ map distances_key (seq (length keys) (length cs)))
    ∧ Z.of_nat (length cs) = (Z.of_nat (length dists) + n - 1) / n
    ∧ ∀ j, (j < length cs)%nat →
           cs !! j = Some (take (Z.to_nat n) (drop (j * Z.to_nat n) dists)).
Proof.
  intros Hn. revert dists keys r.
  induction fuel as [|fuel IH]; intros dists keys r Hfuel; [lia|].
  simpl. destruct (Z.ltb_spec 0 (Z.of_nat (length dists))) as [Hpos|Hzero].
  - destruct (Z.leb_spec (Z.of_nat (length dists)) n) as [Hle|Hgt].
    + exists [dists]. simpl. split_and!.
      * unfold Py.slice_to. rewrite Z.min_l by done.
        destruct (Z.ltb_spec (Z.of_nat (length dists)) 0); [lia|].
        rewrite Nat2Z.id, firstn_all. done.
      * apply (Z.div_unique _ _ _ (Z.of_nat (length dists) - 1)); lia.
      * intros [|j] Hj; [|simpl in Hj; lia]. simpl. rewrite drop_0.
        rewrite take_ge by lia. done.
    + destruct (IH (Py.slice_from n dists) (keys ++ [distances_key (length keys)])
                (<[distances_key (length keys) :=
                     Table (Py.slice_to (Z.of_nat (length dists) `min` n) dists)]> r))
        as (cs & Hrun & Hcount & Hlay).
      { unfold Py.slice_from. destruct (Z.ltb_spec n 0); [lia|].
        rewrite length_drop. lia. }
      assert (Py.slice_from n dists = drop (Z.to_nat n) dists) as Hfrom.
      { unfold Py.slice_from. by destruct (Z.ltb_spec n 0); [lia|]. }
      assert (Py.slice_to (Z.of_nat (length dists) `min` n) dists
              = take (Z.to_nat n) dists) as Hto.
      { unfold Py.slice_to. rewrite Z.min_r by lia.
        by destruct (Z.ltb_spec n 0); [lia|]. }
      exists (take (Z.to_nat n) dists :: cs).
      rewrite Hrun. rewrite length_app in *. simpl.
      replace (length keys + 1)%nat with (S (length keys)) by lia.
      split_and!.
      * rewrite Hto. by rewrite <- app_assoc.
      * rewrite Hfrom, length_drop in Hcount.
        rewrite Nat2Z.inj_succ, Hcount, <- (ceil_step (Z.of_nat (length dists)) n) by lia.
        rewrite Nat2Z.inj_sub by lia. rewrite Z2Nat.id by lia. lia.
      * intros [|j] Hj; simpl.
        -- done.
        -- rewrite (Hlay j) by (simpl in Hj; lia). by rewrite Hfrom, drop_drop.
  - exists []. simpl. rewrite app_nil_r. split_and!; [done| |intros j Hj; simpl in Hj; lia].
    assert (length dists = 0)%nat as -> by lia. simpl.
    symmetry. apply Z.div_small. lia.
Qed.

(** X2.  For a chunk size [n >= 1] the loop writes ceil(rows / n) chunks, and
    chunk number [i] holds the rows [i*n .. i*n + n - 1] of the table (the
    last chunk the rows that are left): every chunk but the last has
    exactly [n] rows, and an empty table gives no chunk at all. *)
Theorem distances_chunk_layout (fuel : nat) (n : Z) dists r :
  1 ≤ n → (length dists < fuel)%nat →
  ∃ r' keys,
    save_distances fuel n dists r = Some r'
    ∧ r' !! "distances_keys" = Some (KeyList keys)
    ∧ Z.of_nat (length keys) = (Z.of_nat (length dists) + n - 1) / n
    ∧ ∀ i, (i < length keys)%nat →
           r' !! distances_key i
           = Some (Table (take (Z.to_nat n) (drop (i * Z.to_nat n) dists))).
Proof.
  intros Hn Hfuel.
  destruct (write_distances_layout fuel n dists [] r Hn Hfuel)
    as (cs & Hrun & Hcount & Hlay).
  simpl in Hrun. unfold save_distances. rewrite Hrun.
  eexists _, _. split_and!; [done|apply lookup_insert_eq| |].
  - by rewrite length_map, length_seq.
  - rewrite length_map, length_seq. intros i Hi.
    rewrite lookup_insert_ne by (intros E; by eapply distances_key_not_keys).
    apply (with_chunks_lookup 0). by apply Hlay.
Qed.

End Chunks.

Lemma distances_loop_needs_a_positive_chunk_size_witness :
  aggregate_results.save_distances 100 0 [1; 2; 3]%nat ∅ = None.
Proof. apply distances_loop_needs_a_positive_chunk_size; [lia|done]. Defined.

Lemma distances_chunk_layout_witness :
  ∃ r' (keys : list string),
    aggregate_results.save_distances 6 2 [10; 20; 30; 40; 50]%nat ∅ = Some r'
    ∧ r' !! "distances_keys" = Some (aggregate_results.KeyList keys)
    ∧ length keys = 3%nat
    ∧ r' !! aggregate_results.distances_key 2 = Some (aggregate_results.Table [50%nat]).
Proof.
  destruct (distances_chunk_layout 6 2 [10; 20; 30; 40; 50]%nat ∅)
    as (r' & keys & Hrun & Hkeys & Hcount & Hlay); [lia|simpl; lia|].
  exists r', keys. split_and!; [done|done| |].
  - change ((Z.of_nat (length [10; 20; 30; 40; 50]%nat) + 2 - 1) / 2) with 3 in Hcount. lia.
  - apply (Hlay 2%nat).
    change ((Z.of_nat (length [10; 20; 30; 40; 50]%nat) + 2 - 1) / 2) with 3 in Hcount. lia.
Defined.

(** ** Code without state *)

Section Outcomes.

Lemma outcome_bind_returned {A B} (o : Py.outcome A) (k : A → Py.outcome B) b :
  o ≫= k = Py.Return b ↔ ∃ a, o = Py.Return a ∧ k a = Py.Return b.
Proof.
  destruct o as [a|e]; simpl; split.
  - eauto.
  - by intros (? & [= <-] & ?).
  - done.
  - by intros (? & ? & ?).
Qed.

(** A loop that collects results returns when every step returns. *)
Lemma mapM_returned {A B} (f : A → Py.outcome B) (l : list A) (ys : list B) :
  mapM f l = Py.Return ys ↔ Forall2 (λ x y, f x = Py.Return y) l ys.
Proof.
  revert ys. induction l as [|x l IH]; intros ys; simpl.
  - split; [intros [= <-]; constructor|]. intros H. by apply Forall2_nil_inv_l in H as ->.
  - rewrite outcome_bind_returned. split.
    + intros (y & Hy & H). apply outcome_bind_returned in H as (k & Hk & [= <-]).
      constructor; [done|]. by apply IH.
    + intros H. apply Forall2_cons_inv_l in H as (y & k & Hy & Hk & ->).
      exists y. split; [done|]. apply outcome_bind_returned.
      exists k. split; [by apply IH|done].
Qed.

(** ... and raises what its first failing step raises. *)
Lemma mapM_raised {A B} (f : A → Py.outcome B) (l1 l2 : list A) x e :
  Forall (λ x, Py.returned (f x)) l1 → f x = Py.Raise e →
  mapM f (l1 ++ x :: l2) = Py.Raise e.
Proof.
  intros Hl1 Hx. induction Hl1 as [|x1 l1 [y Hy] _ IH]; simpl.
  - by rewrite Hx.
  - rewrite Hy. simpl. by rewrite IH.
Qed.

End Outcomes.

(** ** Genes and genomes by position *)

Section Indices.
Import aggregate_results.
Context {Rest : Type}.
Implicit Types (alignments : list (alignment Rest)) (l gene_list : list string).

Lemma unique_fold seen l :
  NoDup seen →
  NoDup (fold_left (λ seen x, if decide (x ∈ seen) then seen else seen ++ [x]) l seen)
  ∧ ∀ x, x ∈ fold_left (λ seen x, if decide (x ∈ seen) then seen else seen ++ [x]) l seen
         ↔ x ∈ seen ∨ x ∈ l.
Proof.
  revert seen. induction l as [|y l IH]; intros seen Hnd; simpl.
  - split; [done|]. intros x. rewrite elem_of_nil. tauto.
  - case_decide as Hy.
    + destruct (IH seen Hnd) as [Hnd' Hin]. split; [done|].
      intros x. rewrite Hin, elem_of_cons.
      split; [tauto|]. intros [?|[->|?]]; auto.
    + destruct (IH (seen ++ [y])) as [Hnd' Hin].
      { apply NoDup_app. split_and!; [done| |apply NoDup_singleton].
        intros x Hx ->%list_elem_of_singleton. done. }
      split; [done|]. intros x.
      rewrite Hin, elem_of_app, list_elem_of_singleton, elem_of_cons. tauto.
Qed.

Lemma unique_NoDup l : NoDup (unique l).
Proof. apply unique_fold. constructor. Qed.

Lemma unique_elem l x : x ∈ unique l ↔ x ∈ l.
Proof.
  unfold unique. destruct (unique_fold [] l) as [_ Hin]; [constructor|].
  rewrite Hin, elem_of_nil. tauto.
Qed.

Lemma index_of_returned l x i : index_of l x = Py.Return i → l !! i = Some x.
Proof.
  unfold index_of. destruct (list_find _ l) as [[j y]|] eqn:Hfind; [|done].
  intros [= <-]. by apply list_find_Some in Hfind as (Hj & -> & _).
Qed.

Lemma index_of_elem l x : x ∈ l → Py.returned (index_of l x).
Proof.
  intros Hin. unfold index_of.
  destruct (list_find_elem_of (λ y, y = x) l x Hin eq_refl) as [[i y] ->]. by eexists.
Qed.

Lemma index_of_missing l x : x ∉ l → index_of l x = Py.Raise (Py.ValueError "is not in list").
Proof.
  intros Hout. unfold index_of.
  destruct (list_find _ l) as [[j y]|] eqn:Hfind; [|done].
  apply list_find_Some in Hfind as (Hj & -> & _).
  destruct Hout. by eapply list_elem_of_lookup_2.
Qed.

Lemma mapM_index_of l (xs : list string) :
  (∀ x, x ∈ xs → x ∈ l) →
  ∃ ixs, mapM (index_of l) xs = Py.Return ixs
         ∧ Forall2 (λ x i, l !! i = Some x) xs ixs.
Proof.
  intros Hin.
  assert (∃ ixs, Forall2 (λ x i, index_of l x = Py.Return i) xs ixs) as [ixs Hixs].
  { induction xs as [|x xs IH]; [by exists []|].
    destruct IH as [ixs Hixs]; [intros; apply Hin; by constructor|].
    destruct (index_of_elem l x) as [i Hi]; [apply Hin; by constructor|].
    exists (i :: ixs). by constructor. }
  exists ixs. split; [by apply mapM_returned|].
  eapply Forall2_impl; [exact Hixs|]. intros x i. apply index_of_returned.
Qed.

(** X3.  When every gene of the alignment table is listed in the gene order
    file, the index step returns a row for every row of the table, and the
    two positions it writes decode to the names it drops: [gene_ix] is a
    position of the row's gene in the gene list and [genome_ix] the position
    of the row's genome in the genome list, in which no genome is listed
    twice; the genome lookup itself never fails. *)
Theorem index_columns_decode gene_list alignments :
  (∀ a, a ∈ alignments → sseqid a ∈ gene_list) →
  ∃ out,
    add_ix gene_list alignments = Py.Return out
    ∧ length out = length alignments
    ∧ NoDup (genome_list alignments)
    ∧ ∀ i a, alignments !! i = Some a →
        ∃ o, out !! i = Some o
             ∧ kept o = rest a
             ∧ gene_list !! gene_ix o = Some (sseqid a)
             ∧ genome_list alignments !! genome_ix o = Some (genome a).
Proof.
  intros Hgenes.
  destruct (mapM_index_of gene_list (map sseqid alignments)) as (gi & Hgi & Hgdec).
  { intros x Hx. apply list_elem_of_fmap in Hx as (a & -> & Ha). by apply Hgenes. }
  destruct (mapM_index_of (genome_list alignments) (map genome alignments))
    as (gj & Hgj & Hjdec).
  { intros x Hx. by apply unique_elem. }
  pose proof (Forall2_length _ _ _ Hgdec) as Hlg.
  pose proof (Forall2_length _ _ _ Hjdec) as Hlj.
  rewrite length_map in Hlg, Hlj.
  eexists. split_and!.
  - unfold add_ix. rewrite Hgi. simpl. rewrite Hgj. reflexivity.
  - rewrite length_zip_with, length_zip. lia.
  - apply unique_NoDup.
  - intros i a Hi.
    destruct (lookup_lt_is_Some_2 gi i) as [x Hx];
      [rewrite <- Hlg; by eapply lookup_lt_Some|].
    destruct (lookup_lt_is_Some_2 gj i) as [y Hy];
      [rewrite <- Hlj; by eapply lookup_lt_Some|].
    eexists. split_and!.
    + rewrite lookup_zip_with, Hi. simpl.
      erewrite (proj2 (lookup_zip_Some gi gj i x y)) by done. reflexivity.
    + done.
    + simpl. eapply Forall2_lookup_lr in Hgdec; [exact Hgdec| |exact Hx].
      change (map sseqid alignments) with (sseqid <$> alignments).
      by rewrite list_lookup_fmap, Hi.
    + simpl. eapply Forall2_lookup_lr in Hjdec; [exact Hjdec| |exact Hy].
      change (map genome alignments) with (genome <$> alignments).
      by rewrite list_lookup_fmap, Hi.
Qed.

(** X4.  A gene of the alignment table that the gene order file does not list
    stops the index step with a ValueError. *)
Theorem index_step_needs_every_gene gene_list alignments a :
  a ∈ alignments → sseqid a ∉ gene_list →
  add_ix gene_list alignments = Py.Raise (Py.ValueError "is not in list").
Proof.
  intros Ha Hout. unfold add_ix.
  assert (∃ e, mapM (index_of gene_list) (map sseqid alignments)
               = Py.Raise (Py.ValueError e) ∧ e = "is not in list") as (e & -> & ->);
    [|reflexivity].
  assert (∃ a, a ∈ alignments ∧ sseqid a ∉ gene_list) as Hbad by eauto.
  clear - Hbad. induction alignments as [|a0 l IH]; simpl.
  - destruct Hbad as (a & Ha & _). by apply elem_of_nil in Ha.
  - destruct (decide (sseqid a0 ∈ gene_list)) as [Hin|Hout].
    + destruct (index_of_elem gene_list _ Hin) as [i ->]. simpl.
      destruct IH as (e & -> & ->); [|by eexists].
      destruct Hbad as (a & Ha & Hout). exists a. split; [|done].
      apply elem_of_cons in Ha as [->|Ha]; done.
    + rewrite index_of_missing by done. by eexists.
Qed.

End Indices.

(** ** Strings and dicts *)

Section Strings.

Lemma string_app_nil_l (s : string) : "" +:+ s = s.
Proof. reflexivity. Qed.

Lemma string_app_cons c (s1 s2 : string) : String c s1 +:+ s2 = String c (s1 +:+ s2).
Proof. reflexivity. Qed.

Lemma string_app_nil_r (s : string) : s +:+ "" = s.
Proof.
  induction s as [|c s IH]; [done|]. by rewrite string_app_cons, IH.
Qed.

Lemma string_length_app (s1 s2 : string) :
  String.length (s1 +:+ s2) = (String.length s1 + String.length s2)%nat.
Proof.
  induction s1 as [|c s1 IH]; [done|]. rewrite string_app_cons. simpl. by rewrite IH.
Qed.

Lemma string_app_assoc (s1 s2 s3 : string) : (s1 +:+ s2) +:+ s3 = s1 +:+ (s2 +:+ s3).
Proof.
  induction s1 as [|c s1 IH]; [done|]. by rewrite !string_app_cons, IH.
Qed.

Lemma string_app_inj_r (s1 s2 s : string) : s1 +:+ s = s2 +:+ s → s1 = s2.
Proof.
  revert s2. induction s1 as [|c s1 IH]; intros [|c2 s2] H.
  - done.
  - apply (f_equal String.length) in H.
    rewrite string_app_nil_l, string_app_cons in H. simpl in H.
    rewrite string_length_app in H. lia.
  - apply (f_equal String.length) in H.
    rewrite string_app_nil_l, string_app_cons in H. simpl in H.
    rewrite string_length_app in H. lia.
  - rewrite !string_app_cons in H. injection H as -> H. f_equal. by apply IH.
Qed.

Lemma substring_app_l (p q : string) : substring 0 (String.length p) (p +:+ q) = p.
Proof.
  induction p as [|c p IH].
  - rewrite string_app_nil_l. by destruct q.
  - rewrite string_app_cons. simpl. by rewrite IH.
Qed.

Lemma endswith_app (suffix p : string) :
  gather_alignments.endswith suffix (p +:+ suffix) = true.
Proof.
  induction p as [|c p IH].
  - rewrite string_app_nil_l. destruct suffix; simpl; [done|].
    by rewrite Ascii.eqb_refl, String.eqb_refl.
  - rewrite string_app_cons. simpl. rewrite IH. apply orb_true_r.
Qed.

Lemma endswith_split (suffix s : string) :
  gather_alignments.endswith suffix s = true → ∃ p, s = p +:+ suffix.
Proof.
  induction s as [|c s IH]; simpl; intros H.
  - apply orb_true_iff in H as [H|H]; [|done].
    destruct suffix; [by exists ""|done].
  - apply orb_true_iff in H as [H|H].
    + exists "". rewrite string_app_nil_l. apply String.eqb_eq. exact H.
    + destruct (IH H) as [p ->]. by exists (String c p).
Qed.

(** [s[:-len(suffix)]] takes a suffix that is not empty off again; for the
    empty suffix it is [s[:0]], the empty string. *)
Lemma slice_off_suffix (suffix p : string) :
  suffix ≠ "" →
  Py.str_slice_to (Some (- Z.of_nat (String.length suffix))) (p +:+ suffix) = p.
Proof.
  intros Hne. unfold Py.str_slice_to.
  assert (0 < String.length suffix)%nat by (destruct suffix; [done|simpl; lia]).
  destruct (Z.ltb_spec (- Z.of_nat (String.length suffix)) 0); [|lia].
  rewrite string_length_app.
  replace (Z.to_nat (Z.of_nat (String.length p + String.length suffix)
                     + - Z.of_nat (String.length suffix))) with (String.length p) by lia.
  apply substring_app_l.
Qed.

Lemma slice_off_nothing (s : string) : Py.str_slice_to (Some 0) s = "".
Proof. unfold Py.str_slice_to. simpl. by destruct s. Qed.

End Strings.

Section Dicts.
Context {A : Type}.
Implicit Types (d : dict.t A).

Lemma dict_set_keys k v d : NoDup d.*1 → NoDup (dict.set k v d).*1.
Proof.
  induction d as [|[k' v'] d IH]; simpl; intros Hnd.
  - apply NoDup_singleton.
  - apply NoDup_cons in Hnd as [Hfresh Hnd]. case_decide as Hk; simpl.
    + subst. by apply NoDup_cons.
    + apply NoDup_cons. split; [|by apply IH].
      intros Hin. apply Hfresh. clear IH Hnd Hfresh.
      induction d as [|[k2 v2] d IH]; simpl in *.
      * apply list_elem_of_singleton in Hin. congruence.
      * case_decide; simpl in *.
        -- apply elem_of_cons in Hin as [->|Hin]; [congruence|]. by apply list_elem_of_further.
        -- apply elem_of_cons in Hin as [->|Hin]; [by constructor|].
           apply list_elem_of_further. by apply IH.
Qed.

Lemma dict_set_elem k v d k' v' :
  NoDup d.*1 →
  (k', v') ∈ dict.set k v d ↔ (k' = k ∧ v' = v) ∨ (k' ≠ k ∧ (k', v') ∈ d).
Proof.
  induction d as [|[k0 v0] d IH]; simpl; intros Hnd.
  - rewrite list_elem_of_singleton, elem_of_nil. split.
    + intros [= -> ->]. by left.
    + intros [[-> ->]|[_ []]]. done.
  - apply NoDup_cons in Hnd as [Hfresh Hnd]. case_decide as Hk.
    + subst k0. rewrite !elem_of_cons. split.
      * intros [[= -> ->]|Hin]; [by left|]. right. split; [|by right].
        intros ->. apply Hfresh. by apply (list_elem_of_fmap_2 fst) in Hin.
      * intros [[-> ->]|[Hne [[= -> ->]|Hin]]]; [by left|done|by right].
    + rewrite !elem_of_cons, IH by done. split.
      * intros [[= -> ->]|[[-> ->]|[Hne Hin]]]; [right|by left|right]; split; auto.
      * intros [[-> ->]|[Hne [[= -> ->]|Hin]]]; [right; by left|by left|right; right; auto].
Qed.

Lemma dict_get_elem k v d : NoDup d.*1 → dict.get k d = Some v ↔ (k, v) ∈ d.
Proof.
  intros Hnd. unfold dict.get. split.
  - destruct (list_find _ d) as [[i [k' v']]|] eqn:Hfind; [|done].
    simpl. intros [= ->]. apply list_find_Some in Hfind as (Hi & Hk & _).
    simpl in Hk. subst. by eapply list_elem_of_lookup_2.
  - intros Hin.
    destruct (list_find_elem_of (λ kv : string * A, kv.1 = k) d (k, v) Hin eq_refl)
      as [[i [k' v']] Hfind].
    rewrite Hfind. simpl. apply list_find_Some in Hfind as (Hi & Hk & _).
    simpl in Hk. subst k'. apply list_elem_of_lookup in Hin as [j Hj].
    f_equal. assert (i = j) as ->; [|congruence].
    eapply NoDup_lookup; [exact Hnd| |].
    + by rewrite list_lookup_fmap, Hi.
    + by rewrite list_lookup_fmap, Hj.
Qed.

Lemma dict_get_keys k d : is_Some (dict.get k d) ↔ k ∈ d.*1.
Proof.
  unfold dict.get. split.
  - intros [v Hv]. destruct (list_find _ d) as [[i [k' v']]|] eqn:Hfind; [|done].
    apply list_find_Some in Hfind as (Hi & Hk & _). simpl in Hk. subst.
    apply list_elem_of_fmap. exists (k, v'). split; [done|]. by eapply list_elem_of_lookup_2.
  - intros Hin. apply list_elem_of_fmap in Hin as ([k' v] & Heq & Hin).
    simpl in Heq. subst k.
    destruct (list_find_elem_of (λ kv : string * A, kv.1 = k') d (k', v) Hin eq_refl)
      as [x ->]. by eexists.
Qed.

End Dicts.

(** ** Gathering the files of a folder *)

Section Gather.
Import gather_alignments.
Context {Row : Type} (w : World Row).
Local Arguments Py.str_slice_to : simpl never.

Lemma gather_fold_raised {Data} folder suffix (read_f : string → Py.outcome Data) fps e :
  fold_left
    (λ acc fp,
       output ← acc;
       if negb (endswith suffix fp) then Py.Return output
       else
         let specimen := Py.str_slice_to (Some (- Z.of_nat (String.length suffix))) fp in
         v ← read_f (path_join folder fp);
         Py.Return (dict.set specimen v output))
    fps (Py.Raise e)
  = Py.Raise e.
Proof. induction fps as [|fp fps IH]; simpl; [done|]. exact IH. Qed.

Lemma gather_fold_returned {Data} folder suffix (read_f : string → Py.outcome Data)
    fps seen acc out :
  suffix ≠ "" →
  NoDup acc.*1 →
  (∀ sp v, (sp, v) ∈ acc
           ↔ sp +:+ suffix ∈ seen ∧ read_f (path_join folder (sp +:+ suffix)) = Py.Return v) →
  fold_left
    (λ acc fp,
       output ← acc;
       if negb (endswith suffix fp) then Py.Return output
       else
         let specimen := Py.str_slice_to (Some (- Z.of_nat (String.length suffix))) fp in
         v ← read_f (path_join folder fp);
         Py.Return (dict.set specimen v output))
    fps (Py.Return acc)
  = Py.Return out →
  NoDup out.*1
  ∧ (∀ sp v, (sp, v) ∈ out
             ↔ sp +:+ suffix ∈ seen ++ fps
               ∧ read_f (path_join folder (sp +:+ suffix)) = Py.Return v)
  ∧ ∀ fp, fp ∈ fps → endswith suffix fp = true →
          Py.returned (read_f (path_join folder fp)).
Proof.
  intros Hsuffix. revert seen acc.
  induction fps as [|fp fps IH]; intros seen acc Hnd Hacc Hrun; simpl in Hrun.
  - injection Hrun as <-. rewrite app_nil_r. split_and!; [done..|].
    intros fp Hfp. by apply elem_of_nil in Hfp.
  - destruct (endswith suffix fp) eqn:Hends; simpl in Hrun.
    + destruct (endswith_split _ _ Hends) as [sp0 ->].
      rewrite slice_off_suffix in Hrun by done.
      destruct (read_f (path_join folder (sp0 +:+ suffix))) as [v0|e] eqn:Hread;
        simpl in Hrun; [|by rewrite gather_fold_raised in Hrun].
      destruct (IH (seen ++ [sp0 +:+ suffix]) (dict.set sp0 v0 acc)) as (Hnd' & Hout & Hall).
      { by apply dict_set_keys. }
      { intros sp v. rewrite dict_set_elem, Hacc, elem_of_app, list_elem_of_singleton by done.
        split.
        - intros [[-> ->]|[Hne [Hin Hv]]]; auto.
        - intros [[Hin|Heq] Hv].
          + destruct (decide (sp = sp0)) as [->|Hne]; [left|right]; [|done].
            split; [done|]. congruence.
          + apply string_app_inj_r in Heq as ->. left. split; [done|]. congruence. }
      { exact Hrun. }
      split_and!; [done| |].
      * intros sp v. rewrite Hout, <- app_assoc. done.
      * intros fp Hfp Hfpe. apply elem_of_cons in Hfp as [->|Hfp]; [|by apply Hall].
        rewrite Hread. by eexists.
    + destruct (IH (seen ++ [fp]) acc) as (Hnd' & Hout & Hall); [done| |done|].
      { intros sp v. rewrite Hacc, elem_of_app, list_elem_of_singleton. split.
        - intros [Hin Hv]. auto.
        - intros [[Hin|Heq] Hv]; [done|].
          rewrite <- Heq, endswith_app in Hends. done. }
      split_and!; [done| |].
      * intros sp v. rewrite Hout, <- app_assoc. done.
      * intros fp' Hfp Hfpe. apply elem_of_cons in Hfp as [->|Hfp]; [congruence|].
        by apply Hall.
Qed.

Lemma gather_fold_returns {Data} folder suffix (read_f : string → Py.outcome Data) fps acc :
  (∀ fp, fp ∈ fps → endswith suffix fp = true →
         Py.returned (read_f (path_join folder fp))) →
  Py.returned
    (fold_left
       (λ acc fp,
          output ← acc;
          if negb (endswith suffix fp) then Py.Return output
          else
            let specimen := Py.str_slice_to (Some (- Z.of_nat (String.length suffix))) fp in
            v ← read_f (path_join folder fp);
            Py.Return (dict.set specimen v output))
       fps (Py.Return acc)).
Proof.
  revert acc. induction fps as [|fp fps IH]; intros acc Hall; simpl; [by eexists|].
  destruct (endswith suffix fp) eqn:Hends; simpl.
  - destruct (Hall fp) as [v ->]; [by constructor|done|]. simpl.
    apply IH. intros fp' Hfp. apply Hall. by constructor.
  - apply IH. intros fp' Hfp. apply Hall. by constructor.
Qed.

(** What [gather_from_folder] returns. *)
Lemma gather_from_folder_returned {Data} folder suffix
    (read_f : string → Py.outcome Data) out :
  suffix ≠ "" →
  gather_from_folder w folder suffix read_f = Py.Return out →
  ∃ fps,
    listdir w folder = Some fps
    ∧ NoDup out.*1
    ∧ (∀ sp v, (sp, v) ∈ out
               ↔ sp +:+ suffix ∈ fps
                 ∧ read_f (path_join folder (sp +:+ suffix)) = Py.Return v)
    ∧ ∀ fp, fp ∈ fps → endswith suffix fp = true →
            Py.returned (read_f (path_join folder fp)).
Proof.
  intros Hsuffix. unfold gather_from_folder.
  destruct (listdir w folder) as [fps|]; [|done]. intros Hrun.
  exists fps. split; [done|].
  apply (gather_fold_returned folder suffix read_f fps [] [] out Hsuffix); [constructor| |done].
  intros sp v. rewrite !elem_of_nil. tauto.
Qed.

(** X5.  With a suffix that is not empty, [gather_from_folder] returns exactly
    when every file of the folder that ends with the suffix can be read;
    the dict it returns has one entry for each such file, under the file
    name without the suffix, holding what [read_f] returned for the path
    of that file; files with another ending are not read. *)
Theorem gather_from_folder_entries {Data} folder suffix
    (read_f : string → Py.outcome Data) fps :
  suffix ≠ "" →
  listdir w folder = Some fps →
  (Py.returned (gather_from_folder w folder suffix read_f)
   ↔ ∀ fp, fp ∈ fps → endswith suffix fp = true →
           Py.returned (read_f (path_join folder fp)))
  ∧ ∀ out, gather_from_folder w folder suffix read_f = Py.Return out →
      NoDup out.*1
      ∧ ∀ specimen v,
          (specimen, v) ∈ out
          ↔ specimen +:+ suffix ∈ fps
            ∧ read_f (path_join folder (specimen +:+ suffix)) = Py.Return v.
Proof.
  intros Hsuffix Hdir. split; [split|].
  - intros [out Hrun].
    destruct (gather_from_folder_returned _ _ _ _ Hsuffix Hrun) as (fps' & Hdir' & _ & _ & Hall).
    assert (fps' = fps) as -> by congruence. exact Hall.
  - intros Hall. unfold gather_from_folder. rewrite Hdir. by apply gather_fold_returns.
  - intros out Hrun.
    destruct (gather_from_folder_returned _ _ _ _ Hsuffix Hrun) as (fps' & Hdir' & Hnd & Hout & _).
    assert (fps' = fps) as -> by congruence. done.
Qed.

Lemma endswith_nothing (s : string) : endswith "" s = true.
Proof. rewrite <- (string_app_nil_r s) at 1. apply endswith_app. Qed.

Lemma gather_fold_empty_suffix {Data} folder (read_f : string → Py.outcome Data)
    fps (acc out : dict.t Data) :
  (acc = [] ∨ ∃ v, acc = [("", v)]) →
  fold_left
    (λ acc fp,
       output ← acc;
       if negb (endswith "" fp) then Py.Return output
       else
         let specimen := Py.str_slice_to (Some (- Z.of_nat (String.length ""))) fp in
         v ← read_f (path_join folder fp);
         Py.Return (dict.set specimen v output))
    fps (Py.Return acc)
  = Py.Return out →
  match last fps with
  | None => out = acc
  | Some fp => ∃ v, read_f (path_join folder fp) = Py.Return v ∧ out = [("", v)]
  end.
Proof.
  revert acc. induction fps as [|fp fps IH]; intros acc Hacc Hrun; simpl in Hrun.
  - by injection Hrun as <-.
  - rewrite endswith_nothing in Hrun. simpl in Hrun.
    rewrite slice_off_nothing in Hrun.
    destruct (read_f (path_join folder fp)) as [v|e] eqn:Hread; simpl in Hrun;
      [|by rewrite gather_fold_raised in Hrun].
    assert (dict.set "" v acc = [("", v)]) as Hset.
    { destruct Hacc as [->|[v' ->]]; reflexivity. }
    rewrite Hset in Hrun. apply IH in Hrun; [|eauto].
    rewrite last_cons. destruct (last fps) as [fp'|]; [done|]. subst. eauto.
Qed.

(** X6.  With the empty suffix every file of the folder is read, and every
    result is filed under the empty name, since [fp[:-0]] is [fp[:0]]: what
    comes back holds at most one entry, the one of the file listed last. *)
Theorem gather_from_folder_empty_suffix {Data} folder
    (read_f : string → Py.outcome Data) fps out :
  listdir w folder = Some fps →
  gather_from_folder w folder "" read_f = Py.Return out →
  match last fps with
  | None => out = []
  | Some fp => ∃ v, read_f (path_join folder fp) = Py.Return v ∧ out = [("", v)]
  end.
Proof.
  intros Hdir. unfold gather_from_folder. rewrite Hdir.
  apply gather_fold_empty_suffix. by left.
Qed.

End Gather.

(** ** The gathered alignments *)

Section Alignments.
Import gather_alignments.
Context {Row : Type} (w : World Row).

Lemma suffix_famli : ".json.gz" ≠ "".
Proof. done. Qed.

Lemma suffix_counts : ".num_reads.txt" ≠ "".
Proof. done. Qed.

(** A checking loop raises when one of its checks fails. *)
Lemma mapM_check_raised {A} (f : A → Py.outcome unit) (l : list A) e x :
  (∀ y, f y = Py.Return tt ∨ f y = Py.Raise e) → x ∈ l → f x = Py.Raise e →
  mapM f l = Py.Raise e.
Proof.
  intros Hf Hx Hbad. induction l as [|y l IH]; [by apply elem_of_nil in Hx|].
  simpl. destruct (Hf y) as [Hy|Hy]; rewrite Hy; simpl; [|done].
  rewrite IH; [done|]. apply elem_of_cons in Hx as [->|Hx]; [congruence|done].
Qed.

Lemma elem_of_concat {A} (x : A) (ls : list (list A)) :
  x ∈ concat ls ↔ ∃ l, l ∈ ls ∧ x ∈ l.
Proof.
  rewrite list_elem_of_In, in_concat. split; intros (l & Hl & Hxl); exists l;
    by rewrite ?list_elem_of_In in *.
Qed.

(** X7.  When [gather_alignments] returns, the table it writes holds exactly
    the rows of the FAMLI files of the folder "famli", each with the
    specimen named by its file and with the number read from the first line
    of that specimen's file in "read_counts". *)
Theorem gather_alignments_rows out :
  gather_alignments w = Py.Return out →
  ∃ famli_files,
    listdir w "famli" = Some famli_files
    ∧ ∀ row specimen tot_reads,
        (row, specimen, tot_reads) ∈ out
        ↔ specimen +:+ ".json.gz" ∈ famli_files
          ∧ (∃ rows, read_famli w (path_join "famli" (specimen +:+ ".json.gz"))
                     = Py.Return rows
                     ∧ row ∈ rows)
          ∧ read_count w (path_join "read_counts" (specimen +:+ ".num_reads.txt"))
            = Py.Return tot_reads.
Proof.
  unfold gather_alignments. intros H.
  apply outcome_bind_returned in H as (famli_data & Hf & H).
  apply outcome_bind_returned in H as (count_data & Hc & H).
  apply outcome_bind_returned in H as (us & Hchecks & H).
  apply outcome_bind_returned in H as (frames & Hframes & H).
  destruct (gather_from_folder_returned w _ _ _ _ suffix_famli Hf)
    as (fs & Hfs & Hfnd & Hfchar & _).
  destruct (gather_from_folder_returned w _ _ _ _ suffix_counts Hc)
    as (cs & Hcs & Hcnd & Hcchar & _).
  apply mapM_returned in Hchecks. apply mapM_returned in Hframes.
  assert (out = concat frames) as ->.
  { unfold concat_frames in H. destruct frames; [done|]. by injection H as <-. }
  exists fs. split; [done|]. intros row sp tot. split.
  - intros Hin. apply elem_of_concat in Hin as (frame & Hframe & Hin).
    apply list_elem_of_lookup in Hframe as [i Hi].
    destruct (Forall2_lookup_r _ _ _ _ _ Hframes Hi) as ([sp' rows] & Hkv & Hmk).
    simpl in Hmk. destruct (dict.get sp' count_data) as [tot'|] eqn:Hget; [|done].
    injection Hmk as <-. unfold assign in Hin.
    apply list_elem_of_fmap in Hin as (row' & [= -> -> ->] & Hrow).
    apply list_elem_of_lookup_2 in Hkv. apply Hfchar in Hkv as [Hfile Hrows].
    apply dict_get_elem in Hget; [|done]. apply Hcchar in Hget as [_ Hcount].
    split_and!; [done|eauto|done].
  - intros (Hfile & (rows & Hrows & Hrow) & Hcount).
    assert ((sp, rows) ∈ famli_data) as Hkv by (by apply Hfchar).
    apply list_elem_of_lookup in Hkv as [i Hi].
    destruct (Forall2_lookup_l _ _ _ _ _ Hchecks Hi) as ([] & _ & Hcheck).
    simpl in Hcheck. case_decide as Hkey; [|done].
    apply dict_get_keys in Hkey as [tot' Hget].
    pose proof Hget as Hget'. apply dict_get_elem in Hget'; [|done].
    apply Hcchar in Hget' as [_ Hcount'].
    assert (tot' = tot) as -> by congruence.
    destruct (Forall2_lookup_l _ _ _ _ _ Hframes Hi) as (frame & Hframe & Hmk).
    simpl in Hmk. rewrite Hget in Hmk. injection Hmk as <-.
    apply elem_of_concat. eexists. split; [by eapply list_elem_of_lookup_2|].
    unfold assign. apply list_elem_of_fmap. by exists row.
Qed.

(** X8.  When both folders can be read and "famli" holds the file of a
    specimen for which "read_counts" holds no file, [gather_alignments]
    stops at its assertion and writes nothing. *)
Theorem gather_alignments_needs_counts famli_files count_files specimen :
  listdir w "famli" = Some famli_files →
  listdir w "read_counts" = Some count_files →
  (∀ fp, fp ∈ famli_files → endswith ".json.gz" fp = true →
         Py.returned (read_famli w (path_join "famli" fp))) →
  (∀ fp, fp ∈ count_files → endswith ".num_reads.txt" fp = true →
         Py.returned (read_count w (path_join "read_counts" fp))) →
  specimen +:+ ".json.gz" ∈ famli_files →
  specimen +:+ ".num_reads.txt" ∉ count_files →
  gather_alignments w
  = Py.Raise (Py.AssertionError "Did not find read counts for specimen").
Proof.
  intros Hfs Hcs Hfread Hcread Hfile Hnone. unfold gather_alignments.
  assert (Py.returned (gather_famli w "famli" ".json.gz")) as [famli_data Hf].
  { unfold gather_famli, gather_from_folder. rewrite Hfs. by apply gather_fold_returns. }
  assert (Py.returned (gather_counts w "read_counts" ".num_reads.txt")) as [count_data Hc].
  { unfold gather_counts, gather_from_folder. rewrite Hcs. by apply gather_fold_returns. }
  rewrite Hf, Hc. simpl.
  destruct (gather_from_folder_returned w _ _ _ _ suffix_famli Hf)
    as (fs & Hfs' & Hfnd & Hfchar & _).
  destruct (gather_from_folder_returned w _ _ _ _ suffix_counts Hc)
    as (cs & Hcs' & Hcnd & Hcchar & _).
  assert (fs = famli_files) as -> by congruence.
  assert (cs = count_files) as -> by congruence.
  destruct (Hfread _ Hfile (endswith_app _ _)) as [rows Hrows].
  assert ((specimen, rows) ∈ famli_data) as Hkv by (by apply Hfchar).
  erewrite (mapM_check_raised _ famli_data _ (specimen, rows)); [done| |done|].
  - intros kv. case_decide; auto.
  - simpl. rewrite decide_False; [done|].
    intros Hkey. apply list_elem_of_fmap in Hkey as ([sp v] & Heq & Hin).
    simpl in Heq. subst sp. apply Hcchar in Hin as [Hin _]. done.
Qed.

(** X9.  When the folder "famli" holds no file that ends with ".json.gz" (and
    the read counts can be gathered), there is nothing to concatenate and
    [gather_alignments] stops with a ValueError instead of writing an
    empty table. *)
Theorem gather_alignments_needs_a_specimen famli_files :
  listdir w "famli" = Some famli_files →
  (∀ fp, fp ∈ famli_files → endswith ".json.gz" fp = false) →
  Py.returned (gather_counts w "read_counts" ".num_reads.txt") →
  gather_alignments w = Py.Raise (Py.ValueError "No objects to concatenate").
Proof.
  intros Hfs Hnone [count_data Hc]. unfold gather_alignments.
  assert (Py.returned (gather_famli w "famli" ".json.gz")) as [famli_data Hf].
  { unfold gather_famli, gather_from_folder. rewrite Hfs. apply gather_fold_returns.
    intros fp Hfp Hends. rewrite Hnone in Hends; done. }
  destruct (gather_from_folder_returned w _ _ _ _ suffix_famli Hf)
    as (fs & Hfs' & Hfnd & Hfchar & _).
  assert (fs = famli_files) as -> by congruence.
  assert (famli_data = []) as ->.
  { destruct famli_data as [|[sp rows] d]; [done|].
    destruct (proj1 (Hfchar sp rows)) as [Hin _]; [by constructor|].
    apply Hnone in Hin. by rewrite endswith_app in Hin. }
  rewrite Hf, Hc. reflexivity.
Qed.

End Alignments.

(** ** Loops over the builder *)

Section Loops.
Context {S A : Type}.
Implicit Types (body : A → Py.M S unit) (l : list A).

Lemma run_for_cons body x l s :
  Py.for_ (x :: l) body s
  = match body x s with
    | (s', Py.Return _) => Py.for_ l body s'
    | (s', Py.Raise e) => (s', Py.Raise e)
    end.
Proof. reflexivity. Qed.

Lemma run_for_app body l1 l2 s :
  Py.for_ (l1 ++ l2) body s
  = match Py.for_ l1 body s with
    | (s', Py.Return _) => Py.for_ l2 body s'
    | (s', Py.Raise e) => (s', Py.Raise e)
    end.
Proof.
  revert s. induction l1 as [|x l1 IH]; intros s; [done|].
  rewrite <- app_comm_cons, !run_for_cons.
  destruct (body x s) as [s' [[]|e]]; [apply IH|done].
Qed.

(** What every returning step keeps, the loop keeps when it returns. *)
Lemma for_returned_inv (P : S → Prop) body l s s' :
  (∀ x s1 s2, x ∈ l → body x s1 = (s2, Py.Return tt) → P s1 → P s2) →
  Py.for_ l body s = (s', Py.Return tt) → P s → P s'.
Proof.
  revert s. induction l as [|x l IH]; intros s Hbody Hrun HP.
  - injection Hrun as <-. done.
  - rewrite run_for_cons in Hrun.
    destruct (body x s) as [s1 [[]|e]] eqn:Hx; [|done].
    apply (IH s1); [|done|].
    + intros y s2 s3 Hy. apply Hbody. by constructor.
    + eapply Hbody; [by constructor|exact Hx|done].
Qed.

End Loops.

(** ** Parsing, continued *)

Section Parsing.
Import FigureBuilder.
Implicit Types (fb : FigureBuilder.t) (argv opts : list (string * Py.value)).

(** What [add_param] has done when it returns: one value stored, at a
    declared place. *)
Lemma add_param_returned kw v fb1 fb2 :
  add_param kw v fb1 = (fb2, Py.Return tt) →
  ∃ ns k,
    fb2 = with_params (put ns k v) fb1
    ∧ ((ns = "global" ∧ k = kw
        ∧ ∃ arg, arg ∈ args fb1 ∧ Py.replace_dash (FigureArgument.key arg) = kw)
       ∨ (∃ e arg, e ∈ elements fb1 ∧ arg ∈ FigureElement.args e
                   ∧ ns = FigureElement.id e ∧ k = FigureArgument.key arg
                   ∧ element_kw (e, arg) = kw)).
Proof.
  unfold add_param. rewrite run_bind. simpl.
  destruct (list_find _ (args fb1)) as [[i a]|] eqn:Hg.
  - rewrite run_store. intros [= <-]. apply list_find_Some in Hg as (Hi & Ha & _).
    eexists _, _. split; [done|]. left. split_and!; [done..|].
    exists a. split; [by eapply list_elem_of_lookup_2|done].
  - destruct (list_find _ (element_args fb1)) as [[j [e arg]]|] eqn:He.
    + rewrite run_store. intros [= <-]. apply list_find_Some in He as (Hj & Hkw & _).
      apply list_elem_of_lookup_2, element_args_elem in Hj as [Hel Harg].
      eexists _, _. split; [done|]. right. by exists e, arg.
    + unfold Py.raise. done.
Qed.

(** A keyword that matches no declared argument: [add_param] raises and
    leaves the builder as it is. *)
Lemma add_param_unmatched kw v fb1 :
  (∀ a, a ∈ args fb1 → Py.replace_dash (FigureArgument.key a) ≠ kw) →
  (∀ ea, ea ∈ element_args fb1 → element_kw ea ≠ kw) →
  add_param kw v fb1
  = (fb1, Py.Raise (Py.Exception "Could not find a match for argument")).
Proof.
  intros Hg He. unfold add_param. rewrite run_bind. simpl.
  destruct (list_find _ (args fb1)) as [[i a]|] eqn:Hfg.
  { apply list_find_Some in Hfg as (Hi & Ha & _).
    destruct (Hg a); [by eapply list_elem_of_lookup_2|done]. }
  destruct (list_find _ (element_args fb1)) as [[j ea]|] eqn:Hfe; [|done].
  apply list_find_Some in Hfe as (Hj & Hkw & _).
  destruct (He ea); [by eapply list_elem_of_lookup_2|done].
Qed.

Lemma stored_put_inv ns k ns' k' v v' p :
  stored ns k (put ns' k' v' p) = Some v →
  (ns = ns' ∧ k = k' ∧ v = v') ∨ stored ns k p = Some v.
Proof.
  destruct (decide ((ns', k') = (ns, k))) as [[= -> ->]|Hne].
  - rewrite stored_put_eq. intros [= ->]. by left.
  - rewrite stored_put_ne by done. by right.
Qed.

(** X10.  When [parse_args] returns, it has replaced the parameters and touched
    nothing else, and every value that the parameters hold is kept at the
    place of a declared argument: under "global" and the key of a global
    argument with "-" turned into "_", or under the id of an element and
    the key of one of its arguments.  Nothing of the parameters that were
    there before the call is left. *)
Theorem parse_args_keeps_declared_places_only argv fb fb' :
  parse_args argv fb = (fb', Py.Return tt) →
  args fb' = args fb ∧ elements fb' = elements fb ∧ data fb' = data fb
  ∧ axes fb' = axes fb ∧ events fb' = events fb
  ∧ ∀ ns k v, stored ns k (params fb') = Some v →
      (ns = "global"
       ∧ ∃ arg, arg ∈ args fb ∧ Py.replace_dash (FigureArgument.key arg) = k)
      ∨ (∃ e arg, e ∈ elements fb ∧ arg ∈ FigureElement.args e
                  ∧ ns = FigureElement.id e ∧ k = FigureArgument.key arg).
Proof.
  unfold parse_args. intros H.
  rewrite run_bind in H. simpl in H.
  apply bind_returned in H as (s1 & [] & Hadd & H).
  apply lift_returned in Hadd as [_ ->].
  rewrite run_bind in H. simpl in H.
  apply bind_returned in H as (s2 & ns & Hparse & H).
  apply lift_returned in Hparse as [_ ->].
  refine (for_returned_inv
            (λ s, args s = args fb ∧ elements s = elements fb ∧ data s = data fb
                  ∧ axes s = axes fb ∧ events s = events fb
                  ∧ ∀ ns k v, stored ns k (params s) = Some v →
                      (ns = "global"
                       ∧ ∃ arg, arg ∈ args fb
                                ∧ Py.replace_dash (FigureArgument.key arg) = k)
                      ∨ (∃ e arg, e ∈ elements fb ∧ arg ∈ FigureElement.args e
                                  ∧ ns = FigureElement.id e ∧ k = FigureArgument.key arg))
            _ _ _ _ _ H _).
  - intros [kw v] s1 s2 _ Hstep (Ha & He & Hd & Hx & Hev & Hp). simpl in Hstep.
    apply add_param_returned in Hstep as (ns0 & k0 & -> & Hplace). simpl.
    split_and!; try done.
    intros ns1 k1 v1 Hst.
    apply stored_put_inv in Hst as [(-> & -> & ->)|Hst]; [|by eapply Hp].
    rewrite Ha, He in Hplace.
    destruct Hplace as [(-> & -> & arg & Harg & Hkw)|(e & arg & Hel & Harg & -> & -> & _)].
    + left. eauto.
    + right. by exists e, arg.
  - simpl. split_and!; done.
Qed.

Lemma defaults_keys opts o : o ∈ opts → dest o.1 ∈ (defaults opts).*1.
Proof.
  unfold defaults.
  assert (∀ acc,
            (∀ k, k ∈ acc.*1 →
                  k ∈ (fold_left
                         (λ ns o, if decide (dest o.1 ∈ ns.*1) then ns
                                  else ns ++ [(dest o.1, o.2)]) opts acc).*1)
            ∧ (o ∈ opts →
               dest o.1 ∈ (fold_left
                             (λ ns o, if decide (dest o.1 ∈ ns.*1) then ns
                                      else ns ++ [(dest o.1, o.2)]) opts acc).*1))
    as Hfold; [|intros Ho; by apply (Hfold [])].
  induction opts as [|o' opts IH]; intros acc; simpl.
  - split; [done|]. intros Ho. by apply elem_of_nil in Ho.
  - case_decide as Hin.
    + destruct (IH acc) as [Hkeep Hnew]. split; [done|].
      intros Ho. apply elem_of_cons in Ho as [->|Ho]; [by apply Hkeep|by apply Hnew].
    + destruct (IH (acc ++ [(dest o'.1, o'.2)])) as [Hkeep Hnew]. split.
      * intros k Hk. apply Hkeep. rewrite fmap_app. apply elem_of_app. by left.
      * intros Ho. apply elem_of_cons in Ho as [->|Ho]; [|by apply Hnew].
        apply Hkeep. rewrite fmap_app. apply elem_of_app. right. by constructor.
Qed.

Lemma setattr_keys k v (ns : list (string * Py.value)) k' :
  k' ∈ ns.*1 → k' ∈ (setattr k v ns).*1.
Proof.
  induction ns as [|[k0 v0] ns IH]; simpl; [by intros ?%elem_of_nil|].
  intros Hin. case_decide; simpl.
  - subst. apply elem_of_cons in Hin as [->|Hin]; [by constructor|by apply list_elem_of_further].
  - apply elem_of_cons in Hin as [->|Hin]; [by constructor|].
    apply list_elem_of_further. by apply IH.
Qed.

Lemma parse_keys opts argv ns o :
  parse opts argv = Py.Return ns → o ∈ opts → dest o.1 ∈ ns.*1.
Proof.
  unfold parse. intros Hparse Ho. pose proof (defaults_keys opts o Ho) as Hstart.
  revert Hparse Hstart. generalize (defaults opts). clear Ho.
  induction argv as [|ov argv IH]; intros ns0 Hparse Hstart; simpl in Hparse.
  - by injection Hparse as <-.
  - case_decide.
    { clear -Hparse. exfalso. induction argv as [|? ? IH]; [done|]. by apply IH. }
    case_decide.
    + eapply IH; [exact Hparse|]. by apply setattr_keys.
    + clear -Hparse. exfalso. induction argv as [|? ? IH]; [done|]. by apply IH.
Qed.

Lemma for_add_param_unmatched (ns : list (string * Py.value)) kw fb fb1 :
  args fb1 = args fb → elements fb1 = elements fb →
  (∀ a, a ∈ args fb → Py.replace_dash (FigureArgument.key a) ≠ kw) →
  (∀ ea, ea ∈ element_args fb → element_kw ea ≠ kw) →
  kw ∈ ns.*1 →
  ∃ fb' x, Py.for_ ns (λ kv, add_param kv.1 kv.2) fb1 = (fb', Py.Raise x).
Proof.
  intros Ha He Hg Hea. revert fb1 Ha He.
  induction ns as [|[k v] ns IH]; intros fb1 Ha He Hin; [by apply elem_of_nil in Hin|].
  rewrite run_for_cons. simpl.
  destruct (add_param k v fb1) as [fb2 [[]|x]] eqn:Hstep; [|by eauto].
  destruct (decide (k = kw)) as [->|Hne].
  - rewrite add_param_unmatched in Hstep; [done|by rewrite Ha|].
    unfold element_args. rewrite He. exact Hea.
  - apply add_param_returned in Hstep as (ns0 & k0 & -> & _).
    apply IH; [done|done|].
    simpl in Hin. apply elem_of_cons in Hin as [->|Hin]; done.
Qed.

(** X11.  An option of an element whose parser destination (the option with
    every "-" turned into "_") is matched by no declared argument in
    [add_param] makes [parse_args] fail on every command line; this is what
    an element id with a "-" in it leads to, since [add_param] looks for the
    id as it is written. *)
Theorem parse_args_fails_on_unmatched_destination argv fb e arg :
  e ∈ elements fb → arg ∈ FigureElement.args e →
  (∀ a, a ∈ args fb →
        Py.replace_dash (FigureArgument.key a)
        ≠ dest (FigureElement.id e +:+ "-" +:+ FigureArgument.key arg)) →
  (∀ ea, ea ∈ element_args fb →
         element_kw ea ≠ dest (FigureElement.id e +:+ "-" +:+ FigureArgument.key arg)) →
  ∃ fb' x, parse_args argv fb = (fb', Py.Raise x).
Proof.
  intros He Harg Hg Hea. unfold parse_args. rewrite run_bind. simpl.
  rewrite run_bind. unfold Py.lift at 1.
  destruct (add_arguments (options fb)) as [[]|x]; [|by eauto].
  rewrite run_bind. simpl. rewrite run_bind. unfold Py.lift at 1.
  destruct (parse (options fb) argv) as [ns|x] eqn:Hparse; [|by eauto].
  eapply (for_add_param_unmatched ns _ fb); [done|done|exact Hg|exact Hea|].
  apply (parse_keys _ _ _ (FigureElement.id e +:+ "-" +:+ FigureArgument.key arg,
                           FigureArgument.default arg) Hparse).
  unfold options. apply elem_of_app. right.
  apply list_elem_of_fmap. exists (e, arg). split; [done|].
  by apply element_args_intro.
Qed.

End Parsing.

(** ** The two phases, continued *)

Section Phases.
Import FigureBuilder.
Implicit Types (fb : FigureBuilder.t) (invoke : event → Py.outcome Py.value)
  (l : list FigureElement.t) (vs : list Py.value).

Lemma returned_all {A B} (f : A → Py.outcome B) (l : list A) :
  (∀ x, x ∈ l → Py.returned (f x)) → ∃ ys, Forall2 (λ x y, f x = Py.Return y) l ys.
Proof.
  induction l as [|x l IH]; intros Hl; [by exists []|].
  destruct IH as [ys Hys]; [intros; apply Hl; by constructor|].
  destruct (Hl x) as [y Hy]; [by constructor|]. exists (y :: ys). by constructor.
Qed.

Lemma read_call_params fb fb0 e : params fb = params fb0 → read_call fb e = read_call fb0 e.
Proof. intros H. unfold read_call, namespace. by rewrite H. Qed.

(** The loop of [read_data] while the read steps return: the calls it
    makes and the results it stores. *)
Lemma read_loop_run invoke fb0 l vs fb :
  params fb = params fb0 →
  Forall2 (λ e v, invoke (read_call fb0 e) = Py.Return v) l vs →
  Py.for_ l (λ element,
    fb ← Py.get;
    v ← call invoke (read_f_called (FigureElement.id element) []
                (namespace (FigureElement.id element) fb));
    Py.modify (with_data <[FigureElement.id element := v]>)) fb
  = (with_data
       (λ d, fold_left (λ d ev, <[FigureElement.id ev.1 := ev.2]> d) (zip l vs) d)
       (add_events (map (read_call fb0) l) fb),
     Py.Return tt).
Proof.
  intros Hp Hl. revert fb Hp. induction Hl as [|e v l vs Hv Hl IH]; intros fb Hp.
  - simpl. rewrite add_events_nil. by destruct fb.
  - rewrite run_for_cons. rewrite run_bind. simpl. rewrite run_bind.
    change (read_f_called (FigureElement.id e) [] (namespace (FigureElement.id e) fb))
      with (read_call fb e).
    rewrite (read_call_params fb fb0) by done.
    erewrite run_call by exact Hv. simpl.
    rewrite IH by done. simpl. unfold with_data, add_events. simpl.
    by rewrite <- app_assoc.
Qed.

Lemma read_data_run invoke fb vg vs :
  invoke (read_f_called "global" [] (namespace "global" fb)) = Py.Return vg →
  Forall2 (λ e v, invoke (read_call fb e) = Py.Return v) (elements fb) vs →
  read_data invoke fb
  = (with_data
       (λ _, fold_left (λ d ev, <[FigureElement.id ev.1 := ev.2]> d)
                       (zip (elements fb) vs) (<["global" := vg]> ∅))
       (add_events (read_f_called "global" [] (namespace "global" fb)
                    :: map (read_call fb) (elements fb)) fb),
     Py.Return tt).
Proof.
  intros Hg Hl. unfold read_data. rewrite run_bind. simpl. rewrite run_bind. simpl.
  rewrite run_bind. erewrite run_call by exact Hg. rewrite run_bind. simpl.
  erewrite (read_loop_run invoke fb) by done.
  unfold with_data, add_events. simpl. by rewrite <- app_assoc.
Qed.

(** X12.  The read phase ends with the first read step that raises: its
    exception leaves [read_data], the steps that come before it in the
    list have been called in order after the global step, and no step that
    comes after it is called. *)
Theorem read_data_stops_at_first_failure invoke fb l1 e l2 x :
  elements fb = l1 ++ e :: l2 →
  Py.returned (invoke (read_f_called "global" [] (namespace "global" fb))) →
  (∀ e', e' ∈ l1 → Py.returned (invoke (read_call fb e'))) →
  invoke (read_call fb e) = Py.Raise x →
  ∃ fb',
    read_data invoke fb = (fb', Py.Raise x)
    ∧ events fb' = events fb
                   ++ read_f_called "global" [] (namespace "global" fb)
                      :: map (read_call fb) (l1 ++ [e])
    ∧ elements fb' = elements fb
    ∧ params fb' = params fb.
Proof.
  intros Hel [vg Hg] Hl1 Hx.
  destruct (returned_all (λ e, invoke (read_call fb e)) l1 Hl1) as [vs Hvs].
  eexists. split.
  - unfold read_data. rewrite run_bind. simpl. rewrite run_bind. simpl.
    rewrite run_bind. erewrite run_call by exact Hg. rewrite run_bind. simpl.
    rewrite Hel, run_for_app.
    erewrite (read_loop_run invoke fb) by done.
    rewrite run_for_cons, run_bind. simpl. rewrite run_bind.
    unfold call. rewrite run_bind. simpl. unfold Py.lift.
    match goal with
    | |- context [invoke ?ev] => change ev with (read_call fb e)
    end.
    rewrite Hx. reflexivity.
  - simpl. split_and!; [|done..].
    rewrite map_app. simpl. repeat rewrite <- app_assoc. done.
Qed.

Lemma fold_insert_other (l : list FigureElement.t) vs (d : gmap string Py.value) k :
  k ∉ map FigureElement.id l →
  fold_left (λ d ev, <[FigureElement.id ev.1 := ev.2]> d) (zip l vs) d !! k = d !! k.
Proof.
  revert vs d. induction l as [|e l IH]; intros [|v vs] d Hk; simpl; try done.
  rewrite IH.
  - apply lookup_insert_ne. intros Heq. apply Hk. simpl. rewrite Heq. by constructor.
  - intros Hin. apply Hk. simpl. by apply list_elem_of_further.
Qed.

Lemma fold_insert_lookup (l : list FigureElement.t) vs (d : gmap string Py.value) i e v :
  NoDup (map FigureElement.id l) → l !! i = Some e → vs !! i = Some v →
  fold_left (λ d ev, <[FigureElement.id ev.1 := ev.2]> d) (zip l vs) d
    !! FigureElement.id e = Some v.
Proof.
  revert vs d i. induction l as [|e0 l IH]; intros [|v0 vs] d [|i] Hnd Hi Hv;
    simplify_eq/=.
  - apply NoDup_cons in Hnd as [Hfresh _].
    rewrite fold_insert_other by done. apply lookup_insert_eq.
  - apply NoDup_cons in Hnd as [_ Hnd]. by eapply IH.
Qed.

(** X14.  When no step raises and the elements have different ids, the read
    phase followed by the plot phase calls, for every element, its plot
    step with the value that its own read step returned, together with the
    element's parameter namespace and the whole parameters and data. *)
Theorem plot_step_gets_what_its_read_step_returned invoke fb :
  (∀ ev, Py.returned (invoke ev)) →
  NoDup (map FigureElement.id (elements fb)) →
  ∃ fb1 fb2,
    read_data invoke fb = (fb1, Py.Return tt)
    ∧ make_plots invoke fb1 = (fb2, Py.Return tt)
    ∧ ∀ e, e ∈ elements fb →
        ∃ v, invoke (read_call fb e) = Py.Return v
             ∧ plot_f_called (FigureElement.id e)
                 [Subplots; Namespace (namespace (FigureElement.id e) fb);
                  Loaded v; Params (params fb); Data (data fb1)]
               ∈ drop (length (events fb1)) (events fb2).
Proof.
  intros Hinv Hnd.
  destruct (Hinv (read_f_called "global" [] (namespace "global" fb))) as [vg Hg].
  destruct (returned_all (λ e, invoke (read_call fb e)) (elements fb)) as [vs Hvs];
    [by intros|].
  pose proof (read_data_run invoke fb vg vs Hg Hvs) as Hread.
  set (fb1 := with_data
       (λ _, fold_left (λ d ev, <[FigureElement.id ev.1 := ev.2]> d)
                       (zip (elements fb) vs) (<["global" := vg]> ∅))
       (add_events (read_f_called "global" [] (namespace "global" fb)
                    :: map (read_call fb) (elements fb)) fb)) in *.
  assert (∀ i e v, elements fb !! i = Some e → vs !! i = Some v →
                   data fb1 !! FigureElement.id e = Some v) as Hdata.
  { intros i e v Hi Hv. simpl. by eapply fold_insert_lookup. }
  assert (∀ e, e ∈ elements fb → ∃ v, invoke (read_call fb e) = Py.Return v
                                      ∧ data fb1 !! FigureElement.id e = Some v) as Hown.
  { intros e He. apply list_elem_of_lookup in He as [i Hi].
    destruct (Forall2_lookup_l _ _ _ _ _ Hvs Hi) as (v & Hv & Hcall).
    exists v. split; [done|]. by eapply Hdata. }
  exists fb1, (add_events (map (plot_call fb1) (elements fb1)) fb1). split_and!.
  - exact Hread.
  - apply run_make_plots; [done|]. intros e He.
    destruct (Hown e He) as (v & _ & Hv). by rewrite Hv.
  - intros e He. destruct (Hown e He) as (v & Hcall & Hv). exists v. split; [done|].
    simpl events at 2. rewrite drop_app_length.
    apply list_elem_of_fmap. exists e. split; [|done].
    unfold plot_call. by rewrite Hv.
Qed.

Lemma unique_ids_raised (seen : gset string) l e :
  unique_ids seen l = Py.Raise e → e = Py.AssertionError "Element id is not unique".
Proof.
  revert seen. induction l as [|e0 l IH]; intros seen; simpl; [done|].
  case_decide; [by intros [= <-]|]. apply IH.
Qed.

(** X15.  [validate_elements] checks the list that the instance already holds
    as [self.elements], not the list it is handed: it returns its argument
    unchanged when the ids of [self.elements] are all different, raises an
    AssertionError when two of them are equal, and in neither case looks at
    the ids of the argument. *)
Theorem validate_elements_checks_the_attribute (self_elements elements : list FigureElement.t) :
  (NoDup (map FigureElement.id self_elements) →
   validate_elements (Some self_elements) elements = Py.Return elements)
  ∧ (¬ NoDup (map FigureElement.id self_elements) →
     validate_elements (Some self_elements) elements
     = Py.Raise (Py.AssertionError "Element id is not unique")).
Proof.
  unfold validate_elements.
  destruct (unique_ids ∅ self_elements) as [[]|e] eqn:Hu.
  - apply unique_ids_NoDup in Hu as [Hnd _]. split; [done|]. intros Hdup. by destruct Hdup.
  - pose proof (unique_ids_raised _ _ _ Hu) as ->. split; [|done].
    intros Hnd. assert (unique_ids ∅ self_elements = Py.Return tt) as Hok; [|congruence].
    apply unique_ids_NoDup. split; [done|]. intros; apply not_elem_of_empty.
Qed.

End Phases.

(** ** Constructing the elements *)

Section Constructors.
Import gig_map_elements.

Lemma assertion_bind {A B} (o : Py.outcome A) (k : A → Py.outcome B) :
  (∀ e, o = Py.Raise e → ∃ msg, e = Py.AssertionError msg) →
  (∀ a, ∃ msg, k a = Py.Raise (Py.AssertionError msg)) →
  ∃ msg, o ≫= k = Py.Raise (Py.AssertionError msg).
Proof.
  intros Ho Hk. destruct o as [a|e]; simpl; [apply Hk|].
  destruct (Ho e eq_refl) as [msg ->]. eauto.
Qed.

Lemma required_raised {A} (x : option A) msg e :
  required x msg = Py.Raise e → ∃ msg', e = Py.AssertionError msg'.
Proof. destruct x; simpl; [done|]. intros [= <-]. eauto. Qed.

Lemma argument_raised key description type default e :
  FigureArgument.__init__ key description type default = Py.Raise e →
  ∃ msg, e = Py.AssertionError msg.
Proof.
  unfold FigureArgument.__init__. destruct (FigureArgument.has_space key); [|done].
  intros [= <-]. eauto.
Qed.

Lemma super_raises id args cls :
  ∃ msg, super___init__ id args cls = Py.Raise (Py.AssertionError msg).
Proof. unfold super___init__, FigureElement.__init__. destruct id; simpl; eauto. Qed.

(** X16.  The base constructor takes an element only with a read and a plot
    function, and the element classes of gig_map_elements.py hand it
    neither: whatever their arguments, the constructors of the heatmap, the
    colorbar, the tree and the annotation elements end in an
    AssertionError, and so does the constructor of the figure, which builds
    its elements first. *)
Theorem element_constructors_raise :
  (∀ id x_axis x_col y_axis y_col val_col fill_value x_index y_index,
     ∃ msg, HeatmapElement___init__ id x_axis x_col y_axis y_col val_col fill_value
              x_index y_index = Py.Raise (Py.AssertionError msg))
  ∧ (∀ id heatmap_id x_index y_index label,
       ∃ msg, HeatmapColorbarElement___init__ id heatmap_id x_index y_index label
              = Py.Raise (Py.AssertionError msg))
  ∧ (∀ x_index y_index,
       GenomeTree___init__ x_index y_index
       = Py.Raise (Py.AssertionError "read_f must be a function"))
  ∧ (∀ id axis_label orient index_pos id_col,
       ∃ msg, AxisAnnot___init__ id axis_label orient index_pos id_col
              = Py.Raise (Py.AssertionError msg))
  ∧ GigMapFigure___init__ = Py.Raise (Py.AssertionError "read_f must be a function").
Proof.
  split_and!.
  - intros. unfold HeatmapElement___init__.
    repeat (apply assertion_bind;
            [first [apply required_raised|apply argument_raised]|intros ?]).
    apply super_raises.
  - intros. unfold HeatmapColorbarElement___init__.
    repeat (apply assertion_bind; [apply required_raised|intros ?]).
    apply super_raises.
  - reflexivity.
  - intros. unfold AxisAnnot___init__.
    repeat (apply assertion_bind;
            [first [apply required_raised|apply argument_raised]|intros ?]).
    apply super_raises.
  - reflexivity.
Qed.

End Constructors.

(** ** The read steps, continued *)

Section ReadSteps.
Import gig_map_elements.
Context (w : World).
Implicit Types (fb : FigureBuilder.t) (e : FigureElement.t).
Local Abbreviation elements := FigureBuilder.elements.
Local Abbreviation events := FigureBuilder.events.
Local Abbreviation axis := FigureBuilder.axis.


Lemma element_dict_fold_other (l : list FigureElement.t) n (d : gmap string nat) k :
  k ∉ map FigureElement.id l →
  fold_left (λ d ie, <[FigureElement.id ie.2 := ie.1]> d) (zip (seq n (length l)) l) d !! k
  = d !! k.
Proof.
  revert n d. induction l as [|e l IH]; intros n d Hk; simpl; [done|].
  rewrite IH.
  - apply lookup_insert_ne. intros Heq. apply Hk. simpl. rewrite Heq. by constructor.
  - intros Hin. apply Hk. simpl. by apply list_elem_of_further.
Qed.

Lemma element_dict_fold_last (l : list FigureElement.t) n (d : gmap string nat) k j e :
  l !! j = Some e → FigureElement.id e = k →
  (∀ j' e', (j < j')%nat → l !! j' = Some e' → FigureElement.id e' ≠ k) →
  fold_left (λ d ie, <[FigureElement.id ie.2 := ie.1]> d) (zip (seq n (length l)) l) d !! k
  = Some (n + j)%nat.
Proof.
  revert n d j. induction l as [|e0 l IH]; intros n d [|j] Hj Hk Hlast; simplify_eq/=.
  - rewrite element_dict_fold_other.
    + rewrite lookup_insert_eq. f_equal. lia.
    + intros Hin. apply list_elem_of_fmap in Hin as (e' & Heq & He').
      apply list_elem_of_lookup in He' as [j' Hj'].
      apply (Hlast (S j') e'); [lia|done|done].
  - rewrite (IH (S n) _ j); [f_equal; lia|done|done|].
    intros j' e' Hlt Hj'. apply (Hlast (S j') e'); [lia|done].
Qed.

Lemma element_dict_missing fb k :
  k ∉ map FigureElement.id (elements fb) → element_dict fb !! k = None.
Proof. intros Hk. unfold element_dict. by rewrite element_dict_fold_other. Qed.

Lemma element_dict_last fb k h e :
  elements fb !! h = Some e → FigureElement.id e = k →
  (∀ j e', (h < j)%nat → elements fb !! j = Some e' → FigureElement.id e' ≠ k) →
  element_dict fb !! k = Some h.
Proof.
  intros Hh Hk Hlast. unfold element_dict.
  by erewrite element_dict_fold_last.
Qed.

(** X18.  A colorbar whose [heatmap_id] is the id of no element of the figure
    disables itself and then fails all the same: the second test looks the
    heatmap up without regard to the first, and the read step ends in a
    KeyError. *)
Theorem colorbar_without_heatmap_raises self fb e heatmap_id x_index y_index label :
  elements fb !! self = Some e →
  FigureElement.cls e
    = FigureElement.HeatmapColorbarElement heatmap_id x_index y_index label →
  heatmap_id ∉ map FigureElement.id (elements fb) →
  HeatmapColorbarElement_read_f self fb
  = (FigureBuilder.with_elements (alter FigureElement.disable self) fb,
     Py.Raise (Py.KeyError heatmap_id)).
Proof.
  intros He Hcls Hnone. unfold HeatmapColorbarElement_read_f.
  erewrite run_bind_Return by (by apply run_this). rewrite Hcls.
  rewrite run_bind. simpl. rewrite (element_dict_missing fb) by done.
  rewrite run_bind. by rewrite run_update.
Qed.

(** X19.  A colorbar is paired with the last element of the list that has its
    [heatmap_id]: the read step returns, attaches that element, and leaves
    the colorbar enabled exactly when it was enabled and that element
    is. *)
Theorem colorbar_pairs_with_the_last_heatmap self fb e h heatmap
    heatmap_id x_index y_index label :
  elements fb !! self = Some e →
  FigureElement.cls e
    = FigureElement.HeatmapColorbarElement heatmap_id x_index y_index label →
  elements fb !! h = Some heatmap →
  FigureElement.id heatmap = heatmap_id →
  (∀ j e', (h < j)%nat → elements fb !! j = Some e' → FigureElement.id e' ≠ heatmap_id) →
  ∃ fb',
    HeatmapColorbarElement_read_f self fb = (fb', Py.Return tt)
    ∧ FigureElement.heatmap_elem <$> elements fb' !! self = Some (Some h)
    ∧ FigureElement.enabled <$> elements fb' !! self
      = Some (FigureElement.enabled e && FigureElement.enabled heatmap)
    ∧ (∀ j, j ≠ self → elements fb' !! j = elements fb !! j)
    ∧ FigureBuilder.axes fb' = FigureBuilder.axes fb
    ∧ events fb' = events fb.
Proof.
  intros He Hcls Hh Hid Hlast.
  pose proof (element_dict_last fb heatmap_id h heatmap Hh Hid Hlast) as Hd.
  unfold HeatmapColorbarElement_read_f.
  erewrite run_bind_Return by (by apply run_this). rewrite Hcls.
  rewrite run_bind. simpl. rewrite Hd. rewrite run_bind. simpl.
  erewrite run_bind_Return by (by apply run_this).
  destruct (FigureElement.enabled heatmap) eqn:Hon.
  - rewrite run_bind, run_mret, run_update. eexists. split; [done|]. simpl.
    split_and!; [| |intros j Hj|done|done].
    + by rewrite list_lookup_alter_eq, He.
    + rewrite list_lookup_alter_eq, He. simpl. by rewrite andb_true_r.
    + by rewrite list_lookup_alter_ne.
  - rewrite run_bind, run_update, run_update. eexists. split; [done|]. simpl.
    split_and!; [| |intros j Hj|done|done].
    + by rewrite !list_lookup_alter_eq, He.
    + rewrite !list_lookup_alter_eq, He. simpl. by rewrite andb_false_r.
    + by rewrite !list_lookup_alter_ne.
Qed.

Lemma column_header c (t : pd.Table) : c ∈ pd.header t → is_Some (pd.column c t).
Proof.
  intros Hin. unfold pd.column.
  destruct (position_elem c (pd.header t) Hin) as (i & -> & _). by eexists.
Qed.

(** X20.  When one of the three columns that the heatmap is told to use is not
    in the header of the csv, the read step stops at its assertion: the
    colour scale is attached by then, but no minimum, maximum or wide
    table, the element is still enabled, and no axis has been touched. *)
Theorem heatmap_stops_at_a_missing_column self fb e csv kwargs t xc yc vc colorscale
    x_axis x_col y_axis y_col val_col fill_value x_index y_index :
  elements fb !! self = Some e →
  FigureElement.cls e
    = FigureElement.HeatmapElement x_axis x_col y_axis y_col val_col fill_value
        x_index y_index →
  read_csv w csv = Some t →
  kwargs !! (x_axis +:+ "_col") = Some (Py.Str xc) →
  kwargs !! (y_axis +:+ "_col") = Some (Py.Str yc) →
  kwargs !! "val_col" = Some (Py.Str vc) →
  kwargs !! "colorscale" = Some colorscale →
  xc ∉ pd.header t ∨ yc ∉ pd.header t ∨ vc ∉ pd.header t →
  HeatmapElement_read_f w self (Some csv) kwargs fb
  = (FigureBuilder.with_elements (alter (FigureElement.set_colorscale colorscale) self) fb,
     Py.Raise (Py.AssertionError "csv does not contain column")).
Proof.
  intros He Hcls Hcsv Hkx Hky Hkv Hkc Hmissing. unfold HeatmapElement_read_f.
  erewrite run_bind_Return by (by apply run_this). rewrite Hcls.
  unfold open_csv. rewrite Hcsv, run_bind, run_mret.
  unfold kwarg. rewrite Hkx, run_bind, run_mret.
  rewrite Hky, run_bind, run_mret. rewrite Hkv, run_bind, run_mret.
  rewrite Hkc, run_bind, run_mret. rewrite run_bind, run_update.
  unfold checked_column.
  assert (∀ c, pd.column c t = None ∨ c ∈ pd.header t) as Hcol.
  { intros c. unfold pd.column, pd.position.
    destruct (list_find _ (pd.header t)) as [[i x]|] eqn:Hfind; [right|by left].
    apply list_find_Some in Hfind as (Hi & -> & _). by eapply list_elem_of_lookup_2. }
  rewrite run_bind. destruct (pd.column xc t) as [xs|] eqn:Hx; [|done].
  rewrite run_mret, run_bind. destruct (pd.column yc t) as [ys|] eqn:Hy; [|done].
  rewrite run_mret, run_bind. destruct (pd.column vc t) as [vs|] eqn:Hv; [|done].
  exfalso.
  destruct (Hcol xc) as [?|Hxin]; [congruence|].
  destruct (Hcol yc) as [?|Hyin]; [congruence|].
  destruct (Hcol vc) as [?|Hvin]; [congruence|].
  tauto.
Qed.

Lemma lookup_total_seq (l : list string) : (λ i, l !!! i) <$> seq 0 (length l) = l.
Proof.
  apply list_eq. intros i. rewrite list_lookup_fmap.
  destruct (l !! i) as [x|] eqn:Hi.
  - rewrite lookup_seq_lt by (by eapply lookup_lt_Some). simpl.
    f_equal. by apply list_lookup_total_correct.
  - rewrite lookup_seq_ge; [done|]. by apply lookup_ge_None.
Qed.

Lemma leaves_labels (idx : list string) (L : list nat) :
  Forall (λ i, (i < length idx)%nat) L →
  fold_right
    (λ i acc,
       match idx !! i, acc with
       | Some label, Py.Return labels => Py.Return (label :: labels)
       | None, _ => Py.Raise Py.IndexError
       | _, Py.Raise e => Py.Raise e
       end)
    (Py.Return []) L
  = Py.Return ((λ i, idx !!! i) <$> L).
Proof.
  induction 1 as [|i L Hi _ IH]; simpl; [done|]. rewrite IH.
  destruct (lookup_lt_is_Some_2 idx i Hi) as [x Hx]. rewrite Hx.
  by rewrite (list_lookup_total_correct _ _ _ Hx).
Qed.

(** X23.  When scipy's leaf list is a permutation of the row positions of the
    table, [order_by_linkage] returns a permutation of the row labels of
    the table: every label once for each time it is in the index, none
    added and none lost. *)
Theorem order_by_linkage_permutes_the_labels df method metric L :
  linkage_leaves w df method metric = Py.Return L →
  L ≡ₚ seq 0 (length (pd.index df)) →
  ∃ order,
    order_by_linkage w df method metric = Py.Return order
    ∧ order ≡ₚ pd.index df.
Proof.
  intros HL Hperm. unfold order_by_linkage. rewrite HL.
  rewrite leaves_labels.
  - eexists. split; [done|]. rewrite Hperm. by rewrite lookup_total_seq.
  - rewrite Hperm. apply Forall_forall. intros i Hi. apply elem_of_seq in Hi. lia.
Qed.

End ReadSteps.

(** ** The genome labels *)

Section GenomeLabels.
Import gig_map_elements.
Implicit Types (fig : Figure) (d : dict.t pd.cell).

Lemma run_apply_genome_labels fig (label_genomes_dict : dict.t string) genome_order :
  get_genome_label_map fig = Py.Return label_genomes_dict →
  datum_of fig "global" "genome_order" = Py.Return (Names genome_order) →
  apply_genome_labels fig
  = (set_genome_labels
       (map (λ l, default l (dict.get l label_genomes_dict)) genome_order) fig,
     Py.Return tt).
Proof.
  intros Hmap Horder. unfold apply_genome_labels.
  rewrite run_bind. simpl. rewrite run_bind. unfold Py.lift at 1. rewrite Hmap.
  rewrite run_bind. unfold Py.lift at 1. rewrite Horder. reflexivity.
Qed.

Lemma labels_without_dict (genome_order : list string) :
  map (λ l, default l (dict.get l ([] : dict.t string))) genome_order = genome_order.
Proof. induction genome_order as [|g l IH]; [done|]. simpl. f_equal. exact IH. Qed.

(** X26.  When the user has not chosen a column to label the genomes by, the
    labels are the genome names themselves, in the order of
    [genome_order]; neither the annotation table nor the length limit is
    looked at. *)
Theorem genome_labels_default_to_the_names fig genome_order :
  param fig "global" "label_genomes_by" = Py.Return Py.None_ →
  datum_of fig "global" "genome_order" = Py.Return (Names genome_order) →
  apply_genome_labels fig = (set_genome_labels genome_order fig, Py.Return tt).
Proof.
  intros Hby Horder.
  rewrite (run_apply_genome_labels fig [] genome_order);
    [|by unfold get_genome_label_map; rewrite Hby|done].
  by rewrite labels_without_dict.
Qed.

(** The dict of a column: one entry for every label, holding the cell of
    the last row that has the label. *)
Lemma to_dict_fold (z : list (string * pd.cell)) :
  NoDup (fold_left (λ d kv, dict.set kv.1 kv.2 d) z []).*1
  ∧ ∀ k v, (k, v) ∈ fold_left (λ d kv, dict.set kv.1 kv.2 d) z []
           ↔ ∃ i, z !! i = Some (k, v)
                  ∧ ∀ j kv', (i < j)%nat → z !! j = Some kv' → kv'.1 ≠ k.
Proof.
  induction z as [|[k0 v0] z [Hnd IH]] using rev_ind.
  - split; [constructor|]. intros k v. simpl. rewrite elem_of_nil.
    split; [done|]. by intros (i & Hi & _).
  - rewrite fold_left_app. simpl. split; [by apply dict_set_keys|].
    intros k v. rewrite dict_set_elem, IH by done. split.
    + intros [[-> ->]|[Hne (i & Hi & Hlast)]].
      * exists (length z). split; [by rewrite lookup_app_r, Nat.sub_diag by lia|].
        intros j kv' Hlt Hj. apply lookup_lt_Some in Hj. rewrite length_app in Hj.
        simpl in Hj. lia.
      * exists i. split; [by apply lookup_app_l_Some|].
        intros j kv' Hlt Hj. apply lookup_app_Some in Hj as [Hj|[Hge Hj]].
        -- by eapply Hlast.
        -- apply list_lookup_singleton_Some in Hj as [_ <-]. simpl. congruence.
    + intros (i & Hi & Hlast). apply lookup_app_Some in Hi as [Hi|[Hge Hi]].
      * right. split.
        -- intros ->. apply (Hlast (length z) (k0, v0)); [by eapply lookup_lt_Some| |done].
           by rewrite lookup_app_r, Nat.sub_diag by lia.
        -- exists i. split; [done|]. intros j kv' Hlt Hj.
           apply (Hlast j kv' Hlt). by apply lookup_app_l_Some.
      * apply list_lookup_singleton_Some in Hi as [_ [= -> ->]]. by left.
Qed.

Lemma to_dict_keys (z : list (string * pd.cell)) k :
  k ∈ (fold_left (λ d kv, dict.set kv.1 kv.2 d) z []).*1 ↔ k ∈ z.*1.
Proof.
  induction z as [|[k0 v0] z IH] using rev_ind; [done|].
  rewrite fold_left_app. simpl. rewrite fmap_app, elem_of_app. simpl.
  rewrite list_elem_of_singleton, <- IH.
  generalize (fold_left (λ d kv, dict.set kv.1 kv.2 d) z []). intros d. clear IH.
  induction d as [|[k1 v1] d IHd]; simpl.
  - rewrite list_elem_of_singleton, elem_of_nil. tauto.
  - case_decide; simpl; rewrite !elem_of_cons.
    + subst. tauto.
    + rewrite IHd. tauto.
Qed.

Lemma truncated_returned fig v l :
  truncated fig v = Py.Return l →
  ∃ raw n,
    v = pd.Str raw ∧ l = Py.str_slice_to n raw
    ∧ (param fig "global" "max_genome_label_len" = Py.Return Py.None_ ∧ n = None
       ∨ ∃ z, param fig "global" "max_genome_label_len" = Py.Return (Py.Int z)
              ∧ n = Some z).
Proof.
  unfold truncated. intros H. apply outcome_bind_returned in H as (n & Hn & H).
  destruct v as [|raw|q]; try done. destruct n as [|s|z]; try done.
  - injection H as <-. exists raw, None. eauto.
  - injection H as <-. exists raw, (Some z). eauto 10.
Qed.

(** X27.  When [apply_genome_labels] returns, it has written one label for
    every genome of [genome_order], in that order, and nothing else.  If no
    column was chosen, the labels are the names.  Otherwise a genome that
    labels no row of the annotation table keeps its name as its label, at
    its full length, and a genome that labels a row gets the text that the
    chosen column has in the last such row, cut to
    [max_genome_label_len]. *)
Theorem genome_labels_are_cut_annotations fig fig' :
  apply_genome_labels fig = (fig', Py.Return tt) →
  ∃ genome_order labels,
    datum_of fig "global" "genome_order" = Py.Return (Names genome_order)
    ∧ fig' = set_genome_labels labels fig
    ∧ ((param fig "global" "label_genomes_by" = Py.Return Py.None_
        ∧ labels = genome_order)
       ∨ ∃ label_col df cells,
           param fig "global" "label_genomes_by" = Py.Return (Py.Str label_col)
           ∧ datum_of fig "global" "genome_annotations" = Py.Return (Frame df)
           ∧ pd.series label_col df = Some cells
           ∧ Forall2
               (λ g l,
                  (g ∉ fst <$> zip (pd.index df) cells) ∧ l = g
                  ∨ (∃ i raw n,
                      zip (pd.index df) cells !! i = Some (g, pd.Str raw)
                      ∧ (∀ j row, (i < j)%nat →
                            zip (pd.index df) cells !! j = Some row → row.1 ≠ g)
                      ∧ l = Py.str_slice_to n raw
                      ∧ (param fig "global" "max_genome_label_len"
                           = Py.Return Py.None_ ∧ n = None
                         ∨ ∃ z, param fig "global" "max_genome_label_len"
                                  = Py.Return (Py.Int z) ∧ n = Some z)))
               genome_order labels).
Proof.
  unfold apply_genome_labels. intros H.
  rewrite run_bind in H. simpl in H.
  apply bind_returned in H as (s1 & label_genomes_dict & Hmap & H).
  apply lift_returned in Hmap as [Hmap ->].
  apply bind_returned in H as (s1 & order & Horder & H).
  apply lift_returned in Horder as [Horder ->].
  destruct order as [|genome_order|]; try (by unfold Py.raise in H).
  unfold Py.modify in H. injection H as <-.
  eexists _, _. split; [done|]. split; [done|].
  unfold get_genome_label_map in Hmap.
  apply outcome_bind_returned in Hmap as (by_ & Hby & Hmap).
  destruct by_ as [|label_col|]; [left|right|done].
  { injection Hmap as <-. split; [done|]. apply labels_without_dict. }
  apply outcome_bind_returned in Hmap as (annotations & Hann & Hmap).
  destruct annotations as [| |df]; try done.
  destruct (pd.series label_col df) as [cells|] eqn:Hcells; [|done].
  apply mapM_returned in Hmap.
  exists label_col, df, cells. split_and!; [done..|].
  destruct (to_dict_fold (zip (pd.index df) cells)) as [Hnd Hdict].
  fold (to_dict (pd.index df) cells) in Hnd, Hdict.
  assert ((label_genomes_dict).*1 = (to_dict (pd.index df) cells).*1) as Hkeys.
  { clear -Hmap. induction Hmap as [|kv kv' d d' Hkv _ IH]; [done|]. simpl.
    apply outcome_bind_returned in Hkv as (v & _ & [= <-]).
    simpl. f_equal. exact IH. }
  apply Forall2_fmap_r, Forall_Forall2_diag, Forall_forall. intros g _. simpl.
  destruct (dict.get g label_genomes_dict) as [l|] eqn:Hget; simpl.
  - right. apply dict_get_elem in Hget; [|by rewrite Hkeys].
    apply list_elem_of_lookup in Hget as [p Hp].
    destruct (Forall2_lookup_r _ _ _ _ _ Hmap Hp) as ([k cell] & Hsrc & Htr).
    apply outcome_bind_returned in Htr as (l' & Htr & [= -> ->]). simpl in Htr.
    apply truncated_returned in Htr as (raw & n & -> & -> & Hn).
    apply list_elem_of_lookup_2, Hdict in Hsrc as (i & Hi & Hlast).
    by exists i, raw, n.
  - left. split; [|done]. intros Hin.
    assert (is_Some (dict.get g label_genomes_dict)) as [? ?]; [|congruence].
    apply dict_get_keys. rewrite Hkeys. by apply to_dict_keys.
Qed.

End GenomeLabels.

(** ** The annotation step, continued *)

Section AnnotationOrder.
Import gig_map_elements.
Context (w : World).
Implicit Types (fb : FigureBuilder.t) (df : pd.DataFrame).
Local Abbreviation elements := FigureBuilder.elements.
Local Abbreviation events := FigureBuilder.events.
Local Abbreviation axis := FigureBuilder.axis.

Lemma read_lines_lines fp fb fb' lines :
  read_lines w fp fb = (fb', Py.Return lines) →
  fb' = fb ∧ read_text w fp = Some lines ∧ lines ≠ [].
Proof.
  unfold read_lines. destruct (read_text w fp) as [l|]; [|by unfold Py.raise].
  intros H. apply bind_returned in H as (s & [] & Ha & H).
  apply assert_returned in Ha as [Hlen ->]. rewrite run_mret in H. simplify_eq.
  split_and!; [done..|]. apply bool_decide_eq_true in Hlen.
  intros ->. simpl in Hlen. lia.
Qed.

Lemma for_assert_all {A} (l : list A) (b : A → bool) msg fb fb' :
  Py.for_ l (λ x, Py.assert (b x) msg) fb = (fb', Py.Return tt) →
  fb' = fb ∧ ∀ x, x ∈ l → b x = true.
Proof.
  induction l as [|x l IH]; simpl.
  - unfold Py.ret. intros H. simplify_eq. split; [done|]. by intros ? ?%elem_of_nil.
  - intros H. apply (bind_returned (Py.assert (b x) msg)) in H as (s & [] & Ha & H).
    apply assert_returned in Ha as [Hx ->]. destruct (IH H) as [-> Hl].
    split; [done|]. intros y Hy. apply elem_of_cons in Hy as [->|Hy]; auto.
Qed.

Lemma set_index_index c (t : pd.Table) df :
  pd.set_index c t = Py.Return df →
  pd.idents <$> pd.column c t = Some (Py.Return (pd.index df))
  ∧ length (pd.values df) = length (pd.index df).
Proof.
  unfold pd.set_index, pd.column.
  destruct (pd.position c (pd.header t)) as [i|]; [|done]. simpl.
  destruct (pd.idents _) as [ids|] eqn:Hids; [|done].
  intros [= <-]. simpl. split; [done|].
  apply idents_returned in Hids. apply (f_equal length) in Hids.
  rewrite !length_map in Hids. by rewrite length_map.
Qed.

Lemma assign_index c cells df : pd.index (pd.assign c cells df) = pd.index df.
Proof. unfold pd.assign. by destruct (pd.position c (pd.columns df)). Qed.

Lemma series_length c df cells :
  pd.series c df = Some cells → length cells = length (pd.values df).
Proof.
  unfold pd.series. destruct (pd.position c (pd.columns df)); [|done].
  simpl. intros [= <-]. by rewrite length_map.
Qed.

Lemma reindex_index_values ys df df' :
  pd.reindex_index ys df = Py.Return df' →
  pd.index df' = ys ∧ pd.columns df' = pd.columns df
  ∧ pd.values df' = map (pd.row df) ys.
Proof. unfold pd.reindex_index. case_decide; [|done]. by intros [= <-]. Qed.

(** X24.  When the annotation step is given an order file and returns, the
    file decides the axis: the labels are handed to the axis in one [set]
    call whose identifiers are the lines of the file, in the order of the
    file and nothing else (rows of the csv that the file does not list are
    left out), every line is an identifier of the csv, and the axis is
    fixed afterwards. *)
Theorem annotation_order_file_decides self e csv index_col label_col max_label_len order
    fb fb' axis_label orient index_pos id_col :
  elements fb !! self = Some e →
  FigureElement.cls e = FigureElement.AxisAnnot axis_label orient index_pos id_col →
  AxisAnnot_read_f w self (Some csv) index_col label_col max_label_len (Some order) fb
    = (fb', Py.Return tt) →
  ∃ lines series t c ids,
    read_text w order = Some lines
    ∧ lines ≠ []
    ∧ read_csv w csv = Some t
    ∧ index_col = Some c
    ∧ pd.idents <$> pd.column c t = Some (Py.Return ids)
    ∧ (∀ line, line ∈ lines → line ∈ ids)
    ∧ events fb' = events fb ++ [FigureBuilder.set_called axis_label series]
    ∧ series.*1 = lines
    ∧ FigureAxis.is_fixed (axis axis_label fb') = true.
Proof.
  intros He Hcls H. unfold AxisAnnot_read_f in H.
  erewrite run_bind_Return in H by (by apply run_this). rewrite Hcls in H.
  apply bind_returned in H as (s & [] & Ha & H).
  apply assert_returned in Ha as [_ ->].
  apply bind_returned in H as (s & t & Hcsv & H).
  apply open_csv_returned in Hcsv as [-> Hcsv].
  apply bind_returned in H as (s & ic & Hic & H).
  destruct index_col as [c|]; [|by unfold Py.raise in Hic].
  apply bind_returned in Hic as (s' & [] & Ha & Hic).
  apply assert_returned in Ha as [_ ->]. rewrite run_mret in Hic.
  injection Hic as <- <-.
  apply bind_returned in H as (s & df & Hdf & H).
  apply lift_returned in Hdf as [Hdf ->].
  destruct (set_index_index _ _ _ Hdf) as [Hids _].
  apply bind_returned in H as (s & [df1 lc] & Hlab & H).
  assert (s = fb ∧ pd.index df1 = pd.index df) as [-> Hindex1].
  { destruct label_col as [c'|].
    - apply bind_returned in Hlab as (s' & [] & Ha & Hlab).
      apply assert_returned in Ha as [_ ->]. rewrite run_mret in Hlab. by simplify_eq.
    - rewrite run_mret in Hlab. simplify_eq. split; [done|]. apply assign_index. }
  simpl in H.
  apply bind_returned in H as (s & df2 & Hord & H).
  apply bind_returned in Hord as (s' & lines & Hlines & Hord).
  apply read_lines_lines in Hlines as (-> & Hlines & Hne).
  apply bind_returned in Hord as (s' & [] & Hfor & Hord).
  apply for_assert_all in Hfor as [-> Hall].
  apply lift_returned in Hord as [Hre ->].
  apply reindex_index_values in Hre as (Hindex2 & _ & Hvalues2).
  destruct (pd.series lc df2) as [cells|] eqn:Hcells; [|by unfold Py.raise in H].
  apply bind_returned in H as (s & trimmed & Htrim & H).
  apply lift_returned in Htrim as [Htrim ->].
  apply apply_trim_returned, Forall2_length in Htrim.
  apply series_length in Hcells.
  rewrite Hvalues2, length_map in Hcells.
  rewrite run_bind in H. simpl in H.
  unfold FigureBuilder.fix_axis, Py.modify in H. injection H as <-.
  exists lines, (zip (pd.index df2) trimmed), t, c, (pd.index df).
  split_and!; try done.
  - intros line Hline. specialize (Hall line Hline).
    apply bool_decide_eq_true in Hall. by rewrite Hindex1 in Hall.
  - rewrite Hindex2. apply fst_zip. lia.
  - by rewrite axis_insert_eq.
Qed.

Lemma position_lookup (s : string) (l : list string) i :
  pd.position s l = Some i → l !! i = Some s.
Proof.
  unfold pd.position. destruct (list_find _ l) as [[j x]|] eqn:Hfind; [|done].
  simpl. intros [= <-]. by apply list_find_Some in Hfind as (Hj & -> & _).
Qed.

Lemma position_fresh (s : string) (l : list string) :
  pd.position s l = None → pd.position s (l ++ [s]) = Some (length l).
Proof.
  unfold pd.position. intros Hnone.
  destruct (list_find (λ x, x = s) l) as [[j x]|] eqn:Hfind; [done|].
  apply list_find_None in Hfind.
  assert (list_find (λ x, x = s) (l ++ [s]) = Some (length l, s)) as ->; [|done].
  apply list_find_Some. split_and!; [|done|].
  - by rewrite lookup_app_r, Nat.sub_diag by lia.
  - intros j y Hj Hlt. rewrite lookup_app_l in Hj by done.
    eapply Forall_lookup_1 in Hfind; eauto.
Qed.

(** The column that [assign] writes reads back, on a table whose rows
    all have a cell for every column. *)
Lemma series_assign c cells df :
  Forall (λ r, length r = length (pd.columns df)) (pd.values df) →
  length cells = length (pd.values df) →
  pd.series c (pd.assign c cells df) = Some cells.
Proof.
  intros Hrect Hlen. unfold pd.assign, pd.series.
  destruct (pd.position c (pd.columns df)) as [j|] eqn:Hpos; simpl.
  - rewrite Hpos. simpl. f_equal. apply list_eq. intros i.
    rewrite list_lookup_fmap, lookup_zip_with.
    destruct (pd.values df !! i) as [r|] eqn:Hr; simpl.
    + destruct (cells !! i) as [v|] eqn:Hv; simpl.
      * f_equal. rewrite nth_lookup, list_lookup_insert_eq; [done|].
        eapply Forall_lookup_1 in Hrect; [|exact Hr]. rewrite Hrect.
        apply position_lookup in Hpos. by eapply lookup_lt_Some.
      * apply lookup_ge_None in Hv. apply lookup_lt_Some in Hr. lia.
    + apply lookup_ge_None in Hr. symmetry. apply lookup_ge_None. lia.
  - rewrite position_fresh by done. simpl. f_equal. apply list_eq. intros i.
    rewrite list_lookup_fmap, lookup_zip_with.
    destruct (pd.values df !! i) as [r|] eqn:Hr; simpl.
    + destruct (cells !! i) as [v|] eqn:Hv; simpl.
      * f_equal. eapply Forall_lookup_1 in Hrect; [|exact Hr].
        rewrite nth_lookup, lookup_app_r, Hrect, Nat.sub_diag by lia. done.
      * apply lookup_ge_None in Hv. apply lookup_lt_Some in Hr. lia.
    + apply lookup_ge_None in Hr. symmetry. apply lookup_ge_None. lia.
Qed.

Lemma set_index_rectangular c (t : pd.Table) df :
  Forall (λ r, length r = length (pd.header t)) (pd.rows t) →
  pd.set_index c t = Py.Return df →
  Forall (λ r, length r = length (pd.columns df)) (pd.values df).
Proof.
  intros Hrect. unfold pd.set_index.
  destruct (pd.position c (pd.header t)) as [i|] eqn:Hpos; [|done].
  destruct (pd.idents _) as [ids|]; [|done]. intros [= <-]. simpl.
  apply position_lookup, lookup_lt_Some in Hpos.
  apply Forall_fmap. eapply Forall_impl; [exact Hrect|]. intros r Hr. simpl in *.
  rewrite !length_app, !length_take, !length_drop. lia.
Qed.

(** The cell that a column has in the row found for a label. *)
Lemma series_row c df cells y i :
  pd.series c df = Some cells → pd.position y (pd.index df) = Some i →
  ∃ j, pd.position c (pd.columns df) = Some j
       ∧ nth j (pd.row df y) pd.NaN = nth i cells pd.NaN.
Proof.
  unfold pd.series, pd.row. intros Hcells Hpos. rewrite Hpos.
  destruct (pd.position c (pd.columns df)) as [j|]; [|done].
  simpl in Hcells. injection Hcells as <-. exists j. split; [done|].
  rewrite (nth_lookup (map _ _)).
  change (map (λ r, nth j r pd.NaN) (pd.values df))
    with ((λ r, nth j r pd.NaN) <$> pd.values df).
  rewrite list_lookup_fmap, (nth_lookup (pd.values df)).
  destruct (pd.values df !! i) as [r|]; simpl; [done|by destruct j].
Qed.

(** X25.  Without a label column the labels are the identifiers themselves,
    cut to the limit: the step labels every row by its entry in the index
    column.  (The csv is a table: every row has a cell for each column of
    the header.) *)
Theorem annotation_labels_default_to_the_ids self e csv index_col max_label_len order
    fb fb' t axis_label orient index_pos id_col :
  elements fb !! self = Some e →
  FigureElement.cls e = FigureElement.AxisAnnot axis_label orient index_pos id_col →
  read_csv w csv = Some t →
  Forall (λ r, length r = length (pd.header t)) (pd.rows t) →
  AxisAnnot_read_f w self (Some csv) index_col None max_label_len order fb
    = (fb', Py.Return tt) →
  ∃ series,
    events fb' = events fb ++ [FigureBuilder.set_called axis_label series]
    ∧ ∀ id label, (id, label) ∈ series → label = Py.str_slice_to max_label_len id.
Proof.
  intros He Hcls Ht Hrect H. unfold AxisAnnot_read_f in H.
  erewrite run_bind_Return in H by (by apply run_this). rewrite Hcls in H.
  apply bind_returned in H as (s & [] & Ha & H).
  apply assert_returned in Ha as [_ ->].
  apply bind_returned in H as (s & t' & Hcsv & H).
  apply open_csv_returned in Hcsv as [-> Hcsv].
  assert (t' = t) as -> by congruence.
  apply bind_returned in H as (s & ic & Hic & H).
  assert (s = fb) as ->.
  { destruct index_col as [c|]; [|by unfold Py.raise in Hic].
    apply bind_returned in Hic as (s' & [] & Ha & Hic).
    apply assert_returned in Ha as [_ ->]. rewrite run_mret in Hic. by simplify_eq. }
  apply bind_returned in H as (s & df & Hdf & H).
  apply lift_returned in Hdf as [Hdf ->].
  destruct (set_index_index _ _ _ Hdf) as [_ Hlen].
  pose proof (set_index_rectangular _ _ _ Hrect Hdf) as Hrect'.
  rewrite run_bind, run_mret in H. simpl in H.
  set (df1 := pd.assign "_labels" (map pd.Str (pd.index df)) df) in *.
  assert (pd.series "_labels" df1 = Some (map pd.Str (pd.index df))) as Hlabels.
  { apply series_assign; [done|]. by rewrite length_map. }
  assert (pd.index df1 = pd.index df) as Hindex1 by apply assign_index.
  apply bind_returned in H as (s & df2 & Hord & H).
  assert (s = fb ∧ ∃ cells, pd.series "_labels" df2 = Some cells
                            ∧ cells = map pd.Str (pd.index df2)) as [-> (cells & Hcells & ->)].
  { destruct order as [o|].
    - apply bind_returned in Hord as (s' & lines & Hlines & Hord).
      apply read_lines_lines in Hlines as (-> & _ & _).
      apply bind_returned in Hord as (s' & [] & Hfor & Hord).
      apply for_assert_all in Hfor as [-> Hall].
      apply lift_returned in Hord as [Hre ->].
      apply reindex_index_values in Hre as (Hi2 & Hc2 & Hv2). split; [done|].
      assert (∃ j, pd.position "_labels" (pd.columns df1) = Some j) as [j Hj].
      { revert Hlabels. unfold pd.series.
        destruct (pd.position "_labels" (pd.columns df1)); [eauto|done]. }
      eexists. split; [unfold pd.series; rewrite Hc2, Hj; reflexivity|].
      rewrite Hv2, Hi2, map_map. apply map_ext_in. intros y Hy.
      apply list_elem_of_In in Hy. specialize (Hall y Hy).
      apply bool_decide_eq_true in Hall.
      destruct (position_elem y _ Hall) as (i & Hpos & Hi).
      destruct (series_row _ _ _ _ _ Hlabels Hpos) as (j' & Hj' & Hrow).
      assert (j' = j) as -> by congruence. rewrite Hrow.
      apply nth_lookup_Some. rewrite list_lookup_fmap, <- Hindex1, Hi. done.
    - rewrite run_mret in Hord. simplify_eq. split; [done|].
      exists (map pd.Str (pd.index df)). split; [done|]. by rewrite Hindex1. }
  rewrite Hcells in H.
  apply bind_returned in H as (s & trimmed & Htrim & H).
  apply lift_returned in Htrim as [Htrim ->].
  apply apply_trim_returned in Htrim.
  rewrite run_bind in H. simpl in H.
  exists (zip (pd.index df2) trimmed). split.
  - destruct order; [unfold FigureBuilder.fix_axis, Py.modify in H|rewrite run_mret in H];
      by simplify_eq.
  - intros id label Hin. apply list_elem_of_lookup in Hin as [i Hi].
    apply lookup_zip_Some in Hi as [Hid Hl].
    destruct (Forall2_lookup_r _ _ _ _ _ Htrim Hl) as (c & Hc & raw & -> & ->).
    change (map pd.Str (pd.index df2)) with (pd.Str <$> pd.index df2) in Hc.
    rewrite list_lookup_fmap, Hid in Hc. simpl in Hc. by injection Hc as <-.
Qed.

End AnnotationOrder.

(** ** The plot phase, continued *)

Section PlotPhase.
Import FigureBuilder.
Implicit Types (fb : FigureBuilder.t) (invoke : event → Py.outcome Py.value)
  (l : list FigureElement.t).

Lemma plot_loop_run invoke l fb evs :
  (∀ e, e ∈ l → is_Some (data fb !! FigureElement.id e)
                ∧ Py.returned (invoke (plot_call fb e))) →
  Py.for_ l (λ element,
      fb ← Py.get;
      match data fb !! FigureElement.id element with
      | None => Py.raise (Py.KeyError (FigureElement.id element))
      | Some d =>
          _ ← call invoke (plot_f_called (FigureElement.id element)
                      [Subplots;
                       Namespace (namespace (FigureElement.id element) fb);
                       Loaded d;
                       Params (params fb);
                       Data (data fb)]);
          mret tt
      end) (add_events evs fb)
  = (add_events (evs ++ map (plot_call fb) l) fb, Py.Return tt).
Proof.
  revert evs. induction l as [|e l IH]; intros evs Hl.
  - simpl. by rewrite app_nil_r.
  - destruct (Hl e) as [[d Hd] [v Hv]]; [by constructor|].
    rewrite run_for_cons, run_bind. simpl. rewrite Hd, run_bind.
    unfold plot_call in Hv. rewrite Hd in Hv. simpl in Hv.
    erewrite run_call by exact Hv. rewrite run_mret.
    rewrite add_events_app, IH by (intros; apply Hl; by constructor).
    rewrite <- app_assoc. simpl. unfold plot_call at 2. rewrite Hd. done.
Qed.

(** X13.  The plot phase ends with the first plot step that raises: its
    exception leaves [make_plots], the plot steps of the elements before it
    have been called in order, and the plot step of no element after it is
    called. *)
Theorem make_plots_stops_at_first_failure invoke fb l1 e l2 x :
  elements fb = l1 ++ e :: l2 →
  (∀ e', e' ∈ l1 ++ [e] → is_Some (data fb !! FigureElement.id e')) →
  (∀ e', e' ∈ l1 → Py.returned (invoke (plot_call fb e'))) →
  invoke (plot_call fb e) = Py.Raise x →
  ∃ fb',
    make_plots invoke fb = (fb', Py.Raise x)
    ∧ events fb' = events fb ++ map (plot_call fb) (l1 ++ [e])
    ∧ elements fb' = elements fb
    ∧ data fb' = data fb.
Proof.
  intros Hel Hdata Hl1 Hx.
  destruct (Hdata e) as [d Hd]; [apply elem_of_app; right; by constructor|].
  eexists. split.
  - unfold make_plots. rewrite run_bind. simpl. rewrite Hel, run_for_app.
    rewrite <- (add_events_nil fb) at 1.
    rewrite plot_loop_run.
    + rewrite run_for_cons, run_bind. simpl. rewrite Hd, run_bind.
      unfold call. rewrite run_bind. simpl. unfold Py.lift.
      unfold plot_call in Hx. rewrite Hd in Hx. simpl in Hx.
      match goal with
      | |- context [invoke ?ev] =>
          change ev with
            (plot_f_called (FigureElement.id e)
               [Subplots; Namespace (namespace (FigureElement.id e) fb);
                Loaded d; Params (params fb); Data (data fb)])
      end.
      rewrite Hx. reflexivity.
    + intros e' He'. split; [|by apply Hl1]. apply Hdata, elem_of_app. by left.
  - simpl. split_and!; [|done..]. rewrite map_app, <- app_assoc. simpl.
    do 2 f_equal. unfold plot_call. by rewrite Hd.
Qed.

End PlotPhase.

(** ** The heatmap step, continued *)

Section HeatmapOrders.
Import gig_map_elements.
Context (w : World).
Implicit Types (fb : FigureBuilder.t).
Local Abbreviation elements := FigureBuilder.elements.
Local Abbreviation events := FigureBuilder.events.
Local Abbreviation axis := FigureBuilder.axis.

(** X21.  An alignment table with two rows for the same pair of gene and
    genome cannot be pivoted: the heatmap's read step ends in a ValueError,
    with the colour scale and the extreme values attached but no wide
    table, and without a call to any axis. *)
Theorem heatmap_needs_one_row_per_pair self fb e csv kwargs t xc yc vc colorscale
    xcells ycells vs xs ys min_val max_val
    x_axis x_col y_axis y_col val_col fill_value x_index y_index :
  elements fb !! self = Some e →
  FigureElement.cls e
    = FigureElement.HeatmapElement x_axis x_col y_axis y_col val_col fill_value
        x_index y_index →
  read_csv w csv = Some t →
  kwargs !! (x_axis +:+ "_col") = Some (Py.Str xc) →
  kwargs !! (y_axis +:+ "_col") = Some (Py.Str yc) →
  kwargs !! "val_col" = Some (Py.Str vc) →
  kwargs !! "colorscale" = Some colorscale →
  pd.column xc t = Some xcells → pd.idents xcells = Py.Return xs →
  pd.column yc t = Some ycells → pd.idents ycells = Py.Return ys →
  pd.column vc t = Some vs →
  pd.min vs = Py.Return min_val → pd.max vs = Py.Return max_val →
  ¬ NoDup (zip ys xs) →
  ∃ fb',
    HeatmapElement_read_f w self (Some csv) kwargs fb
    = (fb', Py.Raise (Py.ValueError "Index contains duplicate entries, cannot reshape"))
    ∧ elements fb' !! self
      = Some (FigureElement.set_max_val max_val
                (FigureElement.set_min_val min_val
                   (FigureElement.set_colorscale colorscale e)))
    ∧ FigureBuilder.axes fb' = FigureBuilder.axes fb
    ∧ events fb' = events fb.
Proof.
  intros He Hcls Hcsv Hkx Hky Hkv Hkc Hx Hxs Hy Hys Hv Hmin Hmax Hdup.
  unfold HeatmapElement_read_f.
  erewrite run_bind_Return by (by apply run_this). rewrite Hcls.
  unfold open_csv. rewrite Hcsv, run_bind, run_mret.
  unfold kwarg. rewrite Hkx, run_bind, run_mret.
  rewrite Hky, run_bind, run_mret. rewrite Hkv, run_bind, run_mret.
  rewrite Hkc, run_bind, run_mret. rewrite run_bind, run_update.
  unfold checked_column. rewrite Hx, Hy, Hv.
  rewrite run_bind, run_mret, run_bind, run_mret, run_bind, run_mret.
  rewrite Hmin, Hmax, Hys, Hxs.
  rewrite run_bind. unfold Py.lift at 1. rewrite run_bind, run_update.
  rewrite run_bind. unfold Py.lift at 1. rewrite run_bind, run_update.
  rewrite run_bind. unfold Py.lift at 1. rewrite run_bind. unfold Py.lift at 1.
  rewrite run_bind. unfold Py.lift at 1. unfold pd.pivot.
  rewrite decide_False by done.
  eexists. split; [reflexivity|]. simpl. split_and!; [|done..].
  by rewrite !list_lookup_alter_eq, He.
Qed.

Lemma suggest_order_orders name df fb fb' :
  suggest_order w name df fb = (fb', Py.Return tt) →
  elements fb' = elements fb
  ∧ ∃ evs,
      events fb' = events fb ++ evs
      ∧ ∀ a fixed o, FigureBuilder.set_order_called a fixed o ∈ evs →
          a = name ∧ fixed = false
          ∧ order_by_linkage w df "ward" "euclidean" = Py.Return o.
Proof.
  unfold suggest_order. rewrite run_bind. simpl.
  destruct (FigureAxis.is_fixed (axis name fb)) eqn:Hfix; simpl.
  - rewrite run_mret. intros H. simplify_eq. split; [done|].
    exists []. rewrite app_nil_r. split; [done|].
    intros a fixed o Hin. by apply elem_of_nil in Hin.
  - intros H. apply bind_returned in H as (s1 & o & Hlink & H).
    unfold linkage_order in Hlink.
    cbv [mbind Py_bind Py.bind Py.get Py.modify Py.lift] in Hlink. simpl in Hlink.
    rewrite Hfix in Hlink.
    destruct (order_by_linkage w df "ward" "euclidean") as [o'|] eqn:Ho; simplify_eq.
    apply set_axis_order_returned in H as (Hev & Hel & _).
    split; [done|]. eexists [_; _]. split.
    + rewrite Hev. simpl. by rewrite <- app_assoc.
    + intros a fixed o' Hin. apply elem_of_cons in Hin as [Heq|Hin]; [done|].
      apply list_elem_of_singleton in Hin.
      change (axis name (FigureBuilder.record _ fb)) with (axis name fb) in Hin.
      rewrite Hfix in Hin. by simplify_eq.
Qed.

Lemma order_by_linkage_reorders df method metric order :
  (∀ df method metric L,
     linkage_leaves w df method metric = Py.Return L →
     L ≡ₚ seq 0 (length (pd.index df))) →
  order_by_linkage w df method metric = Py.Return order →
  order ≡ₚ pd.index df.
Proof.
  intros Hscipy. unfold order_by_linkage.
  destruct (linkage_leaves w df method metric) as [L|] eqn:HL; [|done].
  apply Hscipy in HL. rewrite leaves_labels.
  - intros [= <-]. rewrite HL. by rewrite lookup_total_seq.
  - rewrite HL. apply Forall_forall. intros i Hi. apply elem_of_seq in Hi. lia.
Qed.

(** X22.  When scipy's leaf list is always a permutation of the row positions,
    every order that the heatmap's read step hands to [set_order] is a
    reordering of the labels of its own wide table: of the column labels
    for the horizontal axis and of the row labels for the vertical axis,
    and it is handed over only for an axis that is not fixed. *)
Theorem heatmap_suggests_reorderings self e csv kwargs fb fb'
    x_axis x_col y_axis y_col val_col fill_value x_index y_index :
  (∀ df method metric L,
     linkage_leaves w df method metric = Py.Return L →
     L ≡ₚ seq 0 (length (pd.index df))) →
  elements fb !! self = Some e →
  FigureElement.cls e
    = FigureElement.HeatmapElement x_axis x_col y_axis y_col val_col fill_value
        x_index y_index →
  HeatmapElement_read_f w self (Some csv) kwargs fb = (fb', Py.Return tt) →
  ∃ df_wide evs,
    FigureElement.df_wide <$> elements fb' !! self = Some (Some df_wide)
    ∧ events fb' = events fb ++ evs
    ∧ ∀ a fixed o, FigureBuilder.set_order_called a fixed o ∈ evs →
        fixed = false
        ∧ (a = x_axis ∧ o ≡ₚ pd.columns df_wide
           ∨ a = y_axis ∧ o ≡ₚ pd.index df_wide).
Proof.
  intros Hscipy He Hcls H. unfold HeatmapElement_read_f in H.
  erewrite run_bind_Return in H by (by apply run_this). rewrite Hcls in H.
  apply bind_returned in H as (s & df_long & Hcsv & H).
  apply open_csv_returned in Hcsv as [-> Hcsv].
  apply bind_returned in H as (s & x_colv & Hk & H).
  apply kwarg_returned in Hk as [-> Hkx].
  apply bind_returned in H as (s & y_colv & Hk & H).
  apply kwarg_returned in Hk as [-> Hky].
  apply bind_returned in H as (s & val_colv & Hk & H).
  apply kwarg_returned in Hk as [-> Hkv].
  apply bind_returned in H as (s & colorscale & Hk & H).
  apply kwarg_returned in Hk as [-> Hkc].
  rewrite run_bind, run_update in H.
  apply bind_returned in H as (s & xcells & Hc & H).
  apply checked_column_returned in Hc as [-> _].
  apply bind_returned in H as (s & ycells & Hc & H).
  apply checked_column_returned in Hc as [-> _].
  apply bind_returned in H as (s & vs & Hc & H).
  apply checked_column_returned in Hc as [-> _].
  apply bind_returned in H as (s & min_val & Hl & H).
  apply lift_returned in Hl as [_ ->].
  rewrite run_bind, run_update in H.
  apply bind_returned in H as (s & max_val & Hl & H).
  apply lift_returned in Hl as [_ ->].
  rewrite run_bind, run_update in H.
  apply bind_returned in H as (s & ys & Hl & H).
  apply lift_returned in Hl as [_ ->].
  apply bind_returned in H as (s & xs & Hl & H).
  apply lift_returned in Hl as [_ ->].
  apply bind_returned in H as (s & wide & Hl & H).
  apply lift_returned in Hl as [_ ->].
  rewrite run_bind, run_update in H.
  apply bind_returned in H as (s & [] & Hsx & Hsy).
  apply suggest_order_orders in Hsx as (Helx & evx & Hevx & Honlyx).
  apply suggest_order_orders in Hsy as (Hely & evy & Hevy & Honlyy).
  exists (pd.fillna fill_value wide), (evx ++ evy). split_and!.
  - rewrite Hely, Helx. simpl. rewrite list_lookup_alter_eq.
    rewrite !list_lookup_alter_eq, He. done.
  - by rewrite Hevy, Hevx, app_assoc.
  - intros a fixed o Hin. apply elem_of_app in Hin as [Hin|Hin].
    + destruct (Honlyx _ _ _ Hin) as (-> & -> & Ho). split; [done|]. left.
      split; [done|]. by apply (order_by_linkage_reorders _ _ _ _ Hscipy) in Ho.
    + destruct (Honlyy _ _ _ Hin) as (-> & -> & Ho). split; [done|]. right.
      split; [done|]. by apply (order_by_linkage_reorders _ _ _ _ Hscipy) in Ho.
Qed.

End HeatmapOrders.

(** ** The further statements on the small run *)

Section MoreRuns.
Import gig_map_elements scenario.

Lemma index_columns_decode_witness :
  ∃ out,
    aggregate_results.add_ix gene_order hits = Py.Return out
    ∧ length out = 3%nat.
Proof.
  destruct (index_columns_decode gene_order hits) as (out & Hrun & Hlen & _).
  - apply Forall_forall. repeat constructor.
  - by exists out.
Defined.

Lemma index_step_needs_every_gene_witness :
  aggregate_results.add_ix ["g1"] hits = Py.Raise (Py.ValueError "is not in list").
Proof.
  apply (index_step_needs_every_gene ["g1"] hits
           {| aggregate_results.sseqid := "g2"; aggregate_results.genome := "B";
              aggregate_results.rest := 90%nat |}).
  - by constructor.
  - apply (bool_decide_unpack _). vm_compute. exact I.
Defined.

Lemma gather_from_folder_entries_witness :
  ∃ out,
    gather_alignments.gather_from_folder (folders ["s1.json.gz"; "notes.txt"] [])
      "famli" ".json.gz"
      (gather_alignments.read_famli (folders ["s1.json.gz"; "notes.txt"] []))
    = Py.Return out
    ∧ ("s1", [7; 8]%nat) ∈ out.
Proof.
  destruct (gather_from_folder_entries (folders ["s1.json.gz"; "notes.txt"] [])
              "famli" ".json.gz"
              (gather_alignments.read_famli (folders ["s1.json.gz"; "notes.txt"] []))
              ["s1.json.gz"; "notes.txt"]) as [Hret Hout].
  - done.
  - reflexivity.
  - destruct (proj2 Hret) as [out Hrun].
    + intros fp _ _. unfold gather_alignments.read_famli. simpl. case_match; by eexists.
    + exists out. split; [done|]. apply (Hout out Hrun). split; [|reflexivity].
      vm_compute. by constructor.
Defined.

Lemma gather_from_folder_empty_suffix_witness :
  ∃ v, gather_alignments.read_famli (folders ["s1.json.gz"; "notes.txt"] [])
         (gather_alignments.path_join "famli" "notes.txt") = Py.Return v
       ∧ [("", ([] : list nat))] = [("", v)].
Proof.
  apply (gather_from_folder_empty_suffix (folders ["s1.json.gz"; "notes.txt"] [])
           "famli" (gather_alignments.read_famli (folders ["s1.json.gz"; "notes.txt"] []))
           ["s1.json.gz"; "notes.txt"] [("", [])]).
  - reflexivity.
  - vm_compute. reflexivity.
Defined.

Lemma gather_alignments_rows_witness :
  ∃ out,
    gather_alignments.gather_alignments
      (folders ["s1.json.gz"; "notes.txt"] ["s1.num_reads.txt"]) = Py.Return out
    ∧ (8%nat, "s1", 42) ∈ out.
Proof.
  exists [(7%nat, "s1", 42); (8%nat, "s1", 42)].
  destruct (gather_alignments_rows
              (folders ["s1.json.gz"; "notes.txt"] ["s1.num_reads.txt"])
              [(7%nat, "s1", 42); (8%nat, "s1", 42)]) as (files & Hfiles & Hrows).
  - vm_compute. reflexivity.
  - split; [vm_compute; reflexivity|]. apply Hrows.
    injection Hfiles as <-. split_and!.
    + vm_compute. by constructor.
    + exists [7; 8]%nat. split; [reflexivity|]. repeat constructor.
    + vm_compute. reflexivity.
Defined.

Lemma gather_alignments_needs_counts_witness :
  gather_alignments.gather_alignments (folders ["s1.json.gz"] [])
  = Py.Raise (Py.AssertionError "Did not find read counts for specimen").
Proof.
  apply (gather_alignments_needs_counts (folders ["s1.json.gz"] [])
           ["s1.json.gz"] [] "s1").
  - reflexivity.
  - reflexivity.
  - intros fp _ _. unfold gather_alignments.read_famli. simpl. case_match; by eexists.
  - intros fp Hfp. by apply elem_of_nil in Hfp.
  - vm_compute. by constructor.
  - apply not_elem_of_nil.
Defined.

Lemma gather_alignments_needs_a_specimen_witness :
  gather_alignments.gather_alignments (folders ["notes.txt"] ["s1.num_reads.txt"])
  = Py.Raise (Py.ValueError "No objects to concatenate").
Proof.
  apply (gather_alignments_needs_a_specimen
           (folders ["notes.txt"] ["s1.num_reads.txt"]) ["notes.txt"]).
  - reflexivity.
  - intros fp Hfp. apply list_elem_of_singleton in Hfp as ->. reflexivity.
  - eexists. vm_compute. reflexivity.
Defined.

Lemma parse_args_keeps_declared_places_only_witness :
  FigureBuilder.elements
    (FigureBuilder.parse_args [("genomeTree-distmat", Py.Str "d.csv")] GigMapFigure).1
  = FigureBuilder.elements GigMapFigure
  ∧ FigureBuilder.stored "genomeTree" "distmat"
      (FigureBuilder.params
         (FigureBuilder.parse_args [("genomeTree-distmat", Py.Str "d.csv")]
            GigMapFigure).1)
    = Some (Py.Str "d.csv").
Proof.
  destruct (parse_args_keeps_declared_places_only
              [("genomeTree-distmat", Py.Str "d.csv")] GigMapFigure
              (FigureBuilder.parse_args [("genomeTree-distmat", Py.Str "d.csv")]
                 GigMapFigure).1) as (_ & Hel & _).
  - vm_compute. reflexivity.
  - split; [exact Hel|]. vm_compute. reflexivity.
Defined.

Lemma parse_args_fails_on_unmatched_destination_witness :
  ∃ fb' x, FigureBuilder.parse_args [] dashed = (fb', Py.Raise x).
Proof.
  apply (parse_args_fails_on_unmatched_destination [] dashed
           (FigureElement.new "my-tree" [argument "distmat" "Distance matrix" Py.None_]
              (FigureElement.GenomeTree 0 0))
           (argument "distmat" "Distance matrix" Py.None_)).
  - by constructor.
  - by constructor.
  - intros a Ha. by apply elem_of_nil in Ha.
  - intros ea Hea. apply list_elem_of_singleton in Hea as ->. vm_compute. discriminate.
Defined.

Lemma read_data_stops_at_first_failure_witness :
  ∃ fb',
    FigureBuilder.read_data failing GigMapFigure
    = (fb', Py.Raise (Py.Exception "no tree"))
    ∧ length (FigureBuilder.events fb') = 4%nat.
Proof.
  destruct (read_data_stops_at_first_failure failing GigMapFigure
              [GenomeAnnotations; GeneAnnotations] GenomeTree
              [GeneGenomeHeatmap; GeneGenomeColorbar] (Py.Exception "no tree"))
    as (fb' & Hrun & Hev & _).
  - reflexivity.
  - by eexists.
  - apply Forall_forall. repeat constructor; by eexists.
  - reflexivity.
  - exists fb'. split; [done|]. by rewrite Hev.
Defined.

Lemma plot_step_gets_what_its_read_step_returned_witness :
  ∃ fb1 fb2,
    FigureBuilder.read_data quiet GigMapFigure = (fb1, Py.Return tt)
    ∧ FigureBuilder.make_plots quiet fb1 = (fb2, Py.Return tt).
Proof.
  destruct (plot_step_gets_what_its_read_step_returned quiet GigMapFigure)
    as (fb1 & fb2 & Hread & Hplot & _).
  - intros ev. by exists Py.None_.
  - apply (bool_decide_unpack _). vm_compute. exact I.
  - by exists fb1, fb2.
Defined.

Lemma make_plots_stops_at_first_failure_witness :
  ∃ fb',
    FigureBuilder.make_plots failing loaded = (fb', Py.Raise (Py.Exception "no tree"))
    ∧ length (FigureBuilder.events fb') = 3%nat.
Proof.
  destruct (make_plots_stops_at_first_failure failing loaded
              [GenomeAnnotations; GeneAnnotations] GenomeTree
              [GeneGenomeHeatmap; GeneGenomeColorbar] (Py.Exception "no tree"))
    as (fb' & Hrun & Hev & _).
  - reflexivity.
  - apply Forall_forall. repeat constructor; by eexists.
  - apply Forall_forall. repeat constructor; by eexists.
  - reflexivity.
  - exists fb'. split; [done|]. by rewrite Hev.
Defined.


Lemma colorbar_without_heatmap_raises_witness :
  HeatmapColorbarElement_read_f 0 lonely_colorbar
  = (FigureBuilder.with_elements (alter FigureElement.disable 0%nat) lonely_colorbar,
     Py.Raise (Py.KeyError "genomeHeatmap")).
Proof.
  apply (colorbar_without_heatmap_raises 0 lonely_colorbar GeneGenomeColorbar
           "genomeHeatmap" 2 (-1) "Percent Identity").
  - reflexivity.
  - reflexivity.
  - apply (bool_decide_unpack _). vm_compute. exact I.
Defined.

Lemma colorbar_pairs_with_the_last_heatmap_witness :
  ∃ fb',
    HeatmapColorbarElement_read_f 4 GigMapFigure = (fb', Py.Return tt)
    ∧ FigureElement.heatmap_elem <$> FigureBuilder.elements fb' !! 4%nat
      = Some (Some 3%nat).
Proof.
  destruct (colorbar_pairs_with_the_last_heatmap 4 GigMapFigure GeneGenomeColorbar 3
              GeneGenomeHeatmap "genomeHeatmap" 2 (-1) "Percent Identity")
    as (fb' & Hrun & Hlink & _).
  - reflexivity.
  - reflexivity.
  - reflexivity.
  - reflexivity.
  - intros j e' Hlt Hj. destruct j as [|[|[|[|[|j]]]]]; try lia.
    + injection Hj as <-. vm_compute. discriminate.
    + simpl in Hj. discriminate.
  - by exists fb'.
Defined.

Lemma heatmap_stops_at_a_missing_column_witness :
  (HeatmapElement_read_f files 3 (Some "alignments.csv") wrong_kwargs GigMapFigure).2
  = Py.Raise (Py.AssertionError "csv does not contain column").
Proof.
  rewrite (heatmap_stops_at_a_missing_column files 3 GigMapFigure GeneGenomeHeatmap
             "alignments.csv" wrong_kwargs alignments "gene" "genome" "pident"
             (Py.Str "blues") "gene" "sseqid" "genome" "genome" "pident" 0 1 0).
  - reflexivity.
  - reflexivity.
  - reflexivity.
  - reflexivity.
  - vm_compute. reflexivity.
  - vm_compute. reflexivity.
  - vm_compute. reflexivity.
  - vm_compute. reflexivity.
  - left. apply (bool_decide_unpack _). vm_compute. exact I.
Defined.

Lemma heatmap_needs_one_row_per_pair_witness :
  ∃ fb',
    HeatmapElement_read_f archive 3 (Some "repeated.csv") heatmap_kwargs GigMapFigure
    = (fb', Py.Raise (Py.ValueError "Index contains duplicate entries, cannot reshape")).
Proof.
  destruct (heatmap_needs_one_row_per_pair archive 3 GigMapFigure GeneGenomeHeatmap
              "repeated.csv" heatmap_kwargs repeated "sseqid" "genome" "pident"
              (Py.Str "blues")
              [pd.Str "g1"; pd.Str "g1"] [pd.Str "A"; pd.Str "A"] [pd.Num 80; pd.Num 95]
              ["g1"; "g1"] ["A"; "A"] (pd.Num 80) (pd.Num 95)
              "gene" "sseqid" "genome" "genome" "pident" 0 1 0)
    as (fb' & Hrun & _).
  - reflexivity.
  - reflexivity.
  - reflexivity.
  - vm_compute. reflexivity.
  - vm_compute. reflexivity.
  - vm_compute. reflexivity.
  - vm_compute. reflexivity.
  - reflexivity.
  - reflexivity.
  - reflexivity.
  - reflexivity.
  - reflexivity.
  - vm_compute. reflexivity.
  - vm_compute. reflexivity.
  - apply (bool_decide_unpack _). vm_compute. exact I.
  - by exists fb'.
Defined.

Lemma order_by_linkage_permutes_the_labels_witness :
  ∃ order,
    order_by_linkage files wide "ward" "euclidean" = Py.Return order
    ∧ order ≡ₚ ["A"; "B"].
Proof.
  apply (order_by_linkage_permutes_the_labels files wide "ward" "euclidean" [0; 1]%nat).
  - reflexivity.
  - reflexivity.
Defined.

Lemma heatmap_suggests_reorderings_witness :
  ∃ df_wide,
    FigureElement.df_wide
      <$> FigureBuilder.elements
            (HeatmapElement_read_f files 3 (Some "alignments.csv") heatmap_kwargs
               GigMapFigure).1 !! 3%nat
    = Some (Some df_wide).
Proof.
  destruct (heatmap_suggests_reorderings files 3 GeneGenomeHeatmap "alignments.csv"
              heatmap_kwargs GigMapFigure
              (HeatmapElement_read_f files 3 (Some "alignments.csv") heatmap_kwargs
                 GigMapFigure).1
              "gene" "sseqid" "genome" "genome" "pident" 0 1 0)
    as (df_wide & evs & Hwide & _).
  - intros df method metric L. simpl. case_decide; [|done]. by intros [= <-].
  - reflexivity.
  - reflexivity.
  - vm_compute. reflexivity.
  - by exists df_wide.
Defined.

Lemma genome_labels_default_to_the_names_witness :
  apply_genome_labels unlabelled = (set_genome_labels ["B"; "A"] unlabelled, Py.Return tt).
Proof.
  apply (genome_labels_default_to_the_names unlabelled ["B"; "A"]).
  - vm_compute. reflexivity.
  - vm_compute. reflexivity.
Defined.

Lemma genome_labels_are_cut_annotations_witness :
  ∃ genome_order labels,
    datum_of labelled "global" "genome_order" = Py.Return (Names genome_order)
    ∧ (apply_genome_labels labelled).1 = set_genome_labels labels labelled.
Proof.
  destruct (genome_labels_are_cut_annotations labelled (apply_genome_labels labelled).1)
    as (genome_order & labels & Horder & Hfig & _).
  - vm_compute. reflexivity.
  - by exists genome_order, labels.
Defined.

(** The labels of the three genomes: two annotations cut to three
    characters, and the name of the genome that has none. *)
Example genome_labels_on_the_figure :
  fig_data (apply_genome_labels labelled).1 !! "global" ≫= (.!! "genome_labels")
  = Some (Names ["Bac"; "Esc"; "C"]).
Proof. vm_compute. reflexivity. Qed.

Lemma annotation_order_file_decides_witness :
  FigureAxis.is_fixed
    (FigureBuilder.axis "genome"
       (AxisAnnot_read_f files 0 (Some "annotations.csv") (Some "genome_id")
          (Some "name") (Some 60) (Some "order.txt") GigMapFigure).1)
  = true.
Proof.
  destruct (annotation_order_file_decides files 0 GenomeAnnotations "annotations.csv"
              (Some "genome_id") (Some "name") (Some 60) "order.txt" GigMapFigure
              (AxisAnnot_read_f files 0 (Some "annotations.csv") (Some "genome_id")
                 (Some "name") (Some 60) (Some "order.txt") GigMapFigure).1
              "genome" "v" 2 "Formatted Name")
    as (lines & series & t & c & ids & _ & _ & _ & _ & _ & _ & _ & _ & Hfixed).
  - reflexivity.
  - reflexivity.
  - vm_compute. reflexivity.
  - exact Hfixed.
Defined.

Lemma annotation_labels_default_to_the_ids_witness :
  ∃ series,
    FigureBuilder.events
      (AxisAnnot_read_f files 0 (Some "annotations.csv") (Some "genome_id") None
         (Some 1) None GigMapFigure).1
    = [FigureBuilder.set_called "genome" series].
Proof.
  destruct (annotation_labels_default_to_the_ids files 0 GenomeAnnotations
              "annotations.csv" (Some "genome_id") (Some 1) None GigMapFigure
              (AxisAnnot_read_f files 0 (Some "annotations.csv") (Some "genome_id") None
                 (Some 1) None GigMapFigure).1
              annotations "genome" "v" 2 "Formatted Name")
    as (series & Hev & _).
  - reflexivity.
  - reflexivity.
  - reflexivity.
  - repeat constructor.
  - vm_compute. reflexivity.
  - by exists series.
Defined.

End MoreRuns.
